(** * PipelineGuardian: rule-based asset inspection, shallow embedding

    The development follows the C++ sources of the plugin:
    - [UPipelineGuardianProfile] (rule configurations, JSON export/import),
    - [FStaticMeshLODPolyReductionRule] (LOD reduction check and repair),
    - [FStaticMeshUVOverlappingRule] (UV bounding-box overlap analysis),
    - [FAssetScanner] (analyzer registry and dispatch),
    - [SPipelineGuardianWindow::OnAssetScanPhaseComplete] (the scan loop).

    Conventions.  C++ [float] and [double] are IEEE-754 binary32 and binary64,
    modelled with the executable [spec_float] operations of the standard
    library.  [int32] values are integers in [Z].  [FString] and [FName] are
    modelled by their canonical text.  Log output is not part of the state.
    Engine services the plugin only calls (C runtime [atof], [powf], the JSON
    text reader and writer, the mesh builder) are variables of the sections
    that use them. *)

From Stdlib Require Import ZArith Lia Ascii SpecFloat.
From stdpp Require Import base option strings pretty list gmap.

Set Warnings "-register-all".
#[local] Open Scope Z_scope.

(** ** IEEE-754 arithmetic as the C++ code uses it *)

Module Flt.
(** binary32: C++ [float]. *)
Definition prec : Z := 24.
Definition emax : Z := 128.
Definition add := SFadd prec emax.
Definition sub := SFsub prec emax.
Definition mul := SFmul prec emax.
Definition div := SFdiv prec emax.
Definition ltb := SFltb.
Definition of_int (z : Z) : spec_float := binary_normalize prec emax z 0 false.
(** Narrowing conversion [(float)d], round to nearest even. *)
Definition of_double (d : spec_float) : spec_float :=
  match d with
  | S754_finite s m e => binary_round prec emax s m e
  | _ => d
  end.
Definition zero : spec_float := S754_zero false.
(** Decimal literal [n / 10^k] written in the source, e.g. [0.8f]. *)
Definition lit (n : Z) (k : Z) : spec_float := div (of_int n) (of_int (10 ^ k)).
End Flt.

Module Dbl.
(** binary64: C++ [double]. *)
Definition prec : Z := 53.
Definition emax : Z := 1024.
Definition add := SFadd prec emax.
Definition sub := SFsub prec emax.
Definition mul := SFmul prec emax.
Definition div := SFdiv prec emax.
Definition ltb := SFltb.
Definition of_int (z : Z) : spec_float := binary_normalize prec emax z 0 false.
(** Widening conversion [(double)f], exact. *)
Definition of_float (f : spec_float) : spec_float :=
  match f with
  | S754_finite s m e => binary_round prec emax s m e
  | _ => f
  end.
Definition zero : spec_float := S754_zero false.
End Dbl.

Abbreviation float := spec_float (only parsing).
Abbreviation double := spec_float (only parsing).

Definition INT32_MIN : Z := - 2 ^ 31.
Definition INT32_MAX : Z := 2 ^ 31 - 1.

(** The engine's [FMath] templates (GenericPlatformMath.h). *)
Module FMath.
(** [Max(A,B) = (B < A) ? A : B] and [Min(A,B) = (A < B) ? A : B]. *)
Definition Max (A B : spec_float) : spec_float := if SFltb B A then A else B.
Definition Min (A B : spec_float) : spec_float := if SFltb A B then A else B.
(** [Clamp(X,Min,Max) = Max(Min(X,Max),Min)]. *)
Definition Clamp (X MinValue MaxValue : spec_float) : spec_float :=
  Max (Min X MaxValue) MinValue.
Definition Abs (A : spec_float) : spec_float := SFabs A.

(** Integer floor of a finite value; [None] for infinities and NaN. *)
Definition floor (x : spec_float) : option Z :=
  match x with
  | S754_zero _ => Some 0
  | S754_finite s m e =>
      let v := cond_Zopp s (Zpos m) in
      Some (if 0 <=? e then v * 2 ^ e else v / 2 ^ (- e))
  | _ => None
  end.

(** Truncation toward zero of a finite value. *)
Definition trunc (x : spec_float) : option Z :=
  match x with
  | S754_zero _ => Some 0
  | S754_finite s m e =>
      let a := if 0 <=? e then Zpos m * 2 ^ e else Zpos m / 2 ^ (- e) in
      Some (cond_Zopp s a)
  | _ => None
  end.

(** Conversion of an integer-valued result to [int32]; values that do not
    fit are the x86 "integer indefinite" value, as for [cvttss2si]. *)
Definition to_int32 (z : option Z) : Z :=
  match z with
  | Some v => if (INT32_MIN <=? v) && (v <=? INT32_MAX) then v else INT32_MIN
  | None => INT32_MIN
  end.

(** [FloorToInt(F)] and [RoundToInt(F) = FloorToInt(F + 0.5f)]. *)
Definition FloorToInt (F : spec_float) : Z := to_int32 (floor F).
Definition RoundToInt (F : spec_float) : Z :=
  FloorToInt (Flt.add F (Flt.lit 5 1)).

(** Integer [Max] as used on [int32] counts. *)
Definition MaxInt (A B : Z) : Z := if B <? A then A else B.
End FMath.

(** ** Result model (FAssetAnalysisResult.h) *)

(** [enum class EAssetIssueSeverity : uint8], in declaration order. *)
Inductive EAssetIssueSeverity : Set :=
| Critical
| Error
| Warning
| Info.

(** The underlying [uint8] value of an enumerator. *)
Definition severity_value (s : EAssetIssueSeverity) : Z :=
  match s with
  | Critical => 0
  | Error => 1
  | Warning => 2
  | Info => 3
  end.

(** The built-in [>] of the enum class compares the underlying values. *)
Definition severity_gt (a b : EAssetIssueSeverity) : bool :=
  severity_value b <? severity_value a.

#[global] Instance EAssetIssueSeverity_eq_dec : EqDecision EAssetIssueSeverity.
Proof. solve_decision. Defined.

(** ** Profile store (FPipelineGuardianProfile.h / .cpp) *)

Abbreviation FString := string (only parsing).
Abbreviation FName := string (only parsing).

Definition NAME_None : FName := "None".

Record FPipelineGuardianRuleConfig := MkRuleConfig {
  RuleID : FName;
  bEnabled : bool;
  Parameters : gmap string string
}.

(** [FPipelineGuardianRuleConfig()] and
    [FPipelineGuardianRuleConfig(InRuleID, bInEnabled = true)]. *)
Definition DefaultRuleConfig : FPipelineGuardianRuleConfig :=
  MkRuleConfig NAME_None true ∅.
Definition NewRuleConfig (InRuleID : FName) (bInEnabled : bool) :
  FPipelineGuardianRuleConfig :=
  MkRuleConfig InRuleID bInEnabled ∅.

(** [Config.Parameters.Add(Key, Value)]. *)
Definition AddParameter (k v : FString) (c : FPipelineGuardianRuleConfig) :
  FPipelineGuardianRuleConfig :=
  MkRuleConfig (RuleID c) (bEnabled c) (<[k := v]> (Parameters c)).

Record UPipelineGuardianProfile := MkProfile {
  ProfileName : FString;
  Description : FString;
  Version : Z;
  RuleConfigs : list FPipelineGuardianRuleConfig
}.

Definition with_RuleConfigs (l : list FPipelineGuardianRuleConfig)
    (p : UPipelineGuardianProfile) : UPipelineGuardianProfile :=
  MkProfile (ProfileName p) (Description p) (Version p) l.

(** [RuleConfigs.FindByPredicate(Config.RuleID == RuleID)]: position and
    value of the first match. *)
Definition FindRuleConfig (l : list FPipelineGuardianRuleConfig) (id : FName) :
  option (nat * FPipelineGuardianRuleConfig) :=
  list_find (λ c, RuleID c = id) l.

Definition GetRuleConfigPtr (p : UPipelineGuardianProfile) (id : FName) :
  option FPipelineGuardianRuleConfig :=
  snd <$> FindRuleConfig (RuleConfigs p) id.

Definition GetRuleConfig (p : UPipelineGuardianProfile) (id : FName) :
  FPipelineGuardianRuleConfig :=
  match GetRuleConfigPtr p id with
  | Some c => c
  | None => DefaultRuleConfig
  end.

(** [SetRuleConfig]: overwrite the first entry with the same RuleID, or
    append. *)
Definition SetRuleConfigs (cfg : FPipelineGuardianRuleConfig)
    (l : list FPipelineGuardianRuleConfig) : list FPipelineGuardianRuleConfig :=
  match FindRuleConfig l (RuleID cfg) with
  | Some (i, _) => <[i := cfg]> l
  | None => l ++ [cfg]
  end.

Definition SetRuleConfig (cfg : FPipelineGuardianRuleConfig)
    (p : UPipelineGuardianProfile) : UPipelineGuardianProfile :=
  with_RuleConfigs (SetRuleConfigs cfg (RuleConfigs p)) p.

Definition IsRuleEnabled (p : UPipelineGuardianProfile) (id : FName) : bool :=
  match GetRuleConfigPtr p id with
  | Some c => bEnabled c
  | None => false
  end.

Definition GetRuleParameter (p : UPipelineGuardianProfile) (id : FName)
    (ParameterName DefaultValue : FString) : FString :=
  match GetRuleConfigPtr p id with
  | Some c =>
      match Parameters c !! ParameterName with
      | Some v => v
      | None => DefaultValue
      end
  | None => DefaultValue
  end.

(** [InitializeDefaultRules], run by the constructor on an empty array. *)
Definition SMNamingRule : FPipelineGuardianRuleConfig :=
  AddParameter "NamingPattern" "SM_*" (NewRuleConfig "SM_Naming" true).

Definition SMLODMissingRule : FPipelineGuardianRuleConfig :=
  NewRuleConfig "SM_LODMissing" true.

Definition SMLODPolyReductionRule : FPipelineGuardianRuleConfig :=
  AddParameter "ErrorThreshold" "10.0"
    (AddParameter "WarningThreshold" "20.0"
      (AddParameter "MinReductionPercentage" "30.0"
        (NewRuleConfig "SM_LODPolyReduction" true))).

Definition SMUVOverlappingRule : FPipelineGuardianRuleConfig :=
  AddParameter "AllowAutoFix" "true"
    (AddParameter "LightmapErrorThreshold" "8.0"
      (AddParameter "LightmapWarningThreshold" "2.0"
        (AddParameter "TextureErrorThreshold" "15.0"
          (AddParameter "TextureWarningThreshold" "5.0"
            (AddParameter "LightmapUVTolerance" "0.0005"
              (AddParameter "TextureUVTolerance" "0.001"
                (AddParameter "CheckUVChannel3" "false"
                  (AddParameter "CheckUVChannel2" "false"
                    (AddParameter "CheckUVChannel1" "true"
                      (AddParameter "CheckUVChannel0" "true"
                        (AddParameter "Severity" "Warning"
                          (NewRuleConfig "SM_UVOverlapping" true)))))))))))).

Definition SMTriangleCountRule : FPipelineGuardianRuleConfig :=
  AddParameter "PerformanceLODReductionTarget" "60.0"
    (AddParameter "AllowAutoFix" "true"
      (AddParameter "ErrorThreshold" "100000"
        (AddParameter "WarningThreshold" "50000"
          (AddParameter "Severity" "Warning"
            (NewRuleConfig "SM_TriangleCount" true))))).

Definition InitializeDefaultRules (p : UPipelineGuardianProfile) :
  UPipelineGuardianProfile :=
  SetRuleConfig SMTriangleCountRule
    (SetRuleConfig SMUVOverlappingRule
      (SetRuleConfig SMLODPolyReductionRule
        (SetRuleConfig SMLODMissingRule
          (SetRuleConfig SMNamingRule p)))).

(** The constructor [UPipelineGuardianProfile()]. *)
Definition NewProfile : UPipelineGuardianProfile :=
  InitializeDefaultRules
    (MkProfile "Default Profile" "Default Pipeline Guardian profile" 1 []).

(** Uniqueness by RuleID: at most one configuration per identifier. *)
Definition UniqueRuleIDs (p : UPipelineGuardianProfile) : Prop :=
  NoDup (RuleID <$> RuleConfigs p).

(** ** JSON documents (the engine's Dom/JsonObject.h) *)

Inductive FJsonValue :=
| JNull
| JString (s : string)
| JNumber (d : spec_float)
| JBool (b : bool)
| JArray (l : list FJsonValue)
| JObject (o : gmap string FJsonValue).

Abbreviation FJsonObject := (gmap string FJsonValue) (only parsing).

Section Json.
(** Engine conversions between JSON kinds, and the text writer and reader
    ([FJsonSerializer::Serialize], [FJsonSerializer::Deserialize]). *)
Variable SanitizeFloat : spec_float -> string.
Variable ToBool : string -> bool.
Variable StringToNumber : string -> option spec_float.
Variable Serialize : gmap string FJsonValue -> string.
Variable Deserialize : string -> option (gmap string FJsonValue).

Definition TryGetString (v : FJsonValue) : option string :=
  match v with
  | JString s => Some s
  | JNumber d => Some (SanitizeFloat d)
  | JBool b => Some (if b then "true" else "false")
  | _ => None
  end.

Definition TryGetBool (v : FJsonValue) : option bool :=
  match v with
  | JBool b => Some b
  | JNumber d => Some (negb (SFeqb d Dbl.zero))
  | JString s => Some (ToBool s)
  | _ => None
  end.

Definition TryGetNumber (v : FJsonValue) : option spec_float :=
  match v with
  | JNumber d => Some d
  | JBool b => Some (Dbl.of_int (if b then 1 else 0))
  | JString s => StringToNumber s
  | _ => None
  end.

Definition TryGetObject (v : FJsonValue) : option (gmap string FJsonValue) :=
  match v with
  | JObject o => Some o
  | _ => None
  end.

Definition TryGetArray (v : FJsonValue) : option (list FJsonValue) :=
  match v with
  | JArray l => Some l
  | _ => None
  end.

Definition HasField (o : gmap string FJsonValue) (k : string) : bool :=
  bool_decide (is_Some (o !! k)).

(** [GetStringField]: the text of the field, empty when it has none. *)
Definition GetStringField (o : gmap string FJsonValue) (k : string) : string :=
  default "" (o !! k ≫= TryGetString).

(** [GetIntegerField]: [(int32)GetNumberField(k)], zero when the field is
    no number. *)
Definition GetIntegerField (o : gmap string FJsonValue) (k : string) : Z :=
  FMath.to_int32 (FMath.trunc (default Dbl.zero (o !! k ≫= TryGetNumber))).

Definition TryGetStringField (o : gmap string FJsonValue) (k : string) :=
  o !! k ≫= TryGetString.
Definition TryGetBoolField (o : gmap string FJsonValue) (k : string) :=
  o !! k ≫= TryGetBool.
Definition TryGetObjectField (o : gmap string FJsonValue) (k : string) :=
  o !! k ≫= TryGetObject.
Definition TryGetArrayField (o : gmap string FJsonValue) (k : string) :=
  o !! k ≫= TryGetArray.

(** *** ExportToJSON *)

(** The loop [for Param in RuleConfig.Parameters: SetStringField]. *)
Definition ExportParameters (ps : gmap string string) : gmap string FJsonValue :=
  map_fold (λ k v (o : gmap string FJsonValue), <[k := JString v]> o) ∅ ps.

Definition ExportRule (c : FPipelineGuardianRuleConfig) : FJsonValue :=
  JObject
    (<["Parameters" := JObject (ExportParameters (Parameters c))]>
      (<["Enabled" := JBool (bEnabled c)]>
        (<["RuleID" := JString (RuleID c)]> ∅))).

(** The root object built by [ExportToJSON] before it is written out. *)
Definition ExportRoot (p : UPipelineGuardianProfile) : gmap string FJsonValue :=
  <["Rules" := JArray
      (foldl (λ arr c, arr ++ [ExportRule c]) [] (RuleConfigs p))]>
    (<["Version" := JNumber (Dbl.of_int (Version p))]>
      (<["Description" := JString (Description p)]>
        (<["ProfileName" := JString (ProfileName p)]> ∅))).

Definition ExportToJSON (p : UPipelineGuardianProfile) : string :=
  Serialize (ExportRoot p).

(** *** ImportFromJSON *)

Definition ImportParameters (po : gmap string FJsonValue) (ps : gmap string string) :
  gmap string string :=
  map_fold (λ k v (acc : gmap string string),
              match TryGetString v with
              | Some s => <[k := s]> acc
              | None => acc
              end) ps po.

(** One element of the "Rules" array; elements that are no objects are
    skipped. *)
Definition ImportRule (v : FJsonValue) : option FPipelineGuardianRuleConfig :=
  match TryGetObject v with
  | Some o =>
      let c0 := DefaultRuleConfig in
      let id := match TryGetStringField o "RuleID" with
                | Some s => s
                | None => RuleID c0
                end in
      let en := match TryGetBoolField o "Enabled" with
                | Some b => b
                | None => bEnabled c0
                end in
      let ps := match TryGetObjectField o "Parameters" with
                | Some po => ImportParameters po (Parameters c0)
                | None => Parameters c0
                end in
      Some (MkRuleConfig id en ps)
  | None => None
  end.

Definition ImportRules (arr : list FJsonValue) : list FPipelineGuardianRuleConfig :=
  foldl (λ cfgs v, match ImportRule v with
                   | Some c => cfgs ++ [c]
                   | None => cfgs
                   end) [] arr.

Definition ImportRoot (root : gmap string FJsonValue) (p : UPipelineGuardianProfile) :
  UPipelineGuardianProfile :=
  let name := if HasField root "ProfileName"
              then GetStringField root "ProfileName" else ProfileName p in
  let desc := if HasField root "Description"
              then GetStringField root "Description" else Description p in
  let ver := if HasField root "Version"
             then GetIntegerField root "Version" else Version p in
  let cfgs := match TryGetArrayField root "Rules" with
              | Some arr => ImportRules arr
              | None => []
              end in
  MkProfile name desc ver cfgs.

(** [ImportFromJSON]: the success flag and the profile afterwards. *)
Definition ImportFromJSON (JSONString : string) (p : UPipelineGuardianProfile) :
  bool * UPipelineGuardianProfile :=
  match Deserialize JSONString with
  | None => (false, p)
  | Some root => (true, ImportRoot root p)
  end.
End Json.

(** ** Assets and results *)

(** A class of the engine's reflection system with its chain of ancestors
    ([UClass::GetSuperClass]); the root class has no super class. *)
Inductive UClass :=
| MkClass (ClassName : FName) (SuperClass : option UClass).

Definition GetClassName (c : UClass) : FName :=
  match c with MkClass n _ => n end.
Definition GetSuperClass (c : UClass) : option UClass :=
  match c with MkClass _ s => s end.

Inductive EMeshFeatureImportance : Set :=
| ImportanceOff | ImportanceLowest | ImportanceLow | ImportanceNormal
| ImportanceHigh | ImportanceHighest.

Record FMeshReductionSettings := MkReductionSettings {
  PercentTriangles : spec_float;
  PercentVertices : spec_float;
  MaxDeviation : spec_float;
  PixelError : spec_float;
  WeldingThreshold : spec_float;
  HardAngleThreshold : spec_float;
  BaseLODModel : Z;
  SilhouetteImportance : EMeshFeatureImportance;
  TextureImportance : EMeshFeatureImportance;
  ShadingImportance : EMeshFeatureImportance
}.

Record FStaticMeshLODResources := MkLODResources {
  GetNumTriangles : Z;
  GetNumVertices : Z
}.

(** The part of [FMeshDescription] the UV rule reads: the number of UV
    channels of the vertex-instance UV attribute ([None] when the attribute
    is not valid), the triangles with their vertex instances, and the UV
    coordinates (binary32 pairs) per vertex instance and channel. *)
Record FMeshDescription := MkMeshDescription {
  NumUVChannels : option Z;
  Triangles : list (Z * list Z);
  VertexInstanceUVs : Z -> Z -> spec_float * spec_float
}.

Record UStaticMesh := MkStaticMesh {
  MeshName : FString;
  MeshPackageName : FString;
  RenderData : option (list FStaticMeshLODResources);
  SourceModels : list FMeshReductionSettings;
  MeshDescription0 : option FMeshDescription;
  LightMapCoordinateIndex : Z;
  bModified : bool;
  bPackageDirty : bool
}.

Inductive UObject :=
| StaticMeshObject (c : UClass) (m : UStaticMesh)
| OtherObject (c : UClass).

Definition GetClass (o : UObject) : UClass :=
  match o with
  | StaticMeshObject c _ => c
  | OtherObject c => c
  end.

(** [Cast<UStaticMesh>(Asset)] on a possibly null pointer. *)
Definition CastStaticMesh (Asset : option UObject) : option UStaticMesh :=
  match Asset with
  | Some (StaticMeshObject _ m) => Some m
  | _ => None
  end.

(** [FAssetData]: the identity of an asset in the registry. *)
Record FAssetData := MkAssetData {
  PackageName : FName;
  AssetName : FName
}.

#[global] Instance FAssetData_eq_dec : EqDecision FAssetData.
Proof. solve_decision. Defined.

Definition AssetIsValid (d : FAssetData) : bool :=
  negb (bool_decide (PackageName d = NAME_None)) &&
  negb (bool_decide (AssetName d = NAME_None)).

(** [FAssetData(StaticMesh)]. *)
Definition AssetDataOfMesh (m : UStaticMesh) : FAssetData :=
  MkAssetData (MeshPackageName m) (MeshName m).

(** What a bound [FixAction] delegate will run: the target asset and the
    captured arguments of the lambda. *)
Inductive FixCommand :=
| FixAllLODReductionsAction (Target : FAssetData) (ProblematicLODs : list nat)
    (TargetReductionPercentage : spec_float)
| OptimizeMaterialSlotsAction (Target : FAssetData) (EmptySlotIndices : list Z).

Record FAssetAnalysisResult := MkResult {
  Asset : FAssetData;
  Severity : EAssetIssueSeverity;
  ResultRuleID : FName;
  ResultDescription : FString;
  FilePath : FString;
  FixAction : option FixCommand
}.

(** [TArray::AddUnique]. *)
Definition AddUnique {A} `{EqDecision A} (x : A) (l : list A) : list A :=
  if decide (x ∈ l) then l else l ++ [x].

(** The line feed of the message texts. *)
Definition LF : string := String "010"%char "".

(** Decimal rendering of an integer, as [%d] does. *)
Definition FormatInt (z : Z) : string := pretty z.

(** ** FStaticMeshLODPolyReductionRule *)

Module LODRule.
Section WithEngine.
(** [FCString::Atof], the [%.1f] conversion of [FString::Printf],
    [FText::AsNumber], and whether the mesh reduction module hands out a
    reduction interface. *)
Variable Atof : string -> spec_float.
Variable FormatFloat1 : spec_float -> string.
Variable AsNumber : Z -> string.
Variable MeshReductionInterface : bool.

Definition GetRuleID : FName := "SM_LODPolyReduction".

Definition GetLODTriangleCount (StaticMesh : UStaticMesh) (LODIndex : nat) : Z :=
  match RenderData StaticMesh with
  | None => 0
  | Some LODResources =>
      match LODResources !! LODIndex with
      | Some r => GetNumTriangles r
      | None => 0
      end
  end.

Definition CalculateReductionPercentage (HigherLODTriangles LowerLODTriangles : Z) :
  spec_float :=
  if HigherLODTriangles =? 0 then Flt.zero
  else
    let ReductionRatio :=
      Flt.div (Flt.of_int (HigherLODTriangles - LowerLODTriangles))
              (Flt.of_int HigherLODTriangles) in
    Flt.mul ReductionRatio (Flt.of_int 100).

Definition CanFixLODReduction (StaticMesh : UStaticMesh) : bool :=
  match RenderData StaticMesh with
  | None => false
  | Some [] => false
  | Some (BaseLOD :: _) =>
      if GetNumVertices BaseLOD =? 0 then false else MeshReductionInterface
  end.

Definition GetSeverityForReduction
    (ActualReduction MinReduction WarningThreshold ErrorThreshold : spec_float) :
  EAssetIssueSeverity :=
  if SFltb ActualReduction ErrorThreshold then Error
  else if SFltb ActualReduction WarningThreshold then Warning
  else if SFltb ActualReduction MinReduction then Info
  else Warning.

(** The text built for one problematic pair. *)
Definition ReductionText (ReductionPercentage : spec_float) : string :=
  if SFltb ReductionPercentage (Flt.of_int 0)
  then "INCREASE of " +:+ FormatFloat1 (FMath.Abs ReductionPercentage) +:+ "%"
  else FormatFloat1 ReductionPercentage +:+ "% reduction".

Definition PairDescription (LODIndex : nat) (ReductionPercentage
    MinReductionPercentage : spec_float) : string :=
  "LOD" +:+ FormatInt (Z.of_nat LODIndex - 1) +:+ "→LOD" +:+
  FormatInt (Z.of_nat LODIndex) +:+ ": " +:+ ReductionText ReductionPercentage +:+
  " (need " +:+ FormatFloat1 MinReductionPercentage +:+ "%)".

(** The locals the pair loop of [Check] updates. *)
Record CheckState := MkCheckState {
  ProblematicLODs : list nat;
  bFoundIssues : bool;
  WorstSeverity : EAssetIssueSeverity;
  IssueDescription : string
}.

Definition InitialCheckState : CheckState := MkCheckState [] false Info "".

(** One iteration of the loop over consecutive LOD pairs,
    [LODIndex = 1 .. LODCount - 1]. *)
Definition CheckPair (StaticMesh : UStaticMesh)
    (MinReductionPercentage WarningThreshold ErrorThreshold : spec_float)
    (st : CheckState) (LODIndex : nat) : CheckState :=
  let PreviousLODTriangles := GetLODTriangleCount StaticMesh (LODIndex - 1) in
  let CurrentLODTriangles := GetLODTriangleCount StaticMesh LODIndex in
  if (PreviousLODTriangles =? 0) || (CurrentLODTriangles =? 0) then st
  else
    let ReductionPercentage :=
      CalculateReductionPercentage PreviousLODTriangles CurrentLODTriangles in
    if SFltb ReductionPercentage MinReductionPercentage then
      let CurrentSeverity :=
        GetSeverityForReduction ReductionPercentage MinReductionPercentage
          WarningThreshold ErrorThreshold in
      MkCheckState
        (AddUnique LODIndex (ProblematicLODs st))
        true
        (if severity_gt CurrentSeverity (WorstSeverity st)
         then CurrentSeverity else WorstSeverity st)
        ((if bool_decide (IssueDescription st = "") then ""
          else IssueDescription st +:+ "; ") +:+
         PairDescription LODIndex ReductionPercentage MinReductionPercentage)
    else st.

Definition CheckPairs (StaticMesh : UStaticMesh)
    (MinReductionPercentage WarningThreshold ErrorThreshold : spec_float)
    (LODCount : nat) : CheckState :=
  foldl (CheckPair StaticMesh MinReductionPercentage WarningThreshold ErrorThreshold)
        InitialCheckState (seq 1 (LODCount - 1)).

Definition ComprehensiveDescription (StaticMesh : UStaticMesh) (st : CheckState)
    (MinReductionPercentage : spec_float) : string :=
  "Static Mesh '" +:+ MeshName StaticMesh +:+
  "' has insufficient polygon reduction in " +:+
  AsNumber (Z.of_nat (length (ProblematicLODs st))) +:+ " LOD level(s): " +:+
  IssueDescription st +:+ ". Required: " +:+
  AsNumber (FMath.RoundToInt MinReductionPercentage) +:+
  "% reduction between consecutive LODs.".

(** [Check]: the returned flag and the output array afterwards. *)
Definition Check (Asset : option UObject) (Profile : option UPipelineGuardianProfile)
    (OutResults : list FAssetAnalysisResult) : bool * list FAssetAnalysisResult :=
  match CastStaticMesh Asset with
  | None => (false, OutResults)
  | Some StaticMesh =>
      match Profile with
      | None => (false, OutResults)
      | Some Profile =>
          if negb (IsRuleEnabled Profile GetRuleID) then (false, OutResults)
          else
            let MinReductionPercentage :=
              Atof (GetRuleParameter Profile GetRuleID "MinReductionPercentage" "30.0") in
            let WarningThreshold :=
              Atof (GetRuleParameter Profile GetRuleID "WarningThreshold" "20.0") in
            let ErrorThreshold :=
              Atof (GetRuleParameter Profile GetRuleID "ErrorThreshold" "10.0") in
            match RenderData StaticMesh with
            | None => (false, OutResults)
            | Some LODResources =>
                if (length LODResources <? 2)%nat then (false, OutResults)
                else
                  let st := CheckPairs StaticMesh MinReductionPercentage
                              WarningThreshold ErrorThreshold (length LODResources) in
                  if bFoundIssues st && (0 <? length (ProblematicLODs st))%nat then
                    let Result :=
                      MkResult (AssetDataOfMesh StaticMesh) (WorstSeverity st) GetRuleID
                        (ComprehensiveDescription StaticMesh st MinReductionPercentage)
                        (MeshPackageName StaticMesh)
                        (if CanFixLODReduction StaticMesh
                         then Some (FixAllLODReductionsAction
                                      (AssetDataOfMesh StaticMesh)
                                      (ProblematicLODs st) MinReductionPercentage)
                         else None) in
                    (bFoundIssues st, OutResults ++ [Result])
                  else (bFoundIssues st, OutResults)
            end
      end
  end.

End WithEngine.
End LODRule.

(** *** The repair path: FixAllLODReductions *)

(** Calls into the editor that [FixAllLODReductions] makes, in order. *)
Inductive Event :=
| EvModify
| EvBuild
| EvMarkPackageDirty
| EvMessageDialog (Message Title : string).

#[global] Instance Event_eq_dec : EqDecision Event.
Proof. solve_decision. Defined.

(** The function either returns, leaving the mesh (if any) and the calls it
    made, or stops on an invalid array or pointer access. *)
Inductive FixOutcome :=
| FixCrash
| FixDone (Mesh : option UStaticMesh) (Events : list Event).

Module LODFix.
Section WithEngine.
(** [FMath::Pow] ([powf]), the mesh builder [UStaticMesh::Build], the
    [%.1f] conversion, [FText::AsNumber], and whether the mesh reduction
    module hands out a reduction interface. *)
Variable Pow : spec_float -> spec_float -> spec_float.
Variable Build : UStaticMesh -> UStaticMesh.
Variable FormatFloat1 : spec_float -> string.
Variable AsNumber : Z -> string.
Variable MeshReductionInterface : bool.

Definition Modify (m : UStaticMesh) : UStaticMesh :=
  MkStaticMesh (MeshName m) (MeshPackageName m) (RenderData m) (SourceModels m)
    (MeshDescription0 m) (LightMapCoordinateIndex m) true (bPackageDirty m).

Definition MarkPackageDirty (m : UStaticMesh) : UStaticMesh :=
  MkStaticMesh (MeshName m) (MeshPackageName m) (RenderData m) (SourceModels m)
    (MeshDescription0 m) (LightMapCoordinateIndex m) (bModified m) true.

Definition with_SourceModels (l : list FMeshReductionSettings) (m : UStaticMesh) :
  UStaticMesh :=
  MkStaticMesh (MeshName m) (MeshPackageName m) (RenderData m) l
    (MeshDescription0 m) (LightMapCoordinateIndex m) (bModified m)
    (bPackageDirty m).

(** [(100.0f - TargetReductionPercentage) / 100.0f]. *)
Definition KeepRatio (TargetReductionPercentage : spec_float) : spec_float :=
  Flt.div (Flt.sub (Flt.of_int 100) TargetReductionPercentage) (Flt.of_int 100).

(** The triangle count the progressive reduction assigns to the LOD before
    [LODIndex]. *)
Definition PreviousLODTriangles (BaseLODTriangles : Z)
    (TargetReductionPercentage : spec_float) (LODIndex : nat) : Z :=
  if bool_decide (LODIndex = 1%nat) then BaseLODTriangles
  else FMath.RoundToInt
         (Flt.mul (Flt.of_int BaseLODTriangles)
            (Pow (KeepRatio TargetReductionPercentage)
                 (Flt.of_int (Z.of_nat LODIndex - 1)))).

(** [TargetTriangleCount] of the loop body, after [FMath::Max(.., 4)]. *)
Definition TargetTriangleCount (BaseLODTriangles : Z)
    (TargetReductionPercentage : spec_float) (LODIndex : nat) : Z :=
  FMath.MaxInt
    (FMath.RoundToInt
       (Flt.div
          (Flt.mul
             (Flt.of_int
                (PreviousLODTriangles BaseLODTriangles TargetReductionPercentage LODIndex))
             (Flt.sub (Flt.of_int 100) TargetReductionPercentage))
          (Flt.of_int 100)))
    4.

(** [TargetTrianglePercentage]: the target relative to LOD0, clamped to
    [0.01f, 1.0f]. *)
Definition TargetTrianglePercentage (BaseLODTriangles : Z)
    (TargetReductionPercentage : spec_float) (LODIndex : nat) : spec_float :=
  FMath.Clamp
    (Flt.div
       (Flt.of_int (TargetTriangleCount BaseLODTriangles TargetReductionPercentage LODIndex))
       (Flt.of_int BaseLODTriangles))
    (Flt.lit 1 2) (Flt.of_int 1).

Definition NewReductionSettings (Percentage : spec_float) : FMeshReductionSettings :=
  MkReductionSettings Percentage Percentage Flt.zero (Flt.of_int 8) Flt.zero
    (Flt.of_int 80) 0 ImportanceNormal ImportanceNormal ImportanceNormal.

(** One iteration of the settings loop; a LOD without a source model is left
    alone. *)
Definition UpdateLODSettings (BaseLODTriangles : Z)
    (TargetReductionPercentage : spec_float)
    (Models : list FMeshReductionSettings) (LODIndex : nat) :
  list FMeshReductionSettings :=
  <[LODIndex :=
      NewReductionSettings
        (TargetTrianglePercentage BaseLODTriangles TargetReductionPercentage LODIndex)]>
    Models.

Definition UpdateAllLODSettings (BaseLODTriangles : Z)
    (TargetReductionPercentage : spec_float) (TotalLODs : nat)
    (Models : list FMeshReductionSettings) : list FMeshReductionSettings :=
  foldl (UpdateLODSettings BaseLODTriangles TargetReductionPercentage)
        Models (seq 1 (TotalLODs - 1)).

(** The locals of the verification loop. *)
Record VerifyState := MkVerifyState {
  NewTriangleCounts : list Z;
  ActualReductions : list spec_float;
  bAllFixesSuccessful : bool
}.

(** The test [FMath::Abs(ActualReduction - Target) > 5.0f]. *)
Definition OutsideTolerance (ActualReduction TargetReductionPercentage : spec_float) :
  bool :=
  SFltb (Flt.of_int 5)
        (FMath.Abs (Flt.sub ActualReduction TargetReductionPercentage)).

Definition ActualReduction (PreviousTriangles NewTriangleCount : Z) : spec_float :=
  Flt.mul
    (Flt.div (Flt.of_int (PreviousTriangles - NewTriangleCount))
             (Flt.of_int PreviousTriangles))
    (Flt.of_int 100).

(** One iteration of the verification loop over the rebuilt LODs; [None]
    when an array index is invalid. *)
Definition VerifyLOD (BaseLODTriangles : Z) (TargetReductionPercentage : spec_float)
    (LODResources : list FStaticMeshLODResources)
    (st : option VerifyState) (LODIndex : nat) : option VerifyState :=
  st ← st;
  PreviousTriangles ←
    (if bool_decide (LODIndex = 1%nat) then Some BaseLODTriangles
     else NewTriangleCounts st !! (LODIndex - 2)%nat);
  r ← LODResources !! LODIndex;
  let NewTriangleCount := GetNumTriangles r in
  let Actual := ActualReduction PreviousTriangles NewTriangleCount in
  Some (MkVerifyState
          (NewTriangleCounts st ++ [NewTriangleCount])
          (ActualReductions st ++ [Actual])
          (if OutsideTolerance Actual TargetReductionPercentage
           then false else bAllFixesSuccessful st)).

Definition VerifyAllLODs (BaseLODTriangles : Z) (TargetReductionPercentage : spec_float)
    (LODResources : list FStaticMeshLODResources) (TotalLODs : nat) :
  option VerifyState :=
  foldl (VerifyLOD BaseLODTriangles TargetReductionPercentage LODResources)
        (Some (MkVerifyState [] [] true)) (seq 1 (TotalLODs - 1)).

(** ["LOD1: 12.5%, LOD2: 30.0%"]. *)
Definition ReductionSummary (Reductions : list spec_float) : string :=
  foldl (λ acc '(i, r),
           (if bool_decide (i = 0%nat) then acc else acc +:+ ", ") +:+
           "LOD" +:+ FormatInt (Z.of_nat i + 1) +:+ ": " +:+ FormatFloat1 r +:+ "%")
        "" (imap (λ i r, (i, r)) Reductions).

Definition SuccessMessage (m : UStaticMesh) (Reductions : list spec_float)
    (TargetReductionPercentage : spec_float) : string :=
  "Successfully fixed ALL LOD reductions for '" +:+ MeshName m +:+
  "'!" +:+ LF +:+ LF +:+ "Reductions achieved: " +:+
  ReductionSummary Reductions +:+ LF +:+ "Target reduction: " +:+
  AsNumber (FMath.RoundToInt TargetReductionPercentage) +:+ "%" +:+
  LF +:+ LF +:+
  "The mesh now has proper progressive LOD optimization.".

Definition PartialMessage (m : UStaticMesh) (Reductions : list spec_float)
    (TargetReductionPercentage : spec_float) : string :=
  "LOD reduction fix completed for '" +:+ MeshName m +:+
  "', but some LODs may not have reached target reduction." +:+
  LF +:+ LF +:+ "Reductions achieved: " +:+
  ReductionSummary Reductions +:+ LF +:+ "Target reduction: " +:+
  AsNumber (FMath.RoundToInt TargetReductionPercentage) +:+ "%" +:+
  LF +:+ LF +:+
  "This may be due to mesh complexity or reduction algorithm limitations.".

Definition NoInterfaceMessage (m : UStaticMesh) : string :=
  "Cannot fix LOD reduction for '" +:+ MeshName m +:+
  "' because mesh reduction interface is not available." +:+
  LF +:+ LF +:+
  "Please ensure mesh reduction plugins are enabled in your project.".

(** The mesh as it is handed to [Build]: marked modified, with the
    reduction settings of every LOD from 1 on rewritten. *)
Definition MeshBeforeBuild (m0 : UStaticMesh)
    (TargetReductionPercentage : spec_float) : UStaticMesh :=
  let m1 := Modify m0 in
  match RenderData m1 with
  | Some ((BaseLOD :: _) as LODResources) =>
      with_SourceModels
        (UpdateAllLODSettings (GetNumTriangles BaseLOD) TargetReductionPercentage
           (length LODResources) (SourceModels m1)) m1
  | _ => m1
  end.

Definition FixAllLODReductions (StaticMesh : option UStaticMesh)
    (ProblematicLODs : list nat) (TargetReductionPercentage : spec_float) :
  FixOutcome :=
  match StaticMesh with
  | None => FixDone None []
  | Some m0 =>
      if bool_decide (length ProblematicLODs = 0%nat) then FixDone (Some m0) []
      else if negb MeshReductionInterface then
        FixDone (Some m0)
          [EvMessageDialog (NoInterfaceMessage m0) "LOD Reduction Fix Error"]
      else
        match RenderData (Modify m0) with
        | None | Some [] => FixCrash
        | Some ((BaseLOD :: _) as LODResources) =>
            let BaseLODTriangles := GetNumTriangles BaseLOD in
            let TotalLODs := length LODResources in
            let m2 := MeshBeforeBuild m0 TargetReductionPercentage in
            let m3 := Build m2 in
            let m4 := MarkPackageDirty m3 in
            (* the rebuilt LODs are read inside the verification loop only *)
            let NewLODResources := default [] (RenderData m4) in
            match VerifyAllLODs BaseLODTriangles TargetReductionPercentage
                    NewLODResources TotalLODs with
            | None => FixCrash
            | Some st =>
                let Message :=
                  if bAllFixesSuccessful st
                  then SuccessMessage m4 (ActualReductions st)
                         TargetReductionPercentage
                  else PartialMessage m4 (ActualReductions st)
                         TargetReductionPercentage in
                FixDone (Some m4)
                  [EvModify; EvBuild; EvMarkPackageDirty;
                   EvMessageDialog Message "LOD Reduction Fix Complete"]
            end
        end
  end.


End WithEngine.
End LODFix.

(** ** FStaticMeshUVOverlappingRule *)

(** [FVector2D], a pair of doubles. *)
Record FVector2D := MkVector2D {
  VX : spec_float;
  VY : spec_float
}.

Definition Vector2D_sub (a b : FVector2D) : FVector2D :=
  MkVector2D (Dbl.sub (VX a) (VX b)) (Dbl.sub (VY a) (VY b)).

Definition SizeSquared (v : FVector2D) : spec_float :=
  Dbl.add (Dbl.mul (VX v) (VX v)) (Dbl.mul (VY v) (VY v)).

Definition ZeroVector : FVector2D := MkVector2D Dbl.zero Dbl.zero.

Record FTriangleUVBounds := MkBounds {
  MinUV : FVector2D;
  MaxUV : FVector2D;
  TriangleID : Z
}.

Record FUVOverlapInfo := MkOverlapInfo {
  UVChannel : Z;
  OverlappingTriangleCount : Z;
  OverlapPercentage : spec_float;
  OverlappingTriangles : list Z;
  DetailedDescription : string
}.

Module UVRule.

(** [float GetArea() const]: the product is formed in double and returned as
    float. *)
Definition GetArea (b : FTriangleUVBounds) : spec_float :=
  Flt.of_double
    (Dbl.mul (Dbl.sub (VX (MaxUV b)) (VX (MinUV b)))
             (Dbl.sub (VY (MaxUV b)) (VY (MinUV b)))).

(** The locals of [Overlaps].  The box coordinates are doubles; [FMath::Max]
    on the [0.0f] literal and a double is taken in double, and the result is
    narrowed when it is stored in the [float] local. *)
Definition OverlapWidth (a b : FTriangleUVBounds) : spec_float :=
  Flt.of_double
    (FMath.Max (Dbl.of_float Flt.zero)
       (Dbl.sub (FMath.Min (VX (MaxUV a)) (VX (MaxUV b)))
                (FMath.Max (VX (MinUV a)) (VX (MinUV b))))).

Definition OverlapHeight (a b : FTriangleUVBounds) : spec_float :=
  Flt.of_double
    (FMath.Max (Dbl.of_float Flt.zero)
       (Dbl.sub (FMath.Min (VY (MaxUV a)) (VY (MaxUV b)))
                (FMath.Max (VY (MinUV a)) (VY (MinUV b))))).

Definition OverlapArea (a b : FTriangleUVBounds) : spec_float :=
  Flt.mul (OverlapWidth a b) (OverlapHeight a b).

Definition MinArea (a b : FTriangleUVBounds) : spec_float :=
  FMath.Min (GetArea a) (GetArea b).

Definition OverlapThreshold (a b : FTriangleUVBounds) (Tolerance : spec_float) :
  spec_float :=
  Flt.mul (MinArea a b) Tolerance.

(** [this->Overlaps(Other, Tolerance)]: [OverlapArea > OverlapThreshold]. *)
Definition Overlaps (this Other : FTriangleUVBounds) (Tolerance : spec_float) : bool :=
  SFltb (OverlapThreshold this Other Tolerance) (OverlapArea this Other).

(** [MAX_flt]. *)
Definition MAX_flt : spec_float := SFmax_float Flt.prec Flt.emax.

Definition IsValidUVChannel (md : option FMeshDescription) (Channel : Z) : bool :=
  match md with
  | None => false
  | Some md =>
      if Channel <? 0 then false
      else match NumUVChannels md with
           | Some n => Channel <? n
           | None => false
           end
  end.

(** The test [!UVs.IsValid() || UVChannel >= UVs.GetNumChannels()]. *)
Definition UVsUnavailable (md : FMeshDescription) (Channel : Z) : bool :=
  match NumUVChannels md with
  | Some n => n <=? Channel
  | None => true
  end.

(** The loop of [GetTriangleUVBounds] over the vertex instances. *)
Definition ExtendBounds (md : FMeshDescription) (Channel : Z)
    (b : FTriangleUVBounds) (VertexInstanceID : Z) : FTriangleUVBounds :=
  let UVf := VertexInstanceUVs md VertexInstanceID Channel in
  let UV := MkVector2D (Dbl.of_float (fst UVf)) (Dbl.of_float (snd UVf)) in
  MkBounds
    (MkVector2D (FMath.Min (VX (MinUV b)) (VX UV)) (FMath.Min (VY (MinUV b)) (VY UV)))
    (MkVector2D (FMath.Max (VX (MaxUV b)) (VX UV)) (FMath.Max (VY (MaxUV b)) (VY UV)))
    (TriangleID b).

Definition GetTriangleUVBounds (md : FMeshDescription) (Triangle : Z * list Z)
    (Channel : Z) (OutBounds : FTriangleUVBounds) : FTriangleUVBounds :=
  if UVsUnavailable md Channel then OutBounds
  else
    let start :=
      MkBounds
        (MkVector2D (Dbl.of_float MAX_flt) (Dbl.of_float MAX_flt))
        (MkVector2D (Dbl.of_float (SFopp MAX_flt)) (Dbl.of_float (SFopp MAX_flt)))
        (fst Triangle) in
    foldl (ExtendBounds md Channel) start (snd Triangle).

(** A default-constructed [FTriangleUVBounds]; [FTriangleID] defaults to
    [INDEX_NONE]. *)
Definition DefaultBounds : FTriangleUVBounds := MkBounds ZeroVector ZeroVector (-1).

Definition BuildTriangleUVBounds (md : option FMeshDescription) (Channel : Z) :
  list FTriangleUVBounds :=
  match md with
  | None => []
  | Some md =>
      if UVsUnavailable md Channel then []
      else
        foldl (λ TriangleBounds Triangle,
                 let Bounds := GetTriangleUVBounds md Triangle Channel DefaultBounds in
                 if SFltb Flt.zero (GetArea Bounds)
                 then TriangleBounds ++ [Bounds] else TriangleBounds)
              [] (Triangles md)
  end.

(** The inner loop of [DetectOverlappingTriangles] for the box at [i]
    against the boxes after it. *)
Fixpoint DetectAgainst (bi : FTriangleUVBounds) (rest : list FTriangleUVBounds)
    (Tolerance : spec_float) (bFoundOverlap : bool) (Out : list Z) : list Z :=
  match rest with
  | [] => Out
  | bj :: rest' =>
      if Overlaps bi bj Tolerance then
        let Out1 := if bFoundOverlap then Out else AddUnique (TriangleID bi) Out in
        DetectAgainst bi rest' Tolerance true (AddUnique (TriangleID bj) Out1)
      else DetectAgainst bi rest' Tolerance bFoundOverlap Out
  end.

Fixpoint DetectFrom (TriangleBounds : list FTriangleUVBounds)
    (Tolerance : spec_float) (Out : list Z) : list Z :=
  match TriangleBounds with
  | [] => Out
  | bi :: rest => DetectFrom rest Tolerance (DetectAgainst bi rest Tolerance false Out)
  end.

Definition DetectOverlappingTriangles (TriangleBounds : list FTriangleUVBounds)
    (Tolerance : spec_float) : list Z :=
  DetectFrom TriangleBounds Tolerance [].

Section WithEngine.
(** [FCString::Atof], the [%.1f] conversion of [FString::Printf]. *)
Variable Atof : string -> spec_float.
Variable FormatFloat1 : spec_float -> string.

Definition GetRuleID : FName := "SM_UVOverlapping".

(** The count of boxes after the first whose size is within [0.0001f]
    (squared distance) of the first box's size. *)
Definition SimilarBoundsCount (TriangleBounds : list FTriangleUVBounds) : Z :=
  match TriangleBounds with
  | [] => 0
  | First :: rest =>
      let FirstBoundSize := Vector2D_sub (MaxUV First) (MinUV First) in
      foldl (λ n b,
               let BoundSize := Vector2D_sub (MaxUV b) (MinUV b) in
               if SFltb (SizeSquared (Vector2D_sub BoundSize FirstBoundSize))
                        (Dbl.of_float (Flt.lit 1 4))
               then n + 1 else n)
            0 rest
  end.

Definition SimilarityRatio (TriangleBounds : list FTriangleUVBounds) : spec_float :=
  Flt.div (Flt.of_int (SimilarBoundsCount TriangleBounds))
          (Flt.of_int (Z.of_nat (length TriangleBounds))).

(** [AnalyzeUVChannelOverlaps]: the returned flag and the out-parameter
    afterwards. *)
Definition AnalyzeUVChannelOverlaps (md : option FMeshDescription) (Channel : Z)
    (OverlapTolerance : spec_float) (OutOverlapInfo : FUVOverlapInfo) :
  bool * FUVOverlapInfo :=
  match md with
  | None => (false, OutOverlapInfo)
  | Some _ =>
      if Channel <? 0 then (false, OutOverlapInfo)
      else
        let TriangleBounds := BuildTriangleUVBounds md Channel in
        if bool_decide (length TriangleBounds = 0%nat) then (false, OutOverlapInfo)
        else
          (* computed and written to the log only *)
          let DetectedTriangles :=
            DetectOverlappingTriangles TriangleBounds OverlapTolerance in
          if (4 <? length TriangleBounds)%nat then
            let Ratio := SimilarityRatio TriangleBounds in
            if SFltb (Flt.lit 8 1) Ratio then
              (true,
               MkOverlapInfo (UVChannel OutOverlapInfo)
                 (FMath.RoundToInt
                    (Flt.mul Ratio (Flt.of_int (Z.of_nat (length TriangleBounds)))))
                 (Flt.mul Ratio (Flt.of_int 100))
                 (OverlappingTriangles OutOverlapInfo)
                 ("UV Channel " +:+ FormatInt Channel +:+ ": " +:+
                  FormatFloat1 (Flt.mul Ratio (Flt.of_int 100)) +:+
                  "% of triangles have identical UV bounds - possible unwrapping issue"))
            else (false, OutOverlapInfo)
          else (false, OutOverlapInfo)
  end.

Definition GetOverlapToleranceForChannel (Profile : option UPipelineGuardianProfile)
    (Channel : Z) : spec_float :=
  match Profile with
  | None =>
      if Channel =? 0 then Flt.lit 1 3
      else if Channel =? 1 then Flt.lit 5 4
      else Flt.lit 2 3
  | Some Profile =>
      let TextureToleranceStr :=
        GetRuleParameter Profile GetRuleID "TextureUVTolerance" "0.001" in
      let LightmapToleranceStr :=
        GetRuleParameter Profile GetRuleID "LightmapUVTolerance" "0.0005" in
      let Tolerance :=
        if Channel =? 1 then Atof LightmapToleranceStr else Atof TextureToleranceStr in
      FMath.Clamp Tolerance (Flt.lit 1 4) (Flt.lit 1 2)
  end.

Definition ShouldCheckUVChannel (Profile : option UPipelineGuardianProfile)
    (Channel : Z) : bool :=
  match Profile with
  | None => (0 <=? Channel) && (Channel <=? 1)
  | Some Profile =>
      if Channel =? 0 then
        bool_decide (GetRuleParameter Profile GetRuleID "CheckUVChannel0" "true" = "true")
      else if Channel =? 1 then
        bool_decide (GetRuleParameter Profile GetRuleID "CheckUVChannel1" "true" = "true")
      else if Channel =? 2 then
        bool_decide (GetRuleParameter Profile GetRuleID "CheckUVChannel2" "false" = "true")
      else if Channel =? 3 then
        bool_decide (GetRuleParameter Profile GetRuleID "CheckUVChannel3" "false" = "true")
      else false
  end.

Definition GetSeverityForOverlapPercentage (Profile : option UPipelineGuardianProfile)
    (Percentage : spec_float) (bIsLightmapChannel : bool) : EAssetIssueSeverity :=
  let grade (WarningThreshold ErrorThreshold : spec_float) :=
    if SFltb ErrorThreshold Percentage then Error
    else if SFltb WarningThreshold Percentage then Warning
    else Info in
  match Profile with
  | None =>
      if bIsLightmapChannel then grade (Flt.of_int 2) (Flt.of_int 8)
      else grade (Flt.of_int 5) (Flt.of_int 15)
  | Some Profile =>
      if bIsLightmapChannel then
        grade (Atof (GetRuleParameter Profile GetRuleID "LightmapWarningThreshold" "2.0"))
              (Atof (GetRuleParameter Profile GetRuleID "LightmapErrorThreshold" "8.0"))
      else
        grade (Atof (GetRuleParameter Profile GetRuleID "TextureWarningThreshold" "5.0"))
              (Atof (GetRuleParameter Profile GetRuleID "TextureErrorThreshold" "15.0"))
  end.

Definition DetermineOverlapSeverity (OverlapInfo : FUVOverlapInfo)
    (Profile : option UPipelineGuardianProfile) : EAssetIssueSeverity :=
  match Profile with
  | None => Warning
  | Some _ =>
      GetSeverityForOverlapPercentage Profile (OverlapPercentage OverlapInfo) false
  end.

Definition GetUVChannelUsageName (Channel : Z) (StaticMesh : UStaticMesh) : string :=
  if LightMapCoordinateIndex StaticMesh =? Channel then
    "UV Channel " +:+ FormatInt Channel +:+ " (Lightmap)"
  else if Channel =? 0 then "UV Channel 0 (Primary Texture)"
  else if Channel =? 1 then "UV Channel 1 (Secondary Texture)"
  else "UV Channel " +:+ FormatInt Channel.

Definition GenerateOverlapDescription (OverlapInfo : FUVOverlapInfo)
    (StaticMesh : UStaticMesh) : string :=
  "UV Overlaps detected in " +:+
  GetUVChannelUsageName (UVChannel OverlapInfo) StaticMesh +:+ ": " +:+
  FormatInt (OverlappingTriangleCount OverlapInfo) +:+ " triangles (" +:+
  FormatFloat1 (OverlapPercentage OverlapInfo) +:+
  "% of surface area) have overlapping UV coordinates. " +:+
  "This may cause texture artifacts and lightmap baking issues.".

(** A default-constructed [FUVOverlapInfo] with its channel set. *)
Definition NewOverlapInfo (Channel : Z) : FUVOverlapInfo :=
  MkOverlapInfo Channel 0 Flt.zero [] "".

(** One iteration of the channel loop of [AnalyzeStaticMeshUVOverlaps]. *)
Definition AnalyzeChannel (md : FMeshDescription)
    (Profile : UPipelineGuardianProfile)
    (OutOverlaps : list FUVOverlapInfo) (Channel : Z) : list FUVOverlapInfo :=
  if negb (ShouldCheckUVChannel (Some Profile) Channel) then OutOverlaps
  else if negb (IsValidUVChannel (Some md) Channel) then OutOverlaps
  else
    let OverlapTolerance := GetOverlapToleranceForChannel (Some Profile) Channel in
    let '(found, info) :=
      AnalyzeUVChannelOverlaps (Some md) Channel OverlapTolerance
        (NewOverlapInfo Channel) in
    if found then OutOverlaps ++ [info] else OutOverlaps.

(** [AnalyzeStaticMeshUVOverlaps]: [None] stands for the [false] return. *)
Definition AnalyzeStaticMeshUVOverlaps (StaticMesh : UStaticMesh)
    (Profile : UPipelineGuardianProfile) : option (list FUVOverlapInfo) :=
  match MeshDescription0 StaticMesh with
  | None => None
  | Some md => Some (foldl (AnalyzeChannel md Profile) [] [0; 1; 2; 3; 4; 5; 6; 7])
  end.

Definition ResultFor (StaticMesh : UStaticMesh) (Profile : UPipelineGuardianProfile)
    (OverlapInfo : FUVOverlapInfo) : FAssetAnalysisResult :=
  MkResult (AssetDataOfMesh StaticMesh)
    (DetermineOverlapSeverity OverlapInfo (Some Profile))
    GetRuleID
    (GenerateOverlapDescription OverlapInfo StaticMesh)
    ""
    None.

(** [Check]: the returned flag and the output array afterwards. *)
Definition Check (Asset : option UObject) (Profile : option UPipelineGuardianProfile)
    (OutResults : list FAssetAnalysisResult) : bool * list FAssetAnalysisResult :=
  match Profile with
  | None => (false, OutResults)
  | Some Profile =>
      if negb (IsRuleEnabled Profile GetRuleID) then (true, OutResults)
      else
        match CastStaticMesh Asset with
        | None => (false, OutResults)
        | Some StaticMesh =>
            match AnalyzeStaticMeshUVOverlaps StaticMesh Profile with
            | None => (false, OutResults)
            | Some OverlapInfos =>
                (true,
                 foldl (λ Out OverlapInfo,
                          if 0 <? OverlappingTriangleCount OverlapInfo
                          then Out ++ [ResultFor StaticMesh Profile OverlapInfo]
                          else Out)
                       OutResults OverlapInfos)
            end
        end
  end.

End WithEngine.
End UVRule.

(** ** Rules and analyzers (IAssetCheckRule.h, IAssetAnalyzer.h) *)

(** [IAssetCheckRule]: a check returns its flag and the output array
    afterwards. *)
Record IAssetCheckRule := MkRule {
  RuleCheck : option UObject -> option UPipelineGuardianProfile ->
              list FAssetAnalysisResult -> bool * list FAssetAnalysisResult;
  RuleGetRuleID : FName
}.

(** [IAssetAnalyzer::AnalyzeAsset] returns the output array afterwards. *)
Record IAssetAnalyzer := MkAnalyzer {
  AnalyzeAsset : FAssetData -> option UPipelineGuardianProfile ->
                 list FAssetAnalysisResult -> list FAssetAnalysisResult
}.

Record UPipelineGuardianSettings := MkSettings {
  bMasterSwitch_EnableAnalysis : bool;
  (** what [GetActiveProfile()] returns *)
  GetActiveProfile : option UPipelineGuardianProfile
}.

Section Scanning.
(** The asset registry: [FAssetData::GetAsset] loads the object (or fails),
    [ScanAssetsInPath] enumerates a content path. *)
Variable GetAsset : FAssetData -> option UObject.
Variable AssetsInPath : string -> list FAssetData.
(** [FText::AsNumber] used by [FText::Format] for integer arguments. *)
Variable AsNumber : Z -> string.
(** [SlowTask.ShouldCancel()] as polled when [ProcessedCount] assets have
    been evaluated. *)
Variable ShouldCancel : nat -> bool.

(** *** FStaticMeshAnalyzer *)

Definition LoadFailureResult (AssetData : FAssetData) : FAssetAnalysisResult :=
  MkResult AssetData Error "SM_AssetLoading"
    ("Failed to load StaticMesh asset: " +:+ AssetName AssetData)
    (PackageName AssetData) None.

(** [FStaticMeshAnalyzer::AnalyzeAsset] over the analyzer's rule array; an
    entry is [None] for an invalid shared pointer. *)
Definition StaticMeshAnalyzer_AnalyzeAsset
    (StaticMeshRules : list (option IAssetCheckRule))
    (AssetData : FAssetData) (Profile : option UPipelineGuardianProfile)
    (OutResults : list FAssetAnalysisResult) : list FAssetAnalysisResult :=
  if negb (AssetIsValid AssetData) then OutResults
  else match Profile with
       | None => OutResults
       | Some _ =>
           match CastStaticMesh (GetAsset AssetData) with
           | None => OutResults ++ [LoadFailureResult AssetData]
           | Some StaticMesh =>
               foldl (λ Out Rule,
                        match Rule with
                        | Some R =>
                            snd (RuleCheck R (GetAsset AssetData) Profile Out)
                        | None => Out
                        end)
                     OutResults StaticMeshRules
           end
       end.

Definition FStaticMeshAnalyzer (StaticMeshRules : list (option IAssetCheckRule)) :
  IAssetAnalyzer :=
  MkAnalyzer (StaticMeshAnalyzer_AnalyzeAsset StaticMeshRules).

(** *** FAssetScanner *)

(** [AssetAnalyzersMap], keyed by class; a value is [None] for an invalid
    shared pointer. *)
Definition RegisterAssetAnalyzer (AssetClass : option UClass)
    (Analyzer : option IAssetAnalyzer)
    (AssetAnalyzersMap : gmap string (option IAssetAnalyzer)) :
  gmap string (option IAssetAnalyzer) :=
  match AssetClass, Analyzer with
  | Some c, Some a => <[GetClassName c := Some a]> AssetAnalyzersMap
  | _, _ => AssetAnalyzersMap
  end.

(** The loop [while (CurrentClass != nullptr)] up the class hierarchy. *)
Fixpoint FindAnalyzer (AssetAnalyzersMap : gmap string (option IAssetAnalyzer))
    (CurrentClass : UClass) : option IAssetAnalyzer :=
  match CurrentClass with
  | MkClass Name Super =>
      match AssetAnalyzersMap !! Name with
      | Some (Some a) => Some a
      | _ =>
          match Super with
          | Some s => FindAnalyzer AssetAnalyzersMap s
          | None => None
          end
      end
  end.

Definition AnalyzeSingleAsset
    (AssetAnalyzersMap : gmap string (option IAssetAnalyzer))
    (AssetData : FAssetData) (Settings : option UPipelineGuardianSettings)
    (OutResults : list FAssetAnalysisResult) : list FAssetAnalysisResult :=
  if negb (AssetIsValid AssetData) then OutResults
  else
    match GetAsset AssetData with
    | None => OutResults
    | Some AssetObj =>
        match FindAnalyzer AssetAnalyzersMap (GetClass AssetObj) with
        | Some FoundAnalyzer =>
            match Settings ≫= GetActiveProfile with
            | Some Profile => AnalyzeAsset FoundAnalyzer AssetData (Some Profile) OutResults
            | None => OutResults
            end
        | None => OutResults
        end
    end.

(** *** SPipelineGuardianWindow::OnAssetScanPhaseComplete *)

Inductive EAssetScanMode : Set :=
| Project
| SelectedFolders
| SelectedAssets
| OpenLevel.

#[global] Instance EAssetScanMode_eq_dec : EqDecision EAssetScanMode.
Proof. solve_decision. Defined.

(** What the window shows: the busy flag and status line set by
    [SetAnalysisInProgress], and the results given to the report view. *)
Record WindowState := MkWindow {
  bIsAnalysisInProgress : bool;
  StatusText : string;
  ReportResults : list FAssetAnalysisResult
}.

(** The locals of the evaluation loop. *)
Record LoopState := MkLoop {
  FinalResults : list FAssetAnalysisResult;
  ProcessedCount : nat;
  FinalOperationSummaryMessage : string;
  PumpedMessages : nat
}.

Definition CancelledMessage (Processed Total : nat) : string :=
  "Analysis cancelled by user. Processed " +:+ AsNumber (Z.of_nat Processed) +:+
  " of " +:+ AsNumber (Z.of_nat Total) +:+ " assets.".

(** The range-for over [AssetsToActuallyAnalyze]; [Total] is its length. *)
Fixpoint AnalyzeLoop (AssetAnalyzersMap : gmap string (option IAssetAnalyzer))
    (Settings : option UPipelineGuardianSettings) (Total : nat)
    (Assets : list FAssetData) (st : LoopState) : LoopState :=
  match Assets with
  | [] => st
  | AssetData :: rest =>
      if ShouldCancel (ProcessedCount st) then
        MkLoop (FinalResults st) (ProcessedCount st)
          (CancelledMessage (ProcessedCount st) Total) (PumpedMessages st)
      else
        let Results :=
          AnalyzeSingleAsset AssetAnalyzersMap AssetData Settings (FinalResults st) in
        let Count := S (ProcessedCount st) in
        AnalyzeLoop AssetAnalyzersMap Settings Total rest
          (MkLoop Results Count (FinalOperationSummaryMessage st)
             (if bool_decide (Count `mod` 10 = 0)%nat
              then S (PumpedMessages st) else PumpedMessages st))
  end.

(** Discovery on the game thread: the asset list to analyze and the summary
    message so far. *)
Definition DiscoverAssets (CompletedScanMode : EAssetScanMode)
    (CompletedScanParameters : list string)
    (DiscoveredAssetsFromTask : list FAssetData) (TaskCompletionMessage : string) :
  list FAssetData * string :=
  match CompletedScanMode with
  | Project =>
      let Assets := AssetsInPath "/Game/" in
      (Assets,
       "Found " +:+ AsNumber (Z.of_nat (length Assets)) +:+
       " assets to analyze. Starting detailed analysis...")
  | SelectedFolders =>
      let Assets :=
        foldl (λ acc Path, acc ++ AssetsInPath Path) [] CompletedScanParameters in
      (Assets,
       "Found " +:+ AsNumber (Z.of_nat (length Assets)) +:+ " assets in " +:+
       AsNumber (Z.of_nat (length CompletedScanParameters)) +:+
       " folder(s). Starting detailed analysis...")
  | _ => (DiscoveredAssetsFromTask, TaskCompletionMessage)
  end.

Definition OverallCompletionStatus (TaskCompletionMessage : string)
    (Analyzed Issues : nat) : string :=
  TaskCompletionMessage +:+ " Analysis complete. Analyzed " +:+
  AsNumber (Z.of_nat Analyzed) +:+ " assets. " +:+
  AsNumber (Z.of_nat Issues) +:+ " issues found.".

(** The evaluation phase: the loop's locals when it is left. *)
Definition EvaluateAssets (AssetAnalyzersMap : gmap string (option IAssetAnalyzer))
    (Settings : option UPipelineGuardianSettings)
    (CompletedScanMode : EAssetScanMode)
    (AssetsToActuallyAnalyze : list FAssetData) (Summary : string) : LoopState :=
  if (0 <? length AssetsToActuallyAnalyze)%nat then
    AnalyzeLoop AssetAnalyzersMap Settings (length AssetsToActuallyAnalyze)
      AssetsToActuallyAnalyze (MkLoop [] 0 Summary 0)
  else if bool_decide (CompletedScanMode = Project) ||
          bool_decide (CompletedScanMode = SelectedFolders) then
    MkLoop [] 0 (Summary +:+ " No assets found to analyze after detailed scan.") 0
  else MkLoop [] 0 Summary 0.

(** The game-thread body of [OnAssetScanPhaseComplete].  [Scanner] is the
    window's scanner (its analyzer map) when the pointer is valid. *)
Definition OnAssetScanPhaseComplete
    (Scanner : option (gmap string (option IAssetAnalyzer)))
    (Settings : option UPipelineGuardianSettings)
    (CompletedScanMode : EAssetScanMode)
    (CompletedScanParameters : list string)
    (DiscoveredAssetsFromTask : list FAssetData)
    (TaskCompletionMessage : string) : WindowState :=
  match Scanner, Settings with
  | Some AssetAnalyzersMap, Some _ =>
      let '(AssetsToActuallyAnalyze, Summary) :=
        DiscoverAssets CompletedScanMode CompletedScanParameters
          DiscoveredAssetsFromTask TaskCompletionMessage in
      let st :=
        EvaluateAssets AssetAnalyzersMap Settings CompletedScanMode
          AssetsToActuallyAnalyze Summary in
      MkWindow false
        (OverallCompletionStatus TaskCompletionMessage
           (length AssetsToActuallyAnalyze) (length (FinalResults st)))
        (FinalResults st)
  | _, _ =>
      MkWindow false
        "Error: Could not complete analysis (GT phase) due to internal setup." []
  end.

End Scanning.

(** ** Reference instances of the engine services

    Concrete functions for the section variables above, used to run the
    model on example inputs. *)

Definition digit_of (c : ascii) : option Z :=
  let n := Z.of_N (N_of_ascii c) in
  if (48 <=? n) && (n <=? 57) then Some (n - 48) else None.

(** Reads a run of decimal digits: the number read, how many digits, and
    the rest of the text. *)
Fixpoint read_digits (s : string) (acc : Z) (count : Z) : Z * Z * string :=
  match s with
  | EmptyString => (acc, count, s)
  | String c rest =>
      match digit_of c with
      | Some d => read_digits rest (acc * 10 + d) (count + 1)
      | None => (acc, count, s)
      end
  end.

Fixpoint skip_spaces (s : string) : string :=
  match s with
  | String " " rest => skip_spaces rest
  | _ => s
  end.

(** [atof] on plain decimal text ([-12.5], [30.0], [7]): the decimal value
    rounded to double, then narrowed to float; zero when no number can be
    read.  Exponents are not read. *)
Definition Atof_decimal (s : string) : spec_float :=
  let s := skip_spaces s in
  let '(neg, s) :=
    match s with
    | String "-" rest => (true, rest)
    | String "+" rest => (false, rest)
    | _ => (false, s)
    end in
  let '(ip, ic, s) := read_digits s 0 0 in
  let '(n, fc) :=
    match s with
    | String "." rest =>
        let '(v, c, _) := read_digits rest ip 0 in (v, c)
    | _ => (ip, 0)
    end in
  if (ic =? 0) && (fc =? 0) then Flt.zero
  else
    let d := Dbl.div (Dbl.of_int n) (Dbl.of_int (10 ^ fc)) in
    Flt.of_double (if neg then SFopp d else d).

(** [%.1f]: the exact value rounded to one decimal, ties to even. *)
Definition Printf_1f (x : spec_float) : string :=
  match x with
  | S754_nan => "nan"
  | S754_infinity s => if s then "-inf" else "inf"
  | S754_zero s => if s then "-0.0" else "0.0"
  | S754_finite s m e =>
      let t :=
        if 0 <=? e then Zpos m * 10 * 2 ^ e
        else
          let q := (Zpos m * 10) / 2 ^ (- e) in
          let r := (Zpos m * 10) mod 2 ^ (- e) in
          match (2 * r) ?= 2 ^ (- e) with
          | Lt => q
          | Gt => q + 1
          | Eq => if Z.even q then q else q + 1
          end in
      (if s then "-" else "") +:+ pretty (t / 10) +:+ "." +:+ pretty (t mod 10)
  end.

(** [FText::AsNumber] without digit grouping. *)
Definition AsNumber_plain (z : Z) : string := pretty z.

(** [powf] for a non-negative integral exponent, by repeated rounding
    multiplication; NaN otherwise. *)
Definition Pow_integral (A B : spec_float) : spec_float :=
  match FMath.floor B with
  | Some n =>
      if (0 <=? n) && SFeqb (Flt.of_int n) B
      then Z.iter n (λ acc, Flt.mul acc A) (Flt.of_int 1)
      else S754_nan
  | None => S754_nan
  end.

(** A mesh builder whose reduction reaches the requested share of LOD0
    exactly, and one that leaves every LOD as it is. *)
Definition Build_to_target (m : UStaticMesh) : UStaticMesh :=
  match RenderData m with
  | Some (BaseLOD :: rest) =>
      let reduce i (r : FStaticMeshLODResources) :=
        match SourceModels m !! S i with
        | Some s =>
            MkLODResources
              (FMath.RoundToInt
                 (Flt.mul (PercentTriangles s) (Flt.of_int (GetNumTriangles BaseLOD))))
              (GetNumVertices r)
        | None => r
        end in
      MkStaticMesh (MeshName m) (MeshPackageName m)
        (Some (BaseLOD :: imap reduce rest)) (SourceModels m) (MeshDescription0 m)
        (LightMapCoordinateIndex m) (bModified m) (bPackageDirty m)
  | _ => m
  end.

Definition Build_unchanged (m : UStaticMesh) : UStaticMesh := m.

(** *** Example assets *)

Definition UObjectClass : UClass := MkClass "Object" None.
Definition StreamableRenderAssetClass : UClass :=
  MkClass "StreamableRenderAsset" (Some UObjectClass).
Definition StaticMeshClass : UClass :=
  MkClass "StaticMesh" (Some StreamableRenderAssetClass).
Definition TextureClass : UClass := MkClass "Texture2D" (Some StreamableRenderAssetClass).
(** A project class derived from the static mesh class. *)
Definition DerivedMeshClass : UClass := MkClass "MyStaticMesh" (Some StaticMeshClass).

Definition DefaultSettings : FMeshReductionSettings :=
  LODFix.NewReductionSettings (Flt.of_int 1).

(** A mesh with the given triangle counts per LOD and one source model per
    LOD. *)
Definition MeshWithLODs (name : string) (counts : list Z)
    (md : option FMeshDescription) : UStaticMesh :=
  MkStaticMesh name ("/Game/Meshes/" +:+ name)
    (Some ((λ n, MkLODResources n (3 * n)) <$> counts))
    ((λ _, DefaultSettings) <$> counts) md 1 false false.

(** Two triangles with the same UV coordinates in channel 0, the unit right
    triangle: their boxes are both the unit square. *)
Definition TwoStackedTriangles : FMeshDescription :=
  MkMeshDescription (Some 1) [(0, [0; 1; 2]); (1, [3; 4; 5])]
    (λ v _,
       let k := v mod 3 in
       if k =? 0 then (Flt.zero, Flt.zero)
       else if k =? 1 then (Flt.of_int 1, Flt.zero)
       else (Flt.zero, Flt.of_int 1)).

Definition StackedMesh : UStaticMesh :=
  MeshWithLODs "SM_Stacked" [2] (Some TwoStackedTriangles).

(** LOD1 keeps 95% of LOD0: a 5% reduction. *)
Definition WeakLODMesh : UStaticMesh := MeshWithLODs "SM_Weak" [10000; 9500] None.

(** Three LODs for the repair path. *)
Definition ThreeLODMesh : UStaticMesh :=
  MeshWithLODs "SM_Three" [10000; 9000; 8000] None.

Definition AssetOf (m : UStaticMesh) : FAssetData :=
  MkAssetData (MeshPackageName m) (MeshName m).

(** A profile without any rule configuration. *)
Definition EmptyProfile : UPipelineGuardianProfile := MkProfile "Empty" "" 1 [].

(** A profile whose UV rule is switched off. *)
Definition ProfileUVDisabled : UPipelineGuardianProfile :=
  SetRuleConfig (NewRuleConfig "SM_UVOverlapping" false) NewProfile.

(** A document with two "Rules" entries for the same RuleID. *)
Definition DuplicateRuleEntry (enabled : bool) : FJsonValue :=
  JObject (<["Enabled" := JBool enabled]> (<["RuleID" := JString "SM_Naming"]> ∅)).

Definition DuplicateRulesRoot : gmap string FJsonValue :=
  <["Rules" := JArray [DuplicateRuleEntry true; DuplicateRuleEntry false]]>
    (<["ProfileName" := JString "Dup"]> ∅).

(** The rules of this development as [IAssetCheckRule] objects, with the
    reference engine services. *)
Definition LODPolyReductionRule : IAssetCheckRule :=
  MkRule (LODRule.Check Atof_decimal Printf_1f AsNumber_plain true)
         LODRule.GetRuleID.

Definition UVOverlappingRule : IAssetCheckRule :=
  MkRule (UVRule.Check Atof_decimal Printf_1f) UVRule.GetRuleID.

(** *** Notions used to state the dispatch properties *)

(** The ancestor chain of a class, most derived first. *)
Fixpoint Ancestors (c : UClass) : list UClass :=
  match c with
  | MkClass _ Super =>
      c :: match Super with
           | Some s => Ancestors s
           | None => []
           end
  end.

(** The valid analyzer registered for exactly this class, if any. *)
Definition RegisteredAnalyzer (AssetAnalyzersMap : gmap string (option IAssetAnalyzer))
    (c : UClass) : option IAssetAnalyzer :=
  match AssetAnalyzersMap !! GetClassName c with
  | Some (Some a) => Some a
  | _ => None
  end.

(** *** Example registry and scan *)

(** An asset registry with two loadable meshes; every other asset fails to
    load. *)
Definition ExampleRegistry (d : FAssetData) : option UObject :=
  if bool_decide (d = AssetOf WeakLODMesh)
  then Some (StaticMeshObject DerivedMeshClass WeakLODMesh)
  else if bool_decide (d = AssetOf StackedMesh)
  then Some (StaticMeshObject StaticMeshClass StackedMesh)
  else if bool_decide (d = MkAssetData "/Game/Textures/T_Wood" "T_Wood")
  then Some (OtherObject TextureClass)
  else None.

Definition MissingAsset : FAssetData := MkAssetData "/Game/Meshes/SM_Gone" "SM_Gone".
Definition TextureAsset : FAssetData := MkAssetData "/Game/Textures/T_Wood" "T_Wood".

Definition ExampleStaticMeshAnalyzer : IAssetAnalyzer :=
  FStaticMeshAnalyzer ExampleRegistry
    [Some LODPolyReductionRule; Some UVOverlappingRule].

(** The window's registration: one analyzer, for the static mesh class. *)
Definition ExampleAnalyzers : gmap string (option IAssetAnalyzer) :=
  RegisterAssetAnalyzer (Some StaticMeshClass) (Some ExampleStaticMeshAnalyzer) ∅.

Definition ExampleSettings : UPipelineGuardianSettings :=
  MkSettings true (Some NewProfile).

(** The user presses cancel once [K] assets have been evaluated. *)
Definition CancelAfter (K : nat) (Processed : nat) : bool := (K <=? Processed)%nat.

Definition NeverCancel (Processed : nat) : bool := false.

Definition NoAssetsInPath (Path : string) : list FAssetData := [].

Definition ThreeAssets : list FAssetData :=
  [AssetOf WeakLODMesh; MissingAsset; AssetOf StackedMesh].

(** The box of a triangle covering the unit right triangle. *)
Definition UnitSquareBounds (id : Z) : FTriangleUVBounds :=
  MkBounds ZeroVector (MkVector2D (Dbl.of_int 1) (Dbl.of_int 1)) id.

(** *** A JSON text layer for examples

    It knows a single document, the export of the default profile. *)
Definition OneDocumentWriter (root : gmap string FJsonValue) : string :=
  "default-profile.json".

Definition ToBool_plain (s : string) : bool :=
  bool_decide (s = "true") || bool_decide (s = "yes") || bool_decide (s = "on").

Definition StringToNumber_decimal (s : string) : option spec_float :=
  Some (Dbl.of_float (Atof_decimal s)).

Definition OneDocumentReader (text : string) : option (gmap string FJsonValue) :=
  if bool_decide (text = "default-profile.json")
  then Some (ExportRoot NewProfile) else None.

(** A JSON reader that yields the empty object for every text. *)
Definition EmptyObjectReader (text : string) : option (gmap string FJsonValue) :=
  Some ∅.

(** *** Notions used to state the properties of the LOD check *)

(** The condition under which the pair loop of the LOD check records
    [LODIndex]: both triangle counts are non-zero and the reduction from the
    previous LOD is below the required minimum. *)
Definition LODPairIsProblematic (StaticMesh : UStaticMesh)
    (MinReductionPercentage : spec_float) (LODIndex : nat) : bool :=
  negb ((LODRule.GetLODTriangleCount StaticMesh (LODIndex - 1) =? 0) ||
        (LODRule.GetLODTriangleCount StaticMesh LODIndex =? 0)) &&
  SFltb (LODRule.CalculateReductionPercentage
           (LODRule.GetLODTriangleCount StaticMesh (LODIndex - 1))
           (LODRule.GetLODTriangleCount StaticMesh LODIndex))
        MinReductionPercentage.

(** A mesh whose LODs all report zero triangles. *)
Definition EmptyLODMesh : UStaticMesh := MeshWithLODs "SM_Empty" [0; 0; 0] None.

(** A builder that keeps only LOD0 of the render data. *)
Definition Build_base_only (m : UStaticMesh) : UStaticMesh :=
  MkStaticMesh (MeshName m) (MeshPackageName m)
    (take 1 <$> RenderData m) (SourceModels m)
    (MeshDescription0 m) (LightMapCoordinateIndex m) (bModified m)
    (bPackageDirty m).

(** *** Notions used to state the properties of the UV overlap rule *)

(** The triangles of an optional mesh description. *)
Definition TrianglesOf (md : option FMeshDescription) : list (Z * list Z) :=
  from_option Triangles [] md.

(** The test the channel loop of [AnalyzeStaticMeshUVOverlaps] applies before
    it appends the information of [Channel]. *)
Definition ChannelIsReported (Atof : string -> spec_float)
    (FormatFloat1 : spec_float -> string)
    (md : FMeshDescription) (Profile : UPipelineGuardianProfile) (Channel : Z) : bool :=
  UVRule.ShouldCheckUVChannel (Some Profile) Channel &&
  UVRule.IsValidUVChannel (Some md) Channel &&
  fst (UVRule.AnalyzeUVChannelOverlaps FormatFloat1 (Some md) Channel
         (UVRule.GetOverlapToleranceForChannel Atof (Some Profile) Channel)
         (UVRule.NewOverlapInfo Channel)).

(** ** The scanner's registry, the scan task and the window's buttons *)

(** [FAssetScanner::UnregisterAllAnalyzers]. *)
Definition UnregisterAllAnalyzers
    (AssetAnalyzersMap : gmap string (option IAssetAnalyzer)) :
  gmap string (option IAssetAnalyzer) :=
  if (0 <? size AssetAnalyzersMap)%nat then ∅ else AssetAnalyzersMap.

(** What the window remembers for its refresh button. *)
Record WindowMemory := MkMemory {
  LastAnalysisMode : EAssetScanMode;
  LastAnalysisParameters : list string
}.

Section ScanTask.
Variable GetAsset : FAssetData -> option UObject.
Variable AssetsInPath : string -> list FAssetData.
Variable AsNumber : Z -> string.
Variable ShouldCancel : nat -> bool.

(** [FAssetScanTask::DoWork]: what the completion delegate, when bound,
    returns for the arguments the task hands it. *)
Definition DoWork {R : Type} (ScanMode : EAssetScanMode)
    (ScanParameters : list string) (PreDiscoveredAssets : list FAssetData)
    (AssetScannerPtr : option (gmap string (option IAssetAnalyzer)))
    (Settings : option UPipelineGuardianSettings)
    (OnCompletionDelegate :
       option (EAssetScanMode -> list string -> list FAssetData -> string -> R)) :
  option R :=
  match AssetScannerPtr, Settings with
  | Some _, Some _ =>
      let '(AssetsToPassToDelegate, TaskCompletionMessage) :=
        match ScanMode with
        | Project =>
            ([], "Project asset discovery pending on Game Thread...")
        | SelectedFolders =>
            ([],
             "Selected folder(s) asset discovery pending on Game Thread for " +:+
             AsNumber (Z.of_nat (length ScanParameters)) +:+ " path(s)...")
        | SelectedAssets =>
            (PreDiscoveredAssets,
             AsNumber (Z.of_nat (length PreDiscoveredAssets)) +:+
             " selected asset(s) ready for analysis.")
        | OpenLevel =>
            (PreDiscoveredAssets,
             AsNumber (Z.of_nat (length PreDiscoveredAssets)) +:+
             " open level asset(s) ready for analysis.")
        end in
      (λ Execute, Execute ScanMode ScanParameters AssetsToPassToDelegate
                    TaskCompletionMessage) <$> OnCompletionDelegate
  | _, _ =>
      (λ Execute,
         Execute ScanMode ScanParameters []
           "Asset scanner or settings became invalid during async task background phase.")
        <$> OnCompletionDelegate
  end.

(** A task started by the window, with the window's
    [OnAssetScanPhaseComplete] as its delegate: the window once the task and
    the game-thread continuation have run. *)
Definition StartBackgroundTask
    (AssetScanner : option (gmap string (option IAssetAnalyzer)))
    (Settings : option UPipelineGuardianSettings)
    (ScanMode : EAssetScanMode) (ScanParameters : list string)
    (PreDiscoveredAssets : list FAssetData) (w : WindowState) : WindowState :=
  default w
    (DoWork ScanMode ScanParameters PreDiscoveredAssets AssetScanner Settings
       (Some (OnAssetScanPhaseComplete GetAsset AssetsInPath AsNumber ShouldCancel
                AssetScanner Settings))).

(** [SetAnalysisInProgress]: the report keeps its results. *)
Definition SetAnalysisInProgress (bInProgress : bool) (StatusMessage : string)
    (w : WindowState) : WindowState :=
  MkWindow bInProgress StatusMessage (ReportResults w).

(** [ReportView->SetResults({})]. *)
Definition ClearResults (w : WindowState) : WindowState :=
  MkWindow (bIsAnalysisInProgress w) (StatusText w) [].

Definition OnAnalyzeProjectClicked
    (AssetScanner : option (gmap string (option IAssetAnalyzer)))
    (Settings : option UPipelineGuardianSettings)
    (w : WindowState) (mem : WindowMemory) : WindowState * WindowMemory :=
  if bIsAnalysisInProgress w then (w, mem)
  else
    let mem1 := MkMemory Project [] in
    let w1 :=
      SetAnalysisInProgress true
        "Starting project analysis: Initializing async task..." w in
    match AssetScanner, Settings with
    | Some _, Some CurrentSettings =>
        if negb (bMasterSwitch_EnableAnalysis CurrentSettings) then
          (SetAnalysisInProgress false
             "Analysis is globally disabled. Report cleared." (ClearResults w1),
           mem1)
        else (StartBackgroundTask AssetScanner Settings Project [] [] w1, mem1)
    | _, _ =>
        (SetAnalysisInProgress false
           "Error: Could not start project analysis (pre-async).." w1,
         mem1)
    end.

(** [SelectedPaths] is what the content browser reports as selected
    folders. *)
Definition OnAnalyzeSelectedFolderClicked
    (AssetScanner : option (gmap string (option IAssetAnalyzer)))
    (Settings : option UPipelineGuardianSettings)
    (SelectedPaths : list string)
    (w : WindowState) (mem : WindowMemory) : WindowState * WindowMemory :=
  if bIsAnalysisInProgress w then (w, mem)
  else
    let w1 :=
      SetAnalysisInProgress true
        "Starting selected folder analysis: Initializing async task..." w in
    match AssetScanner, Settings with
    | Some _, Some CurrentSettings =>
        if negb (bMasterSwitch_EnableAnalysis CurrentSettings) then
          (SetAnalysisInProgress false
             "Analysis is globally disabled. Report cleared." (ClearResults w1),
           mem)
        else if bool_decide (length SelectedPaths = 0%nat) then
          (SetAnalysisInProgress false "No folder selected. Report cleared."
             (ClearResults w1),
           mem)
        else
          (StartBackgroundTask AssetScanner Settings SelectedFolders SelectedPaths
             [] w1,
           MkMemory SelectedFolders SelectedPaths)
    | _, _ =>
        (SetAnalysisInProgress false
           "Error: Could not start folder analysis (pre-async)." w1,
         mem)
    end.

(** [SelectedAssets] is what [ScanSelectedAssets] finds selected in the
    content browser. *)
Definition OnAnalyzeSelectedAssetsClicked
    (AssetScanner : option (gmap string (option IAssetAnalyzer)))
    (Settings : option UPipelineGuardianSettings)
    (SelectedAssetsInBrowser : list FAssetData)
    (w : WindowState) (mem : WindowMemory) : WindowState * WindowMemory :=
  if bIsAnalysisInProgress w then (w, mem)
  else
    let mem1 := MkMemory SelectedAssets [] in
    let w1 :=
      SetAnalysisInProgress true
        "Starting selected assets analysis: Discovering assets (GT) & initializing task..."
        w in
    match AssetScanner, Settings with
    | Some _, Some CurrentSettings =>
        if negb (bMasterSwitch_EnableAnalysis CurrentSettings) then
          (SetAnalysisInProgress false
             "Analysis is globally disabled. Report cleared." (ClearResults w1),
           mem1)
        else if bool_decide (length SelectedAssetsInBrowser = 0%nat) then
          (SetAnalysisInProgress false "No assets selected. Report cleared."
             (ClearResults w1),
           mem1)
        else
          (StartBackgroundTask AssetScanner Settings SelectedAssets []
             SelectedAssetsInBrowser w1,
           mem1)
    | _, _ =>
        (SetAnalysisInProgress false
           "Error: Could not start selected assets analysis (pre-async)." w1,
         mem1)
    end.

End ScanTask.

(** *** Notions used to state the scan properties *)

(** The assets a scan of the given mode evaluates. *)
Definition AssetsOfScan (AssetsInPath : string -> list FAssetData)
    (ScanMode : EAssetScanMode) (ScanParameters : list string)
    (PreDiscoveredAssets : list FAssetData) : list FAssetData :=
  match ScanMode with
  | Project => AssetsInPath "/Game/"
  | SelectedFolders => concat (AssetsInPath <$> ScanParameters)
  | SelectedAssets | OpenLevel => PreDiscoveredAssets
  end.

(** The results of evaluating the assets one after the other. *)
Definition ResultsOf (GetAsset : FAssetData -> option UObject)
    (AssetAnalyzersMap : gmap string (option IAssetAnalyzer))
    (Settings : option UPipelineGuardianSettings)
    (Assets : list FAssetData) : list FAssetAnalysisResult :=
  foldl (λ Out AssetData,
           AnalyzeSingleAsset GetAsset AssetAnalyzersMap AssetData Settings Out)
        [] Assets.

(** An asset registry with four assets in the project and two of them in
    the meshes folder. *)
Definition ExampleAssetsInPath (Path : string) : list FAssetData :=
  if bool_decide (Path = "/Game/") then
    [AssetOf WeakLODMesh; MissingAsset; AssetOf StackedMesh; TextureAsset]
  else if bool_decide (Path = "/Game/Meshes") then
    [AssetOf WeakLODMesh; AssetOf StackedMesh]
  else [].

Definition IdleWindow : WindowState := MkWindow false "Ready." [].

Definition DisabledSettings : UPipelineGuardianSettings :=
  MkSettings false (Some NewProfile).

(** Induction along the super-class chain. *)
Fixpoint UClass_chain_ind (P : UClass -> Prop)
    (HRoot : forall n, P (MkClass n None))
    (HSub : forall n s, P s -> P (MkClass n (Some s)))
    (c : UClass) : P c :=
  match c with
  | MkClass n None => HRoot n
  | MkClass n (Some s) => HSub n s (UClass_chain_ind P HRoot HSub s)
  end.

(** A second analyzer, which reports nothing. *)
Definition SilentAnalyzer : IAssetAnalyzer := MkAnalyzer (λ _ _ Out, Out).

(** ** The remaining helpers of the UV overlap rule *)

Module UVFix.

(** [CalculateOverlapPercentage]: the share of the summed box areas that
    belongs to the listed triangles, in percent. *)
Definition CalculateOverlapPercentage (AllBounds : list FTriangleUVBounds)
    (OverlappingTriangles : list Z) : spec_float :=
  if bool_decide (length AllBounds = 0%nat) then Flt.zero
  else
    let TotalArea :=
      foldl (λ acc Bounds, Flt.add acc (UVRule.GetArea Bounds)) Flt.zero AllBounds in
    let OverlappingArea :=
      foldl (λ acc Bounds,
               if bool_decide (TriangleID Bounds ∈ OverlappingTriangles)
               then Flt.add acc (UVRule.GetArea Bounds) else acc)
            Flt.zero AllBounds in
    if SFltb Flt.zero TotalArea
    then Flt.mul (Flt.div OverlappingArea TotalArea) (Flt.of_int 100)
    else Flt.zero.

Section WithEngine.
(** The mesh builder [UStaticMesh::Build]. *)
Variable Build : UStaticMesh -> UStaticMesh.

Definition CanFixUVOverlaps (StaticMesh : option UStaticMesh)
    (OverlapInfo : FUVOverlapInfo) : bool :=
  match StaticMesh with
  | None => false
  | Some m =>
      match MeshDescription0 m with
      | None => false
      | Some _ => SFltb (OverlapPercentage OverlapInfo) (Flt.of_int 90)
      end
  end.

(** [RegenerateUVChannel]: the mesh afterwards and what was called on it. *)
Definition RegenerateUVChannel (StaticMesh : option UStaticMesh) (Channel : Z) :
  option UStaticMesh * list Event :=
  match StaticMesh with
  | None => (None, [])
  | Some m =>
      match MeshDescription0 m with
      | None => (Some m, [])
      | Some _ => (Some (Build m), [EvBuild])
      end
  end.

Definition PerformAutoUnwrap (StaticMesh : option UStaticMesh) (Channel : Z)
    (MinChartSize : spec_float) : option UStaticMesh * list Event :=
  RegenerateUVChannel StaticMesh Channel.

Definition FixUVOverlaps (StaticMesh : option UStaticMesh)
    (OverlapInfo : FUVOverlapInfo) : option UStaticMesh * list Event :=
  if negb (CanFixUVOverlaps StaticMesh OverlapInfo) then (StaticMesh, [])
  else
    let '(m1, ev) := RegenerateUVChannel StaticMesh (UVChannel OverlapInfo) in
    (LODFix.MarkPackageDirty <$> m1, ev ++ [EvMarkPackageDirty]).

End WithEngine.
End UVFix.

(** *** Notions used to state that results are only ever appended *)

Definition RuleOnlyAppends (R : IAssetCheckRule) : Prop :=
  forall asset profile out, exists new,
    snd (RuleCheck R asset profile out) = out ++ new.

(** An overlap report of 95%. *)
Definition SevereOverlapInfo : FUVOverlapInfo :=
  MkOverlapInfo 0 10 (Flt.of_int 95) [] "".

(** ** The material slot rule (FStaticMeshMaterialSlotRule.cpp)

    A rule that is switched by the plugin settings, not by the profile. *)

(** The fields of [UPipelineGuardianSettings] the material slot rule reads. *)
Record FMaterialSlotSettings := MkMaterialSlotSettings {
  bEnableStaticMeshMaterialSlotRule : bool;
  MaterialSlotIssueSeverity : EAssetIssueSeverity;
  MaterialSlotWarningThreshold : Z;
  MaterialSlotErrorThreshold : Z;
  bAllowMaterialSlotAutoFix : bool
}.

Module MaterialSlotRule.
Section WithEngine.
(** [GetDefault<UPipelineGuardianSettings>()], and [GetStaticMaterials()]:
    the material interface of each slot of a mesh, [None] for a null
    pointer. *)
Variable Settings : option FMaterialSlotSettings.
Variable GetStaticMaterials : UStaticMesh -> list (option FName).

Definition GetRuleID : FName := "SM_MaterialSlot".

(** [HasTooManyMaterialSlots]: the flag and [OutSlotCount]. *)
Definition HasTooManyMaterialSlots (StaticMesh : UStaticMesh)
    (WarningThreshold ErrorThreshold : Z) : bool * Z :=
  let OutSlotCount := Z.of_nat (length (GetStaticMaterials StaticMesh)) in
  (WarningThreshold <=? OutSlotCount, OutSlotCount).

(** The indices, from [i] on, of the slots without a material. *)
Fixpoint EmptySlotsFrom (i : Z) (Materials : list (option FName)) : list Z :=
  match Materials with
  | [] => []
  | None :: rest => i :: EmptySlotsFrom (i + 1) rest
  | Some _ :: rest => EmptySlotsFrom (i + 1) rest
  end.

(** [HasEmptyMaterialSlots]: the flag and [OutEmptySlotIndices]. *)
Definition HasEmptyMaterialSlots (StaticMesh : UStaticMesh) : bool * list Z :=
  let OutEmptySlotIndices := EmptySlotsFrom 0 (GetStaticMaterials StaticMesh) in
  ((0 <? length OutEmptySlotIndices)%nat, OutEmptySlotIndices).

(** ["1, 4, 5"]. *)
Fixpoint JoinIndices (Indices : list Z) : string :=
  match Indices with
  | [] => EmptyString
  | [i] => FormatInt i
  | i :: rest => FormatInt i +:+ ", " +:+ JoinIndices rest
  end.

Definition GenerateMaterialSlotDescription (StaticMesh : UStaticMesh)
    (SlotCount WarningThreshold ErrorThreshold : Z) (EmptySlotIndices : list Z) :
  string :=
  let Description0 :=
    "Material slot issues detected for " +:+ MeshName StaticMesh +:+ " (" +:+
    FormatInt SlotCount +:+ " slots): " in
  let '(Description1, HasIssues1) :=
    if ErrorThreshold <=? SlotCount then
      (Description0 +:+ "Too many material slots (" +:+ FormatInt SlotCount +:+
       " >= " +:+ FormatInt ErrorThreshold +:+ " error threshold). ", true)
    else if WarningThreshold <=? SlotCount then
      (Description0 +:+ "High material slot count (" +:+ FormatInt SlotCount +:+
       " >= " +:+ FormatInt WarningThreshold +:+ " warning threshold). ", true)
    else (Description0, false) in
  let '(Description2, HasIssues2) :=
    if (0 <? length EmptySlotIndices)%nat then
      (Description1 +:+ "Found " +:+
       FormatInt (Z.of_nat (length EmptySlotIndices)) +:+
       " empty material slot(s) at indices: " +:+ JoinIndices EmptySlotIndices +:+
       ". " +:+ "Empty slots can be automatically removed with 'Fix Now'.", true)
    else (Description1, HasIssues1) in
  if HasIssues2 then Description2
  else "Material slot check failed for " +:+ MeshName StaticMesh.

Definition CanSafelyOptimizeMaterialSlots (StaticMesh : UStaticMesh) : bool :=
  match RenderData StaticMesh with
  | None | Some [] => false
  | Some (_ :: _) =>
      negb (bool_decide (length (GetStaticMaterials StaticMesh) = 0%nat))
  end.

(** [Check]: the returned flag and the output array afterwards.  The
    profile is a parameter the function never reads. *)
Definition Check (Asset : option UObject) (Profile : option UPipelineGuardianProfile)
    (OutResults : list FAssetAnalysisResult) : bool * list FAssetAnalysisResult :=
  match CastStaticMesh Asset with
  | None => (false, OutResults)
  | Some StaticMesh =>
      match Settings with
      | None => (false, OutResults)
      | Some Cfg =>
          if negb (bEnableStaticMeshMaterialSlotRule Cfg) then (false, OutResults)
          else
            let '(TooManySlots, SlotCount) :=
              HasTooManyMaterialSlots StaticMesh (MaterialSlotWarningThreshold Cfg)
                (MaterialSlotErrorThreshold Cfg) in
            let '(HasEmptySlots, EmptySlotIndices) :=
              HasEmptyMaterialSlots StaticMesh in
            let Severity0 := MaterialSlotIssueSeverity Cfg in
            let Severity1 :=
              if TooManySlots then
                if MaterialSlotErrorThreshold Cfg <=? SlotCount then Error
                else if MaterialSlotWarningThreshold Cfg <=? SlotCount then Warning
                else Severity0
              else Severity0 in
            let Severity2 :=
              if HasEmptySlots then
                match Severity1 with
                | Info => Warning
                | _ => Severity1
                end
              else Severity1 in
            if TooManySlots || HasEmptySlots then
              (true,
               OutResults ++
               [MkResult (AssetDataOfMesh StaticMesh) Severity2 GetRuleID
                  (GenerateMaterialSlotDescription StaticMesh SlotCount
                     (MaterialSlotWarningThreshold Cfg) (MaterialSlotErrorThreshold Cfg)
                     EmptySlotIndices)
                  ""
                  (if bAllowMaterialSlotAutoFix Cfg &&
                      CanSafelyOptimizeMaterialSlots StaticMesh &&
                      (0 <? length EmptySlotIndices)%nat
                   then Some (OptimizeMaterialSlotsAction
                                (AssetDataOfMesh StaticMesh) EmptySlotIndices)
                   else None)])
            else (false, OutResults)
      end
  end.

End WithEngine.
End MaterialSlotRule.

(** *** Further example inputs *)



(** The constructor defaults of the material slot settings. *)
Definition DefaultMaterialSlotSettings : FMaterialSlotSettings :=
  MkMaterialSlotSettings true Warning 4 6 true.

(** Every mesh has two material slots, the second without a material. *)
Definition TwoSlotsOneEmpty (m : UStaticMesh) : list (option FName) :=
  [Some "M_Base"; None].

(** The default profile without its entry for the LOD reduction rule. *)
Definition ProfileWithoutLODRule : UPipelineGuardianProfile :=
  MkProfile "NoLODRule" "" 1
    [SMNamingRule; SMLODMissingRule; SMUVOverlappingRule; SMTriangleCountRule].

(** * Properties *)

(** Ordering facts on [spec_float] comparisons used by the rules. *)


Lemma SFltb_SFleb (x y : spec_float) : SFltb x y = true -> SFleb x y = true.
Proof.
  unfold SFltb, SFleb.
  destruct (SFcompare x y) as [[]|]; intros H; try discriminate; reflexivity.
Qed.

Lemma Clamp_le_max (X lo hi : spec_float) :
  SFleb lo hi = true -> SFleb hi hi = true ->
  SFleb (FMath.Clamp X lo hi) hi = true.
Proof.
  intros Hlo Hhi. unfold FMath.Clamp, FMath.Max, FMath.Min.
  destruct (SFltb X hi) eqn:HX.
  - destruct (SFltb lo X); [apply SFltb_SFleb; exact HX | exact Hlo].
  - destruct (SFltb lo hi); [exact Hhi | exact Hlo].
Qed.

Lemma Clamp_cases (X lo hi : spec_float) :
  FMath.Clamp X lo hi = X \/ FMath.Clamp X lo hi = lo \/ FMath.Clamp X lo hi = hi.
Proof.
  unfold FMath.Clamp, FMath.Max, FMath.Min.
  destruct (SFltb X hi); [destruct (SFltb lo X) | destruct (SFltb lo hi)]; auto.
Qed.


(** ** Profile store *)

Lemma FindRuleConfig_Some l id i c :
  FindRuleConfig l id = Some (i, c) -> l !! i = Some c /\ RuleID c = id.
Proof.
  unfold FindRuleConfig. intros H%list_find_Some. tauto.
Qed.

Lemma FindRuleConfig_None l id :
  FindRuleConfig l id = None <-> id ∉ RuleID <$> l.
Proof.
  unfold FindRuleConfig. rewrite list_find_None, Forall_forall, list_elem_of_fmap.
  split.
  - intros H (c & -> & Hc). exact (H c Hc eq_refl).
  - intros H c Hc Heq. apply H. exists c. auto.
Qed.

(** Upsert keeps the identifiers pairwise distinct. *)
Lemma SetRuleConfigs_NoDup cfg l :
  NoDup (RuleID <$> l) -> NoDup (RuleID <$> SetRuleConfigs cfg l).
Proof.
  intros Hnd. unfold SetRuleConfigs.
  destruct (FindRuleConfig l (RuleID cfg)) as [[i c]|] eqn:Hfind.
  - apply FindRuleConfig_Some in Hfind as [Hi Hid].
    rewrite list_fmap_insert, list_insert_id; [exact Hnd|].
    rewrite list_lookup_fmap, Hi. simpl. congruence.
  - apply FindRuleConfig_None in Hfind.
    rewrite fmap_app. apply NoDup_app. repeat split; [exact Hnd| |].
    + intros x Hx Hx'. apply list_elem_of_singleton in Hx'. subst x. auto.
    + apply NoDup_singleton.
Qed.

Lemma SetRuleConfig_unique cfg p :
  UniqueRuleIDs p -> UniqueRuleIDs (SetRuleConfig cfg p).
Proof. apply SetRuleConfigs_NoDup. Qed.

(** After an upsert the profile holds the configuration under its RuleID. *)
Lemma SetRuleConfigs_elem cfg l : cfg ∈ SetRuleConfigs cfg l.
Proof.
  unfold SetRuleConfigs.
  destruct (FindRuleConfig l (RuleID cfg)) as [[i c]|] eqn:Hfind.
  - apply FindRuleConfig_Some in Hfind as [Hi _].
    apply list_elem_of_lookup. exists i.
    apply list_lookup_insert_eq. eapply lookup_lt_Some; eauto.
  - apply elem_of_app. right. apply list_elem_of_singleton. reflexivity.
Qed.

Lemma NewProfile_RuleIDs :
  RuleID <$> RuleConfigs NewProfile =
  ["SM_Naming"; "SM_LODMissing"; "SM_LODPolyReduction"; "SM_UVOverlapping";
   "SM_TriangleCount"].
Proof. vm_compute. reflexivity. Qed.

Lemma NewProfile_unique : UniqueRuleIDs NewProfile.
Proof.
  unfold UniqueRuleIDs. rewrite NewProfile_RuleIDs.
  apply (bool_decide_unpack _). vm_compute. exact I.
Qed.

Lemma IsRuleEnabled_absent p id :
  id ∉ RuleID <$> RuleConfigs p -> IsRuleEnabled p id = false.
Proof.
  intros H%FindRuleConfig_None. unfold IsRuleEnabled, GetRuleConfigPtr.
  rewrite H. reflexivity.
Qed.

Lemma GetRuleConfig_absent p id :
  id ∉ RuleID <$> RuleConfigs p -> GetRuleConfig p id = DefaultRuleConfig.
Proof.
  intros H%FindRuleConfig_None. unfold GetRuleConfig, GetRuleConfigPtr.
  rewrite H. reflexivity.
Qed.

Lemma IsRuleEnabled_false_iff p id :
  IsRuleEnabled p id = false <->
  (id ∉ RuleID <$> RuleConfigs p) \/
  (exists i c, FindRuleConfig (RuleConfigs p) id = Some (i, c) /\ bEnabled c = false).
Proof.
  unfold IsRuleEnabled, GetRuleConfigPtr.
  destruct (FindRuleConfig (RuleConfigs p) id) as [[i c]|] eqn:Hf; simpl.
  - split.
    + intros Hb. right. eauto.
    + intros [Habs | (i' & c' & Heq & Hb)].
      * apply FindRuleConfig_None in Habs. congruence.
      * congruence.
  - split; [|reflexivity]. intros _. left. apply FindRuleConfig_None. exact Hf.
Qed.

(** ** JSON export and import *)

Section JsonProperties.
Variable SanitizeFloat : spec_float -> string.
Variable ToBool : string -> bool.
Variable StringToNumber : string -> option spec_float.
Variable Serialize : gmap string FJsonValue -> string.
Variable Deserialize : string -> option (gmap string FJsonValue).

Lemma ExportParameters_fmap (ps : gmap string string) :
  ExportParameters ps = JString <$> ps.
Proof.
  unfold ExportParameters.
  apply (map_fold_weak_ind (λ r m, r = JString <$> m)).
  - rewrite fmap_empty. reflexivity.
  - intros i x m r _ ->. rewrite fmap_insert. reflexivity.
Qed.

Lemma ImportParameters_strings (ps : gmap string string) :
  ImportParameters SanitizeFloat (JString <$> ps) ∅ = ps.
Proof.
  unfold ImportParameters. rewrite map_fold_fmap.
  apply (map_fold_weak_ind (λ r m, r = m)); [reflexivity|].
  intros i x m r _ ->. reflexivity.
Qed.

Lemma ImportRule_ExportRule (c : FPipelineGuardianRuleConfig) :
  ImportRule SanitizeFloat ToBool (ExportRule c) = Some c.
Proof.
  destruct c as [id en ps].
  unfold ImportRule, ExportRule, TryGetStringField, TryGetBoolField,
    TryGetObjectField. simpl.
  rewrite ExportParameters_fmap.
  rewrite lookup_insert_ne, lookup_insert_ne, lookup_insert_eq by discriminate.
  rewrite lookup_insert_ne, lookup_insert_eq by discriminate.
  rewrite lookup_insert_eq. simpl.
  rewrite ImportParameters_strings. reflexivity.
Qed.

Lemma ExportRules_foldl (l : list FPipelineGuardianRuleConfig) acc :
  foldl (λ arr c, arr ++ [ExportRule c]) acc l = acc ++ (ExportRule <$> l).
Proof.
  revert acc. induction l as [|c l IH]; intros acc; simpl.
  - rewrite app_nil_r. reflexivity.
  - rewrite IH, <- app_assoc. reflexivity.
Qed.

Lemma ImportRules_foldl (arr : list FJsonValue) acc :
  foldl (λ cfgs v, match ImportRule SanitizeFloat ToBool v with
                   | Some c => cfgs ++ [c]
                   | None => cfgs
                   end) acc arr
  = acc ++ omap (ImportRule SanitizeFloat ToBool) arr.
Proof.
  revert acc. induction arr as [|v arr IH]; intros acc; simpl.
  - rewrite app_nil_r. reflexivity.
  - rewrite IH. destruct (ImportRule SanitizeFloat ToBool v); simpl.
    + rewrite <- app_assoc. reflexivity.
    + reflexivity.
Qed.

Lemma ImportRules_ExportRules (l : list FPipelineGuardianRuleConfig) :
  ImportRules SanitizeFloat ToBool (ExportRule <$> l) = l.
Proof.
  unfold ImportRules. rewrite ImportRules_foldl, app_nil_l.
  induction l as [|c l IH]; [reflexivity|].
  rewrite fmap_cons. cbn [omap list_omap].
  rewrite ImportRule_ExportRule. f_equal. exact IH.
Qed.

Lemma ImportRoot_ExportRoot (p q : UPipelineGuardianProfile) :
  let q' := ImportRoot SanitizeFloat ToBool StringToNumber (ExportRoot p) q in
  RuleConfigs q' = RuleConfigs p /\
  ProfileName q' = ProfileName p /\
  Description q' = Description p.
Proof.
  unfold ImportRoot, ExportRoot, TryGetArrayField, HasField, GetStringField.
  simpl. rewrite ExportRules_foldl. simpl.
  rewrite lookup_insert_eq. simpl.
  rewrite ImportRules_ExportRules.
  split; [reflexivity|].
  rewrite !bool_decide_eq_true_2.
  - rewrite lookup_insert_ne, lookup_insert_ne, lookup_insert_ne,
      lookup_insert_eq by discriminate.
    rewrite lookup_insert_ne, lookup_insert_ne, lookup_insert_eq by discriminate.
    split; reflexivity.
  - rewrite lookup_insert_ne, lookup_insert_ne, lookup_insert_eq by discriminate.
    eauto.
  - rewrite lookup_insert_ne, lookup_insert_ne, lookup_insert_ne,
      lookup_insert_eq by discriminate.
    eauto.
Qed.

(** C5.  Importing the document produced by exporting a profile succeeds and
    yields the same RuleConfig collection: the same RuleIDs with the same
    Enabled flags and the same parameter key/value pairs (here even in the
    same order, hence also as a set), whatever profile the import overwrites.
    The engine's JSON text writer and reader are assumed to reproduce the
    exported root object. *)
Theorem import_export_roundtrip (p q : UPipelineGuardianProfile) :
  Deserialize (Serialize (ExportRoot p)) = Some (ExportRoot p) ->
  let r := ImportFromJSON SanitizeFloat ToBool StringToNumber Deserialize
             (ExportToJSON Serialize p) q in
  fst r = true /\
  RuleConfigs (snd r) = RuleConfigs p /\
  (forall c, c ∈ RuleConfigs (snd r) <-> c ∈ RuleConfigs p) /\
  ProfileName (snd r) = ProfileName p /\
  Description (snd r) = Description p.
Proof.
  intros Hrt. unfold ImportFromJSON, ExportToJSON. rewrite Hrt.
  cbn [fst snd].
  destruct (ImportRoot_ExportRoot p q) as (Hc & Hn & Hd).
  split; [reflexivity|]. split; [exact Hc|]. split; [|split; assumption].
  intros c. rewrite Hc. reflexivity.
Qed.

End JsonProperties.

(** ** LOD reduction rule: the check *)

Lemma severity_gt_Info (s : EAssetIssueSeverity) : severity_gt s Info = false.
Proof. destruct s; reflexivity. Qed.

Section LODRuleProperties.
Variable Atof : string -> spec_float.
Variable FormatFloat1 : spec_float -> string.
Variable AsNumber : Z -> string.
Variable MeshReductionInterface : bool.

(** The bands of [GetSeverityForReduction]: below the error threshold,
    else below the warning threshold, else below the minimum. *)
Lemma GetSeverityForReduction_bands (a mn w e : spec_float) :
  (SFltb a e = true -> LODRule.GetSeverityForReduction a mn w e = Error) /\
  (SFltb a e = false -> SFltb a w = true ->
   LODRule.GetSeverityForReduction a mn w e = Warning) /\
  (SFltb a e = false -> SFltb a w = false -> SFltb a mn = true ->
   LODRule.GetSeverityForReduction a mn w e = Info).
Proof.
  unfold LODRule.GetSeverityForReduction.
  repeat split; intros; repeat match goal with H : _ = _ |- _ => rewrite H end;
    reflexivity.
Qed.

(** A negative reduction is worded as an increase. *)
Lemma ReductionText_negative (r : spec_float) :
  SFltb r (Flt.of_int 0) = true ->
  LODRule.ReductionText FormatFloat1 r =
  "INCREASE of " +:+ FormatFloat1 (FMath.Abs r) +:+ "%".
Proof. unfold LODRule.ReductionText. intros ->. reflexivity. Qed.

Lemma ReductionText_nonnegative (r : spec_float) :
  SFltb r (Flt.of_int 0) = false ->
  LODRule.ReductionText FormatFloat1 r = FormatFloat1 r +:+ "% reduction".
Proof. unfold LODRule.ReductionText. intros ->. reflexivity. Qed.

Lemma CheckPair_WorstSeverity m mn w e st i :
  LODRule.WorstSeverity st = Info ->
  LODRule.WorstSeverity (LODRule.CheckPair FormatFloat1 m mn w e st i) = Info.
Proof.
  intros Hst. unfold LODRule.CheckPair.
  destruct (_ || _); [exact Hst|].
  destruct (SFltb _ mn); [|exact Hst].
  simpl. rewrite Hst, severity_gt_Info. reflexivity.
Qed.

(** The comparison [CurrentSeverity > WorstSeverity] never succeeds against
    the initial [Info], the largest enumerator: the loop leaves
    [WorstSeverity] at [Info]. *)
Lemma CheckPairs_WorstSeverity m mn w e n :
  LODRule.WorstSeverity (LODRule.CheckPairs FormatFloat1 m mn w e n) = Info.
Proof.
  unfold LODRule.CheckPairs.
  generalize (seq 1 (n - 1)).
  assert (H : LODRule.WorstSeverity LODRule.InitialCheckState = Info) by reflexivity.
  revert H. generalize LODRule.InitialCheckState.
  intros st H l. revert st H.
  induction l as [|i l IH]; intros st H; simpl; [exact H|].
  apply IH, CheckPair_WorstSeverity, H.
Qed.

Lemma LODCheck_appends asset profile out :
  let r := LODRule.Check Atof FormatFloat1 AsNumber MeshReductionInterface
             asset profile out in
  snd r = out \/
  exists res, snd r = out ++ [res] /\ Severity res = Info /\
              ResultRuleID res = LODRule.GetRuleID.
Proof.
  unfold LODRule.Check.
  destruct (CastStaticMesh asset) as [m|]; [|left; reflexivity].
  destruct profile as [p|]; [|left; reflexivity].
  destruct (negb _); [left; reflexivity|].
  destruct (RenderData m) as [lods|]; [|left; reflexivity].
  destruct (_ <? _)%nat; [left; reflexivity|].
  destruct (_ && _); [|left; reflexivity].
  right. eexists. split; [reflexivity|]. simpl.
  split; [apply CheckPairs_WorstSeverity | reflexivity].
Qed.

Lemma LODCheck_disabled asset p out :
  IsRuleEnabled p LODRule.GetRuleID = false ->
  LODRule.Check Atof FormatFloat1 AsNumber MeshReductionInterface
    asset (Some p) out = (false, out).
Proof.
  intros H. unfold LODRule.Check.
  destruct (CastStaticMesh asset); [|reflexivity].
  rewrite H. reflexivity.
Qed.

(** C3.  With its RuleID disabled in the profile the UV rule leaves the
    output array untouched, but its check returns [true], where the rule
    interface ("true if any issues were found") and the LOD rule return
    [false]. *)
Theorem uv_check_disabled_returns_true asset p out :
  IsRuleEnabled p UVRule.GetRuleID = false ->
  UVRule.Check Atof FormatFloat1 asset (Some p) out = (true, out) /\
  (IsRuleEnabled p LODRule.GetRuleID = false ->
   LODRule.Check Atof FormatFloat1 AsNumber MeshReductionInterface
     asset (Some p) out = (false, out)).
Proof.
  intros H. split.
  - unfold UVRule.Check. rewrite H. reflexivity.
  - apply LODCheck_disabled.
Qed.

Lemma EmptySlotsFrom_found (Materials : list (option FName)) :
  forall i : Z,
    None ∈ Materials ->
    (0 < length (MaterialSlotRule.EmptySlotsFrom i Materials))%nat.
Proof.
  induction Materials as [|x l IH]; intros i Hin.
  - apply elem_of_nil in Hin. contradiction.
  - destruct x as [name|]; cbn [MaterialSlotRule.EmptySlotsFrom length]; [|lia].
    apply IH. apply elem_of_cons in Hin as [Hin|Hin]; [discriminate|exact Hin].
Qed.

(** C10 (amended).  A RuleID without an entry in the profile counts as
    disabled: [IsRuleEnabled] is false for it although the configuration
    [GetRuleConfig] falls back to is enabled, and the rules that gate their
    check on [IsRuleEnabled], the LOD reduction and UV overlap rules, leave
    the output array as it was, for every asset.  A rule switched by the
    plugin settings instead, the material slot rule, does not consult the
    profile: its check gives the same flag and results whatever the profile
    is, and with the rule switched on in the settings it reports every
    static mesh that has a material slot without a material. *)
Theorem unconfigured_rule_is_disabled (p : UPipelineGuardianProfile) (id : FName)
    (Settings : option FMaterialSlotSettings)
    (GetStaticMaterials : UStaticMesh -> list (option FName)) :
  id ∉ RuleID <$> RuleConfigs p ->
  IsRuleEnabled p id = false /\
  GetRuleConfig p id = DefaultRuleConfig /\
  bEnabled (GetRuleConfig p id) = true /\
  (forall asset out, id = LODRule.GetRuleID ->
     snd (LODRule.Check Atof FormatFloat1 AsNumber MeshReductionInterface
            asset (Some p) out) = out) /\
  (forall asset out, id = UVRule.GetRuleID ->
     snd (UVRule.Check Atof FormatFloat1 asset (Some p) out) = out) /\
  (forall asset profile out,
     MaterialSlotRule.Check Settings GetStaticMaterials asset profile out =
     MaterialSlotRule.Check Settings GetStaticMaterials asset (Some p) out) /\
  (forall cfg c m out,
     Settings = Some cfg ->
     bEnableStaticMeshMaterialSlotRule cfg = true ->
     None ∈ GetStaticMaterials m ->
     exists r,
       MaterialSlotRule.Check Settings GetStaticMaterials
         (Some (StaticMeshObject c m)) (Some p) out = (true, out ++ [r]) /\
       ResultRuleID r = "SM_MaterialSlot").
Proof.
  intros Habs.
  pose proof (IsRuleEnabled_absent p id Habs) as Hdis.
  pose proof (GetRuleConfig_absent p id Habs) as Hcfg.
  split; [exact Hdis|]. split; [exact Hcfg|].
  split; [rewrite Hcfg; reflexivity|]. split; [|split; [|split]].
  - intros asset out ->. rewrite LODCheck_disabled by exact Hdis. reflexivity.
  - intros asset out ->. unfold UVRule.Check. rewrite Hdis. reflexivity.
  - intros asset profile out. reflexivity.
  - intros cfg c m out -> Hon Hempty.
    unfold MaterialSlotRule.Check, MaterialSlotRule.HasTooManyMaterialSlots,
      MaterialSlotRule.HasEmptyMaterialSlots.
    cbn [CastStaticMesh]. rewrite Hon. cbn [negb].
    pose proof (EmptySlotsFrom_found (GetStaticMaterials m) 0 Hempty) as Hlen.
    apply Nat.ltb_lt in Hlen. rewrite Hlen, orb_true_r.
    eexists. split; reflexivity.
Qed.

End LODRuleProperties.

(** C2.  On a two-LOD mesh whose only pair reduces by 5%, below the error
    threshold of 10%, the pair's severity is [Error], yet the single result
    that [Check] reports carries [Info]: the worst severity is not tracked. *)
Theorem lod_worst_severity_not_tracked :
  LODRule.GetSeverityForReduction
    (LODRule.CalculateReductionPercentage 10000 9500)
    (Atof_decimal "30.0") (Atof_decimal "20.0") (Atof_decimal "10.0") = Error /\
  Severity <$>
    snd (LODRule.Check Atof_decimal Printf_1f AsNumber_plain true
           (Some (StaticMeshObject StaticMeshClass WeakLODMesh))
           (Some NewProfile) []) = [Info].
Proof. split; vm_compute; reflexivity. Qed.

Lemma uv_check_disabled_witness :
  UVRule.Check Atof_decimal Printf_1f
    (Some (StaticMeshObject StaticMeshClass StackedMesh))
    (Some ProfileUVDisabled) [] = (true, []) /\
  (IsRuleEnabled ProfileUVDisabled LODRule.GetRuleID = false ->
   LODRule.Check Atof_decimal Printf_1f AsNumber_plain true
     (Some (StaticMeshObject StaticMeshClass StackedMesh))
     (Some ProfileUVDisabled) [] = (false, [])).
Proof.
  apply (uv_check_disabled_returns_true Atof_decimal Printf_1f AsNumber_plain true).
  vm_compute. reflexivity.
Defined.

Lemma unconfigured_rule_witness :
  (LODRule.GetRuleID ∉ RuleID <$> RuleConfigs ProfileWithoutLODRule) /\
  IsRuleEnabled ProfileWithoutLODRule LODRule.GetRuleID = false /\
  bEnabled (GetRuleConfig ProfileWithoutLODRule LODRule.GetRuleID) = true /\
  snd (LODRule.Check Atof_decimal Printf_1f AsNumber_plain true
         (Some (StaticMeshObject StaticMeshClass WeakLODMesh))
         (Some ProfileWithoutLODRule) []) = [] /\
  length (snd (LODRule.Check Atof_decimal Printf_1f AsNumber_plain true
                 (Some (StaticMeshObject StaticMeshClass WeakLODMesh))
                 (Some NewProfile) [])) = 1%nat.
Proof.
  assert (Habs : LODRule.GetRuleID ∉ RuleID <$> RuleConfigs ProfileWithoutLODRule).
  { apply (bool_decide_unpack _). vm_compute. reflexivity. }
  destruct (unconfigured_rule_is_disabled Atof_decimal Printf_1f AsNumber_plain
              true ProfileWithoutLODRule LODRule.GetRuleID
              (Some DefaultMaterialSlotSettings) TwoSlotsOneEmpty Habs)
    as (Hdis & Hcfg & Hen & Hlod & _).
  split; [exact Habs|]. split; [exact Hdis|]. split; [exact Hen|].
  split; [apply Hlod; reflexivity|]. vm_compute. reflexivity.
Defined.

(** C10, as stated, fails: the default profile has no entry for the
    material slot rule, so the rule counts as disabled in it, yet with the
    rule switched on in the plugin settings its check reports a mesh with an
    empty material slot. *)
Lemma unconfigured_rule_still_reports :
  (MaterialSlotRule.GetRuleID ∉ RuleID <$> RuleConfigs NewProfile) /\
  IsRuleEnabled NewProfile MaterialSlotRule.GetRuleID = false /\
  ~ (snd (MaterialSlotRule.Check (Some DefaultMaterialSlotSettings)
            TwoSlotsOneEmpty
            (Some (StaticMeshObject StaticMeshClass WeakLODMesh))
            (Some NewProfile) []) = []).
Proof.
  split; [apply (bool_decide_unpack _); vm_compute; reflexivity|].
  split; [vm_compute; reflexivity|].
  vm_compute. discriminate.
Qed.

(** ** UV overlap rule *)

Lemma AddUnique_elem {A} `{EqDecision A} (x : A) (l : list A) : x ∈ AddUnique x l.
Proof.
  unfold AddUnique. destruct (decide (x ∈ l)); [assumption|].
  apply elem_of_app. right. apply list_elem_of_singleton. reflexivity.
Qed.

Lemma AddUnique_mono {A} `{EqDecision A} (x y : A) (l : list A) :
  y ∈ l -> y ∈ AddUnique x l.
Proof.
  intros Hy. unfold AddUnique. destruct (decide (x ∈ l)); [assumption|].
  apply elem_of_app. left. assumption.
Qed.

Lemma DetectAgainst_mono bi rest tol f Out y :
  y ∈ Out -> y ∈ UVRule.DetectAgainst bi rest tol f Out.
Proof.
  revert f Out. induction rest as [|bj rest IH]; intros f Out Hy; simpl.
  - exact Hy.
  - destruct (UVRule.Overlaps bi bj tol); [|apply IH; exact Hy].
    apply IH, AddUnique_mono. destruct f; [|apply AddUnique_mono]; exact Hy.
Qed.

(** The inner loop lists both triangles of an overlapping pair. *)
Lemma DetectAgainst_hit bi rest tol f Out bj :
  (f = true -> TriangleID bi ∈ Out) ->
  bj ∈ rest -> UVRule.Overlaps bi bj tol = true ->
  TriangleID bi ∈ UVRule.DetectAgainst bi rest tol f Out /\
  TriangleID bj ∈ UVRule.DetectAgainst bi rest tol f Out.
Proof.
  revert f Out. induction rest as [|b rest IH]; intros f Out Hf Hin Hov.
  - apply elem_of_nil in Hin. contradiction.
  - simpl. apply elem_of_cons in Hin as [->|Hin].
    + rewrite Hov. split; apply DetectAgainst_mono.
      * apply AddUnique_mono. destruct f; [apply Hf; reflexivity|apply AddUnique_elem].
      * apply AddUnique_elem.
    + destruct (UVRule.Overlaps bi b tol).
      * apply IH; [|exact Hin|exact Hov]. intros _.
        apply AddUnique_mono. destruct f; [apply Hf; reflexivity|apply AddUnique_elem].
      * apply IH; assumption.
Qed.

Lemma DetectFrom_mono l tol Out y :
  y ∈ Out -> y ∈ UVRule.DetectFrom l tol Out.
Proof.
  revert Out. induction l as [|bi rest IH]; intros Out Hy; simpl; [exact Hy|].
  apply IH, DetectAgainst_mono, Hy.
Qed.

Lemma DetectFrom_pair l tol Out (i j : nat) a b :
  l !! i = Some a -> l !! j = Some b -> (i < j)%nat ->
  UVRule.Overlaps a b tol = true ->
  TriangleID a ∈ UVRule.DetectFrom l tol Out /\
  TriangleID b ∈ UVRule.DetectFrom l tol Out.
Proof.
  revert i j Out. induction l as [|bi rest IH]; intros i j Out Hi Hj Hlt Hov.
  - discriminate.
  - destruct j as [|j]; [lia|]. destruct i as [|i]; simplify_eq/=.
    + destruct (DetectAgainst_hit a rest tol false Out b) as [Ha Hb];
        [discriminate | eapply list_elem_of_lookup_2; exact Hj | exact Hov |].
      split; apply DetectFrom_mono; assumption.
    + apply (IH i j); [assumption|assumption|lia|assumption].
Qed.

Section UVRuleProperties.
Variable FormatFloat1 : spec_float -> string.

(** The channel is flagged exactly by the similar-bounds heuristic. *)
Lemma AnalyzeUVChannelOverlaps_flag md ch tol info :
  fst (UVRule.AnalyzeUVChannelOverlaps FormatFloat1 md ch tol info) = true <->
  is_Some md /\ (ch <? 0) = false /\
  (4 < length (UVRule.BuildTriangleUVBounds md ch))%nat /\
  SFltb (Flt.lit 8 1) (UVRule.SimilarityRatio (UVRule.BuildTriangleUVBounds md ch))
  = true.
Proof.
  unfold UVRule.AnalyzeUVChannelOverlaps.
  destruct md as [d|].
  2:{ cbn [fst]. split; [intros ?; discriminate|]. intros [[x Hx] _]. discriminate. }
  set (bounds := UVRule.BuildTriangleUVBounds (Some d) ch).
  destruct (ch <? 0); cbn [fst].
  { split; [intros ?; discriminate|]. intros (_ & H & _). discriminate. }
  destruct (bool_decide (length bounds = 0%nat)) eqn:Hlen; cbn [fst].
  { apply bool_decide_eq_true in Hlen.
    split; [intros ?; discriminate|]. intros (_ & _ & H & _). lia. }
  destruct (Nat.ltb_spec 4 (length bounds)); cbn [fst].
  - destruct (SFltb (Flt.lit 8 1) (UVRule.SimilarityRatio bounds)); cbn [fst].
    + split; [|reflexivity]. intros _. repeat split; eauto.
    + split; [intros ?; discriminate|]. intros (_ & _ & _ & H'). discriminate.
  - split; [intros ?; discriminate|]. intros (_ & _ & H' & _). lia.
Qed.

End UVRuleProperties.


(** The same input through [Check]: no result for the mesh. *)
Lemma uv_check_stacked_triangles :
  UVRule.Check Atof_decimal Printf_1f
    (Some (StaticMeshObject StaticMeshClass StackedMesh)) (Some NewProfile) []
  = (true, []).
Proof. vm_compute. reflexivity. Qed.

(** ** LOD reduction rule: the repair *)

Lemma Clamp_ge_min (X lo hi : spec_float) :
  SFleb lo lo = true -> SFleb lo (FMath.Clamp X lo hi) = true.
Proof.
  intros Hlo. unfold FMath.Clamp, FMath.Max.
  destruct (SFltb lo (FMath.Min X hi)) eqn:H; [apply SFltb_SFleb, H | exact Hlo].
Qed.

Lemma foldl_insert_length {A} (f : nat -> A) (idxs : list nat) (l : list A) :
  length (foldl (λ l j, <[j := f j]> l) l idxs) = length l.
Proof.
  revert l. induction idxs as [|j idxs IH]; intros l; simpl; [reflexivity|].
  rewrite IH, length_insert. reflexivity.
Qed.

Lemma foldl_insert_lookup_notin {A} (f : nat -> A) (idxs : list nat) (l : list A) i :
  i ∉ idxs -> foldl (λ l j, <[j := f j]> l) l idxs !! i = l !! i.
Proof.
  revert l. induction idxs as [|j idxs IH]; intros l Hi; simpl; [reflexivity|].
  apply not_elem_of_cons in Hi as [Hne Hi].
  rewrite IH by exact Hi. apply list_lookup_insert_ne. congruence.
Qed.


Section LODFixProperties.
Variable Pow : spec_float -> spec_float -> spec_float.
Variable Build : UStaticMesh -> UStaticMesh.
Variable FormatFloat1 : spec_float -> string.
Variable AsNumber : Z -> string.






(** Whatever the inputs, the mesh is rebuilt at most once. *)
Lemma FixAllLODReductions_builds_at_most_once mri m lods T m' ev :
  LODFix.FixAllLODReductions Pow Build FormatFloat1 AsNumber mri m lods T
  = FixDone m' ev ->
  (length (filter (λ e, e = EvBuild) ev) <= 1)%nat.
Proof.
  unfold LODFix.FixAllLODReductions.
  destruct m as [m0|]; [|intros [= <- <-]; simpl; lia].
  destruct (bool_decide _); [intros [= <- <-]; simpl; lia|].
  destruct (negb mri); [intros [= <- <-]; vm_compute; lia|].
  destruct (RenderData (LODFix.Modify m0)) as [[|b l]|]; try discriminate.
  destruct (LODFix.VerifyAllLODs _ _ _ _); [|discriminate].
  intros [= <- <-]. vm_compute. lia.
Qed.




End LODFixProperties.


(** ** Dispatch *)

Lemma FindAnalyzer_first map (c : UClass) :
  forall pre c' post a,
    Ancestors c = pre ++ c' :: post ->
    (forall x, x ∈ pre -> RegisteredAnalyzer map x = None) ->
    RegisteredAnalyzer map c' = Some a ->
    FindAnalyzer map c = Some a.
Proof.
  remember (Ancestors c) as chain eqn:Hchain.
  revert c Hchain. induction chain as [|x chain IH]; intros c Hchain pre c' post a Hsplit Hpre Hreg.
  - destruct pre; discriminate.
  - destruct c as [n s]. simpl in Hchain. injection Hchain as -> Hchain.
    destruct pre as [|p pre]; simpl in Hsplit; injection Hsplit as <- Hsplit.
    + unfold RegisteredAnalyzer in Hreg. simpl in Hreg. simpl.
      destruct (map !! n) as [[a'|]|]; congruence.
    + assert (Hp : RegisteredAnalyzer map (MkClass n s) = None)
        by (apply Hpre; apply elem_of_cons; left; reflexivity).
      unfold RegisteredAnalyzer in Hp. simpl in Hp. simpl.
      destruct s as [s|].
      * assert (Hrec : FindAnalyzer map s = Some a).
        { eapply (IH s Hchain pre c' post a); [exact Hsplit| |exact Hreg].
          intros y Hy. apply Hpre. apply elem_of_cons. right. exact Hy. }
        destruct (map !! n) as [[a'|]|]; [discriminate|exact Hrec|exact Hrec].
      * subst chain. destruct pre; discriminate.
Qed.

Lemma FindAnalyzer_none map (c : UClass) :
  (forall x, x ∈ Ancestors c -> RegisteredAnalyzer map x = None) ->
  FindAnalyzer map c = None.
Proof.
  remember (Ancestors c) as chain eqn:Hchain.
  revert c Hchain. induction chain as [|x chain IH]; intros c Hchain Hall.
  - destruct c; discriminate.
  - destruct c as [n s]. simpl in Hchain. injection Hchain as -> Hchain.
    assert (Hp : RegisteredAnalyzer map (MkClass n s) = None)
      by (apply Hall; apply elem_of_cons; left; reflexivity).
    unfold RegisteredAnalyzer in Hp. simpl in Hp. simpl.
    assert (Hrec : match s with
                   | Some s' => FindAnalyzer map s'
                   | None => None
                   end = None).
    { destruct s as [s|]; [|reflexivity].
      apply (IH s Hchain). intros y Hy. apply Hall. apply elem_of_cons.
      right. exact Hy. }
    destruct (map !! n) as [[a'|]|]; [discriminate|exact Hrec|exact Hrec].
Qed.

(** Registration makes the analyzer the registered one of its class. *)
Lemma RegisterAssetAnalyzer_registered map c a :
  RegisteredAnalyzer (RegisterAssetAnalyzer (Some c) (Some a) map) c = Some a.
Proof.
  unfold RegisteredAnalyzer, RegisterAssetAnalyzer. rewrite lookup_insert_eq.
  reflexivity.
Qed.

Section ScanningProperties.
Variable GetAsset : FAssetData -> option UObject.
Variable AssetsInPath : string -> list FAssetData.
Variable AsNumber : Z -> string.
Variable ShouldCancel : nat -> bool.

(** C7.  For an asset that loads, with an active profile: the analyzer run
    is the one registered for the first class of the ancestor chain (most
    derived first) that has one, and the output array is what that analyzer
    leaves; when no class of the chain has a registered analyzer the output
    array is unchanged. *)
Theorem dispatch_walks_ancestor_chain
    (map : gmap string (option IAssetAnalyzer)) (data : FAssetData)
    (Settings : option UPipelineGuardianSettings)
    (Profile : UPipelineGuardianProfile) (obj : UObject)
    (out : list FAssetAnalysisResult) :
  AssetIsValid data = true ->
  GetAsset data = Some obj ->
  Settings ≫= GetActiveProfile = Some Profile ->
  (forall pre c' post a,
     Ancestors (GetClass obj) = pre ++ c' :: post ->
     (forall x, x ∈ pre -> RegisteredAnalyzer map x = None) ->
     RegisteredAnalyzer map c' = Some a ->
     AnalyzeSingleAsset GetAsset map data Settings out =
     AnalyzeAsset a data (Some Profile) out) /\
  ((forall x, x ∈ Ancestors (GetClass obj) -> RegisteredAnalyzer map x = None) ->
   AnalyzeSingleAsset GetAsset map data Settings out = out).
Proof.
  intros Hvalid Hload Hprofile. unfold AnalyzeSingleAsset.
  rewrite Hvalid, Hload. cbn [negb]. split.
  - intros pre c' post a Hchain Hpre Hreg.
    rewrite (FindAnalyzer_first map (GetClass obj) pre c' post a Hchain Hpre Hreg).
    rewrite Hprofile. reflexivity.
  - intros Hnone. rewrite (FindAnalyzer_none map (GetClass obj) Hnone).
    reflexivity.
Qed.

(** Without cancellation the loop evaluates every asset in order. *)
Lemma AnalyzeLoop_no_cancel map Settings Total (l : list FAssetData) st :
  (forall k, ShouldCancel k = false) ->
  FinalResults (AnalyzeLoop GetAsset AsNumber ShouldCancel map Settings Total l st) =
  foldl (λ out a, AnalyzeSingleAsset GetAsset map a Settings out) (FinalResults st) l /\
  ProcessedCount (AnalyzeLoop GetAsset AsNumber ShouldCancel map Settings Total l st) =
  (ProcessedCount st + length l)%nat.
Proof.
  intros Hnc. revert st.
  induction l as [|a l IH]; intros st; cbn [AnalyzeLoop foldl length].
  - split; [reflexivity|lia].
  - rewrite Hnc. set (st1 := MkLoop _ _ _ _).
    destruct (IH st1) as [Hr Hc]. rewrite Hr, Hc. subst st1.
    cbn [FinalResults ProcessedCount]. split; [reflexivity|lia].
Qed.

(** Cancellation seen at the poll before asset [K+1]: the loop is left with
    the results of the first [K] assets, [K] as the processed count and the
    cancellation text as summary message. *)
Lemma AnalyzeLoop_cancel map Settings Total (l : list FAssetData) (K : nat) :
  forall st,
    (K < length l)%nat ->
    (forall j, (j < K)%nat -> ShouldCancel (ProcessedCount st + j)%nat = false) ->
    ShouldCancel (ProcessedCount st + K)%nat = true ->
    let st' := AnalyzeLoop GetAsset AsNumber ShouldCancel map Settings Total l st in
    FinalResults st' =
      foldl (λ out a, AnalyzeSingleAsset GetAsset map a Settings out)
            (FinalResults st) (take K l) /\
    ProcessedCount st' = (ProcessedCount st + K)%nat /\
    FinalOperationSummaryMessage st' =
      CancelledMessage AsNumber (ProcessedCount st + K) Total.
Proof.
  revert l. induction K as [|K IH]; intros l st Hlen Hbefore Hat.
  - destruct l as [|a l]; [simpl in Hlen; lia|]. cbn [AnalyzeLoop take foldl].
    rewrite Nat.add_0_r in Hat. rewrite Hat.
    cbn [FinalResults ProcessedCount FinalOperationSummaryMessage].
    rewrite Nat.add_0_r. repeat split; reflexivity.
  - destruct l as [|a l]; [simpl in Hlen; lia|]. cbn [AnalyzeLoop take foldl].
    pose proof (Hbefore 0%nat ltac:(lia)) as H0. rewrite Nat.add_0_r in H0.
    rewrite H0. set (st1 := MkLoop _ _ _ _).
    destruct (IH l st1) as (Hr & Hc & Hm).
    + simpl in Hlen. lia.
    + intros j Hj. subst st1. cbn [ProcessedCount].
      replace (S (ProcessedCount st) + j)%nat with (ProcessedCount st + S j)%nat by lia.
      apply Hbefore. lia.
    + subst st1. cbn [ProcessedCount].
      replace (S (ProcessedCount st) + K)%nat with (ProcessedCount st + S K)%nat by lia.
      exact Hat.
    + rewrite Hr, Hc, Hm. subst st1. cbn [FinalResults ProcessedCount].
      replace (S (ProcessedCount st) + K)%nat with (ProcessedCount st + S K)%nat by lia.
      repeat split; reflexivity.
Qed.

(** The status line after the evaluation phase is always the completion
    text over the number of discovered assets; the summary message of the
    loop does not reach it. *)
Lemma OnAssetScanPhaseComplete_status map Settings mode params assets task :
  StatusText (OnAssetScanPhaseComplete GetAsset AssetsInPath AsNumber ShouldCancel
                (Some map) (Some Settings) mode params assets task) =
  OverallCompletionStatus AsNumber task
    (length (fst (DiscoverAssets AssetsInPath AsNumber mode params assets task)))
    (length (ReportResults
               (OnAssetScanPhaseComplete GetAsset AssetsInPath AsNumber ShouldCancel
                  (Some map) (Some Settings) mode params assets task))).
Proof.
  unfold OnAssetScanPhaseComplete.
  destruct (DiscoverAssets _ _ _ _ _ _) as [l s]. reflexivity.
Qed.

(** C4 (amended).  When the asset's object fails to load, dispatch appends
    nothing for it; a scan that is not cancelled goes on to every remaining
    asset, so its results are those of the scan without that asset. *)
Theorem load_failure_adds_no_result
    (map : gmap string (option IAssetAnalyzer))
    (Settings : option UPipelineGuardianSettings) (d : FAssetData)
    (out : list FAssetAnalysisResult) (pre post : list FAssetData)
    (Total : nat) (st : LoopState) :
  GetAsset d = None ->
  (forall k, ShouldCancel k = false) ->
  AnalyzeSingleAsset GetAsset map d Settings out = out /\
  FinalResults (AnalyzeLoop GetAsset AsNumber ShouldCancel map Settings Total
                  (pre ++ d :: post) st) =
  FinalResults (AnalyzeLoop GetAsset AsNumber ShouldCancel map Settings Total
                  (pre ++ post) st) /\
  ProcessedCount (AnalyzeLoop GetAsset AsNumber ShouldCancel map Settings Total
                    (pre ++ d :: post) st) =
  (ProcessedCount st + length (pre ++ d :: post))%nat.
Proof.
  intros Hload Hnc.
  assert (Hone : forall o, AnalyzeSingleAsset GetAsset map d Settings o = o).
  { intros o. unfold AnalyzeSingleAsset. rewrite Hload.
    destruct (negb (AssetIsValid d)); reflexivity. }
  split; [apply Hone|].
  destruct (AnalyzeLoop_no_cancel map Settings Total (pre ++ d :: post) st Hnc)
    as [Hr Hc].
  destruct (AnalyzeLoop_no_cancel map Settings Total (pre ++ post) st Hnc)
    as [Hr' _].
  split; [|exact Hc].
  rewrite Hr, Hr', !foldl_app. cbn [foldl]. rewrite Hone. reflexivity.
Qed.

End ScanningProperties.

(** ** Evaluations on the example inputs *)

Lemma import_export_roundtrip_witness :
  OneDocumentReader (OneDocumentWriter (ExportRoot NewProfile))
    = Some (ExportRoot NewProfile) /\
  RuleConfigs
    (snd (ImportFromJSON Printf_1f ToBool_plain StringToNumber_decimal
            OneDocumentReader (ExportToJSON OneDocumentWriter NewProfile)
            EmptyProfile))
  = RuleConfigs NewProfile.
Proof.
  split; [reflexivity|].
  destruct (import_export_roundtrip Printf_1f ToBool_plain StringToNumber_decimal
              OneDocumentWriter OneDocumentReader NewProfile EmptyProfile)
    as (_ & H & _); [reflexivity | exact H].
Defined.

(** C4, as stated, fails: for an asset whose object does not load, dispatch
    leaves the result array empty instead of adding one Error result. *)
Lemma load_failure_result_missing :
  ExampleRegistry MissingAsset = None /\
  ~ (exists r, AnalyzeSingleAsset ExampleRegistry ExampleAnalyzers MissingAsset
                 (Some ExampleSettings) [] = [r] /\ Severity r = Error).
Proof.
  split; [vm_compute; reflexivity|].
  intros (r & Hr & _).
  assert (H : AnalyzeSingleAsset ExampleRegistry ExampleAnalyzers MissingAsset
                (Some ExampleSettings) [] = []) by (vm_compute; reflexivity).
  rewrite H in Hr. discriminate.
Qed.

Lemma load_failure_witness :
  ExampleRegistry MissingAsset = None /\
  FinalResults (AnalyzeLoop ExampleRegistry AsNumber_plain NeverCancel
                  ExampleAnalyzers (Some ExampleSettings) 3
                  ([AssetOf WeakLODMesh] ++ MissingAsset :: [AssetOf StackedMesh])
                  (MkLoop [] 0 "" 0)) =
  FinalResults (AnalyzeLoop ExampleRegistry AsNumber_plain NeverCancel
                  ExampleAnalyzers (Some ExampleSettings) 3
                  ([AssetOf WeakLODMesh] ++ [AssetOf StackedMesh])
                  (MkLoop [] 0 "" 0)).
Proof.
  split; [vm_compute; reflexivity|].
  destruct (load_failure_adds_no_result ExampleRegistry AsNumber_plain NeverCancel
              ExampleAnalyzers (Some ExampleSettings) MissingAsset []
              [AssetOf WeakLODMesh] [AssetOf StackedMesh] 3 (MkLoop [] 0 "" 0))
    as (_ & H & _);
    [vm_compute; reflexivity | intros k; reflexivity | exact H].
Defined.

Lemma dispatch_witness :
  Ancestors DerivedMeshClass = [DerivedMeshClass] ++ StaticMeshClass ::
                               [StreamableRenderAssetClass; UObjectClass] /\
  AnalyzeSingleAsset ExampleRegistry ExampleAnalyzers (AssetOf WeakLODMesh)
    (Some ExampleSettings) [] =
  AnalyzeAsset ExampleStaticMeshAnalyzer (AssetOf WeakLODMesh) (Some NewProfile) [].
Proof.
  split; [reflexivity|].
  destruct (dispatch_walks_ancestor_chain ExampleRegistry ExampleAnalyzers
              (AssetOf WeakLODMesh) (Some ExampleSettings) NewProfile
              (StaticMeshObject DerivedMeshClass WeakLODMesh) [])
    as [H _]; [vm_compute; reflexivity | vm_compute; reflexivity | reflexivity |].
  apply (H [DerivedMeshClass] StaticMeshClass
           [StreamableRenderAssetClass; UObjectClass] ExampleStaticMeshAnalyzer).
  - reflexivity.
  - intros x Hx. apply list_elem_of_singleton in Hx. subst x.
    vm_compute. reflexivity.
  - apply RegisterAssetAnalyzer_registered.
Defined.

(** C8.  Cancelling after one of three assets: the loop stops with one
    asset processed, keeps that asset's result and builds the text
    "Processed 1 of 3", but the status line shown is the completion text
    over all three assets, the same line as for a scan that is never
    cancelled. *)
Theorem scan_cancel_status_is_completion_text :
  ProcessedCount
    (EvaluateAssets ExampleRegistry AsNumber_plain (CancelAfter 1) ExampleAnalyzers
       (Some ExampleSettings) SelectedAssets ThreeAssets
       "3 selected asset(s) ready for analysis.") = 1%nat /\
  FinalOperationSummaryMessage
    (EvaluateAssets ExampleRegistry AsNumber_plain (CancelAfter 1) ExampleAnalyzers
       (Some ExampleSettings) SelectedAssets ThreeAssets
       "3 selected asset(s) ready for analysis.")
    = "Analysis cancelled by user. Processed 1 of 3 assets." /\
  ResultRuleID <$>
    ReportResults
      (OnAssetScanPhaseComplete ExampleRegistry NoAssetsInPath AsNumber_plain
         (CancelAfter 1) (Some ExampleAnalyzers) (Some ExampleSettings)
         SelectedAssets [] ThreeAssets "3 selected asset(s) ready for analysis.")
    = ["SM_LODPolyReduction"] /\
  StatusText
    (OnAssetScanPhaseComplete ExampleRegistry NoAssetsInPath AsNumber_plain
       (CancelAfter 1) (Some ExampleAnalyzers) (Some ExampleSettings)
       SelectedAssets [] ThreeAssets "3 selected asset(s) ready for analysis.")
    = "3 selected asset(s) ready for analysis. Analysis complete. Analyzed 3 assets. 1 issues found." /\
  StatusText
    (OnAssetScanPhaseComplete ExampleRegistry NoAssetsInPath AsNumber_plain
       (CancelAfter 1) (Some ExampleAnalyzers) (Some ExampleSettings)
       SelectedAssets [] ThreeAssets "3 selected asset(s) ready for analysis.")
  = StatusText
      (OnAssetScanPhaseComplete ExampleRegistry NoAssetsInPath AsNumber_plain
         NeverCancel (Some ExampleAnalyzers) (Some ExampleSettings)
         SelectedAssets [] ThreeAssets "3 selected asset(s) ready for analysis.").
Proof. repeat split; vm_compute; reflexivity. Qed.

(** C9.  Importing a document whose "Rules" array names one RuleID twice
    leaves two configurations for that RuleID in the profile, whereas the
    seeded defaults are distinct and [SetRuleConfig] with the same RuleID
    keeps them so. *)
Theorem import_keeps_duplicate_rule_ids
    (SanitizeFloat : spec_float -> string) (ToBool : string -> bool)
    (StringToNumber : string -> option spec_float)
    (p : UPipelineGuardianProfile) :
  RuleID <$> RuleConfigs
    (ImportRoot SanitizeFloat ToBool StringToNumber DuplicateRulesRoot p)
    = ["SM_Naming"; "SM_Naming"] /\
  ~ UniqueRuleIDs
      (ImportRoot SanitizeFloat ToBool StringToNumber DuplicateRulesRoot p) /\
  UniqueRuleIDs NewProfile /\
  UniqueRuleIDs (SetRuleConfig (NewRuleConfig "SM_Naming" false) NewProfile).
Proof.
  assert (H : RuleID <$> RuleConfigs
                (ImportRoot SanitizeFloat ToBool StringToNumber DuplicateRulesRoot p)
              = ["SM_Naming"; "SM_Naming"]) by (vm_compute; reflexivity).
  split; [exact H|]. split; [|split].
  - unfold UniqueRuleIDs. rewrite H. intros Hnd.
    apply NoDup_cons in Hnd as [Hnotin _]. apply Hnotin.
    apply list_elem_of_singleton. reflexivity.
  - apply NewProfile_unique.
  - apply SetRuleConfig_unique, NewProfile_unique.
Qed.

(** * Further properties of the modelled code *)

(** ** Profile store: upsert and lookup *)

Lemma FindRuleConfig_after_set cfg l :
  exists i, FindRuleConfig (SetRuleConfigs cfg l) (RuleID cfg) = Some (i, cfg).
Proof.
  unfold SetRuleConfigs.
  destruct (FindRuleConfig l (RuleID cfg)) as [[i c]|] eqn:Hfind.
  - exists i. unfold FindRuleConfig in *.
    apply list_find_Some in Hfind as (Hi & Hc & Hbefore).
    apply list_find_Some. split; [|split; [reflexivity|]].
    + apply list_lookup_insert_eq. eapply lookup_lt_Some; eauto.
    + intros j y Hj Hlt. rewrite list_lookup_insert_ne in Hj by lia.
      eapply Hbefore; eauto.
  - exists (length l). unfold FindRuleConfig in *.
    apply list_find_None in Hfind. rewrite Forall_forall in Hfind.
    apply list_find_Some. split; [|split; [reflexivity|]].
    + rewrite lookup_app_r by lia. rewrite Nat.sub_diag. reflexivity.
    + intros j y Hj Hlt. rewrite lookup_app_l in Hj by lia.
      apply Hfind. eapply list_elem_of_lookup_2; eauto.
Qed.

Lemma FindRuleConfig_set_other cfg l id :
  id <> RuleID cfg ->
  snd <$> FindRuleConfig (SetRuleConfigs cfg l) id = snd <$> FindRuleConfig l id.
Proof.
  intros Hne. unfold SetRuleConfigs.
  destruct (FindRuleConfig l (RuleID cfg)) as [[i c]|] eqn:Hfind.
  - apply FindRuleConfig_Some in Hfind as [Hi Hid].
    unfold FindRuleConfig.
    destruct (list_find (λ c0, RuleID c0 = id) l) as [[k y]|] eqn:Hk.
    + apply list_find_Some in Hk as (Hk & Hy & Hbefore).
      assert (Hik : i <> k) by (intros ->; congruence).
      assert (Hnew : list_find (λ c0, RuleID c0 = id) (<[i:=cfg]> l) = Some (k, y)).
      { apply list_find_Some. split; [|split; [exact Hy|]].
        - rewrite list_lookup_insert_ne by exact Hik. exact Hk.
        - intros j z Hj Hlt. destruct (decide (j = i)) as [->|Hji].
          + rewrite list_lookup_insert_eq in Hj by (eapply lookup_lt_Some; eauto).
            injection Hj as <-. congruence.
          + rewrite list_lookup_insert_ne in Hj by congruence.
            eapply Hbefore; eauto. }
      rewrite Hnew. reflexivity.
    + apply list_find_None in Hk. rewrite Forall_forall in Hk.
      assert (Hnew : list_find (λ c0, RuleID c0 = id) (<[i:=cfg]> l) = None).
      { apply list_find_None, Forall_forall. intros z Hz.
        apply list_elem_of_lookup in Hz as [j Hj].
        destruct (decide (j = i)) as [->|Hji].
        - rewrite list_lookup_insert_eq in Hj by (eapply lookup_lt_Some; eauto).
          injection Hj as <-. congruence.
        - rewrite list_lookup_insert_ne in Hj by congruence.
          apply Hk. eapply list_elem_of_lookup_2; eauto. }
      rewrite Hnew. reflexivity.
  - unfold FindRuleConfig.
    destruct (list_find (λ c0, RuleID c0 = id) l) as [[k y]|] eqn:Hk.
    + apply list_find_Some in Hk as (Hk & Hy & Hbefore).
      assert (Hnew : list_find (λ c0, RuleID c0 = id) (l ++ [cfg]) = Some (k, y)).
      { apply list_find_Some. split; [|split; [exact Hy|]].
        - rewrite lookup_app_l by (eapply lookup_lt_Some; eauto). exact Hk.
        - intros j z Hj Hlt.
          rewrite lookup_app_l in Hj
            by (apply lookup_lt_Some in Hk; lia).
          eapply Hbefore; eauto. }
      rewrite Hnew. reflexivity.
    + apply list_find_None in Hk.
      assert (Hnew : list_find (λ c0, RuleID c0 = id) (l ++ [cfg]) = None).
      { apply list_find_None, Forall_app. split; [exact Hk|].
        apply Forall_singleton. congruence. }
      rewrite Hnew. reflexivity.
Qed.

(** X1.  What [SetRuleConfig] stores under a RuleID is what every lookup by that
    RuleID reads: the configuration itself, its enabled flag, and each of
    its parameters (the caller's default only for keys it lacks). *)
Theorem set_rule_config_then_lookup
    (cfg : FPipelineGuardianRuleConfig) (p : UPipelineGuardianProfile) :
  GetRuleConfigPtr (SetRuleConfig cfg p) (RuleID cfg) = Some cfg /\
  GetRuleConfig (SetRuleConfig cfg p) (RuleID cfg) = cfg /\
  IsRuleEnabled (SetRuleConfig cfg p) (RuleID cfg) = bEnabled cfg /\
  (forall k d, GetRuleParameter (SetRuleConfig cfg p) (RuleID cfg) k d =
               default d (Parameters cfg !! k)).
Proof.
  assert (H : GetRuleConfigPtr (SetRuleConfig cfg p) (RuleID cfg) = Some cfg).
  { unfold GetRuleConfigPtr, SetRuleConfig. cbn [RuleConfigs with_RuleConfigs].
    destruct (FindRuleConfig_after_set cfg (RuleConfigs p)) as [i ->].
    reflexivity. }
  split; [exact H|]. unfold GetRuleConfig, IsRuleEnabled, GetRuleParameter.
  rewrite H. split; [reflexivity|]. split; [reflexivity|]. intros k d.
  destruct (Parameters cfg !! k); reflexivity.
Qed.

(** X2.  [SetRuleConfig] does not disturb the other rules: every lookup by a
    different RuleID reads what it read before. *)
Theorem set_rule_config_keeps_other_rules
    (cfg : FPipelineGuardianRuleConfig) (p : UPipelineGuardianProfile) (id : FName) :
  id <> RuleID cfg ->
  GetRuleConfigPtr (SetRuleConfig cfg p) id = GetRuleConfigPtr p id /\
  IsRuleEnabled (SetRuleConfig cfg p) id = IsRuleEnabled p id /\
  (forall k d, GetRuleParameter (SetRuleConfig cfg p) id k d =
               GetRuleParameter p id k d).
Proof.
  intros Hne.
  assert (H : GetRuleConfigPtr (SetRuleConfig cfg p) id = GetRuleConfigPtr p id).
  { unfold GetRuleConfigPtr, SetRuleConfig. cbn [RuleConfigs with_RuleConfigs].
    apply FindRuleConfig_set_other. exact Hne. }
  split; [exact H|]. unfold IsRuleEnabled, GetRuleParameter. rewrite H.
  split; [reflexivity|]. intros k d. reflexivity.
Qed.

Lemma set_rule_config_keeps_other_rules_witness :
  "SM_Naming" <> RuleID (NewRuleConfig "SM_UVOverlapping" false) /\
  IsRuleEnabled ProfileUVDisabled "SM_Naming" = IsRuleEnabled NewProfile "SM_Naming".
Proof.
  split; [discriminate|].
  apply (set_rule_config_keeps_other_rules (NewRuleConfig "SM_UVOverlapping" false)
           NewProfile "SM_Naming").
  discriminate.
Defined.

(** X3.  Upsert is idempotent and grows the collection by at most one entry: by
    one exactly when the RuleID was absent. *)
Theorem set_rule_config_idempotent
    (cfg : FPipelineGuardianRuleConfig) (p : UPipelineGuardianProfile) :
  SetRuleConfig cfg (SetRuleConfig cfg p) = SetRuleConfig cfg p /\
  length (RuleConfigs (SetRuleConfig cfg p)) =
    (if bool_decide (RuleID cfg ∈ RuleID <$> RuleConfigs p)
     then length (RuleConfigs p) else S (length (RuleConfigs p))).
Proof.
  split.
  - unfold SetRuleConfig. cbn [RuleConfigs with_RuleConfigs ProfileName Description
                               Version]. unfold with_RuleConfigs. f_equal.
    cbn [RuleConfigs].
    destruct (FindRuleConfig_after_set cfg (RuleConfigs p)) as [i Hi].
    unfold SetRuleConfigs at 1. rewrite Hi.
    apply list_insert_id. apply FindRuleConfig_Some in Hi as [Hi _]. exact Hi.
  - unfold SetRuleConfig, SetRuleConfigs. cbn [RuleConfigs with_RuleConfigs].
    destruct (FindRuleConfig (RuleConfigs p) (RuleID cfg)) as [[i c]|] eqn:Hfind.
    + rewrite length_insert. rewrite bool_decide_eq_true_2; [reflexivity|].
      apply FindRuleConfig_Some in Hfind as [Hi Hid].
      apply list_elem_of_fmap. exists c. split; [congruence|].
      eapply list_elem_of_lookup_2; eauto.
    + apply FindRuleConfig_None in Hfind.
      rewrite bool_decide_eq_false_2 by exact Hfind.
      rewrite length_app. simpl. lia.
Qed.

(** ** JSON import: missing fields and exact integers *)

Lemma Pos_iter_xO_Zpos (m p : positive) :
  Zpos (Pos.iter xO m p) = Zpos m * 2 ^ Zpos p.
Proof.
  induction p as [|p IH] using Pos.peano_ind.
  - simpl. lia.
  - rewrite Pos.iter_succ, Pos2Z.inj_succ, Z.pow_succ_r by lia.
    rewrite Pos2Z.inj_xO, IH. lia.
Qed.

Lemma digits2_pos_iter_xO (m p : positive) :
  Zpos (digits2_pos (Pos.iter xO m p)) = Zpos (digits2_pos m) + Zpos p.
Proof.
  induction p as [|p IH] using Pos.peano_ind.
  - simpl. lia.
  - rewrite Pos.iter_succ. cbn [digits2_pos].
    rewrite Pos2Z.inj_succ, IH, Pos2Z.inj_succ. lia.
Qed.

Lemma digits2_pos_bound (m : positive) :
  forall k, Zpos m < 2 ^ k -> Zpos (digits2_pos m) <= k.
Proof.
  induction m as [m IH|m IH|]; intros k Hk.
  - assert (0 < k).
    { destruct (Z.ltb_spec 0 k) as [|Hk0]; [assumption|]. exfalso.
      destruct (Z.eq_dec k 0) as [->|];
        [rewrite Z.pow_0_r in Hk; lia | rewrite Z.pow_neg_r in Hk by lia; lia]. }
    cbn [digits2_pos]. rewrite Pos2Z.inj_succ.
    specialize (IH (k - 1)).
    replace k with (Z.succ (k - 1)) in Hk by lia.
    rewrite Z.pow_succ_r in Hk by lia. lia.
  - assert (0 < k).
    { destruct (Z.ltb_spec 0 k) as [|Hk0]; [assumption|]. exfalso.
      destruct (Z.eq_dec k 0) as [->|];
        [rewrite Z.pow_0_r in Hk; lia | rewrite Z.pow_neg_r in Hk by lia; lia]. }
    cbn [digits2_pos]. rewrite Pos2Z.inj_succ.
    specialize (IH (k - 1)).
    replace k with (Z.succ (k - 1)) in Hk by lia.
    rewrite Z.pow_succ_r in Hk by lia. lia.
  - destruct (Z.ltb_spec 0 k) as [|Hk0]; [simpl; lia|]. exfalso.
    destruct (Z.eq_dec k 0) as [->|];
      [rewrite Z.pow_0_r in Hk; lia | rewrite Z.pow_neg_r in Hk by lia; lia].
Qed.

(** An integer of fewer than 53 bits converts to double without rounding:
    the mantissa is the integer shifted up to 53 bits. *)
Lemma Dbl_binary_round_exact (s : bool) (m : positive) :
  Zpos (digits2_pos m) < 53 ->
  binary_round Dbl.prec Dbl.emax s m 0 =
  S754_finite s (Pos.iter xO m (Z.to_pos (53 - Zpos (digits2_pos m))))
             (Zpos (digits2_pos m) - 53).
Proof.
  intros Hd. set (d := Zpos (digits2_pos m)) in *.
  assert (Hd1 : 1 <= d) by (subst d; lia).
  unfold binary_round, Dbl.prec, Dbl.emax.
  assert (Hfexp : forall e, 1 <= e <= 53 -> fexp 53 1024 e = e - 53).
  { intros e He. unfold fexp, emin. lia. }
  rewrite Z.add_0_r. fold d. rewrite (Hfexp d) by lia.
  unfold shl_align. rewrite Z.sub_0_r.
  destruct (d - 53) as [|q|q] eqn:Hq; try lia.
  assert (Hqp : Z.to_pos (53 - d) = q) by lia. rewrite Hqp.
  unfold binary_round_aux, shr_fexp. cbn [Zdigits2 shr_record_of_loc].
  rewrite digits2_pos_iter_xO. fold d.
  replace (d + Zpos q + Zneg q) with d by lia.
  rewrite (Hfexp d) by lia. rewrite Hq, Z.sub_diag.
  cbn [shr shr_m loc_of_shr_record round_nearest_even Zdigits2 shr_record_of_loc].
  rewrite digits2_pos_iter_xO. fold d.
  replace (d + Zpos q + Zneg q) with d by lia.
  rewrite (Hfexp d) by lia. rewrite Hq, Z.sub_diag.
  cbn [shr shr_m].
  destruct (Z.leb_spec (Zneg q) (1024 - 53)); [reflexivity|lia].
Qed.

(** [int32] to double and back by truncation is the identity. *)
Lemma int32_double_roundtrip (v : Z) :
  INT32_MIN <= v <= INT32_MAX ->
  FMath.to_int32 (FMath.trunc (Dbl.of_int v)) = v.
Proof.
  unfold INT32_MIN, INT32_MAX. intros Hv.
  assert (Hrange : (INT32_MIN <=? v) && (v <=? INT32_MAX) = true).
  { unfold INT32_MIN, INT32_MAX. apply andb_true_intro.
    split; apply Z.leb_le; lia. }
  unfold Dbl.of_int, binary_normalize.
  destruct v as [|m|m].
  - reflexivity.
  - assert (Hd : Zpos (digits2_pos m) <= 32) by (apply digits2_pos_bound; lia).
    rewrite Dbl_binary_round_exact by lia.
    unfold FMath.trunc, FMath.to_int32.
    destruct (Zpos (digits2_pos m) - 53) as [|q|q] eqn:Hq; try lia.
    replace (Z.to_pos (53 - Zpos (digits2_pos m))) with q by lia.
    cbn [Z.leb Z.compare Z.opp cond_Zopp].
    rewrite Pos_iter_xO_Zpos, Z.div_mul by lia.
    rewrite Hrange. reflexivity.
  - assert (Hd : Zpos (digits2_pos m) <= 32)
      by (apply digits2_pos_bound; lia).
    rewrite Dbl_binary_round_exact by lia.
    unfold FMath.trunc, FMath.to_int32.
    destruct (Zpos (digits2_pos m) - 53) as [|q|q] eqn:Hq; try lia.
    replace (Z.to_pos (53 - Zpos (digits2_pos m))) with q by lia.
    cbn [Z.leb Z.compare Z.opp cond_Zopp].
    rewrite Pos_iter_xO_Zpos, Z.div_mul by lia.
    change (- Zpos m) with (Zneg m). rewrite Hrange. reflexivity.
Qed.

Section JsonEdgeCases.
Variable SanitizeFloat : spec_float -> string.
Variable ToBool : string -> bool.
Variable StringToNumber : string -> option spec_float.
Variable Serialize : gmap string FJsonValue -> string.
Variable Deserialize : string -> option (gmap string FJsonValue).

(** X4.  The profile version survives export and import: the number written for
    an [int32] version is read back as the same integer. *)
Theorem import_export_version (p q : UPipelineGuardianProfile) :
  INT32_MIN <= Version p <= INT32_MAX ->
  Version (ImportRoot SanitizeFloat ToBool StringToNumber (ExportRoot p) q)
  = Version p.
Proof.
  intros Hv. unfold ImportRoot, ExportRoot, HasField, GetIntegerField.
  cbn [Version].
  rewrite bool_decide_eq_true_2.
  - rewrite lookup_insert_ne, lookup_insert_eq by discriminate.
    cbn [mbind option_bind TryGetNumber default from_option]. unfold id.
    apply int32_double_roundtrip. exact Hv.
  - rewrite lookup_insert_ne, lookup_insert_eq by discriminate. eauto.
Qed.

Lemma ImportParameters_lookup (po : gmap string FJsonValue) (k : string) :
  ImportParameters SanitizeFloat po ∅ !! k = po !! k ≫= TryGetString SanitizeFloat.
Proof.
  unfold ImportParameters.
  apply (map_fold_weak_ind
           (λ (r : gmap string string) (m : gmap string FJsonValue),
              r !! k = m !! k ≫= TryGetString SanitizeFloat)).
  - rewrite !lookup_empty. reflexivity.
  - intros i x m r Hnone IH.
    destruct (decide (k = i)) as [->|Hne].
    + rewrite lookup_insert_eq. cbn [mbind option_bind].
      destruct (TryGetString SanitizeFloat x) as [s|].
      * rewrite lookup_insert_eq. reflexivity.
      * rewrite IH, Hnone. reflexivity.
    + rewrite lookup_insert_ne by congruence.
      destruct (TryGetString SanitizeFloat x) as [s|]; [|exact IH].
      rewrite lookup_insert_ne by congruence. exact IH.
Qed.

(** X5.  Import reads the "Rules" array element by element, in order: an
    element that is no object is skipped; an object gives one configuration.
    Its RuleID is the "RuleID" field read as text (a string as it is, a
    number or a boolean converted to text), and the None name when the field
    is missing, null, an array or an object.  Its flag is the "Enabled"
    field read as a boolean (a boolean as it is, a number as non-zero, a
    string through the engine's conversion), and enabled when the field is
    missing, null, an array or an object.  Its parameters are the entries of
    the "Parameters" object that can be read as text, converted the same
    way. *)
Theorem import_rules_elementwise (arr : list FJsonValue) :
  ImportRules SanitizeFloat ToBool arr = omap (ImportRule SanitizeFloat ToBool) arr /\
  (forall v, (forall o, v <> JObject o) -> ImportRule SanitizeFloat ToBool v = None) /\
  (forall o, exists ps,
     ImportRule SanitizeFloat ToBool (JObject o) =
       Some (MkRuleConfig
               (match o !! "RuleID" with
                | Some (JString s) => s
                | Some (JNumber d) => SanitizeFloat d
                | Some (JBool b) => if b then "true" else "false"
                | _ => NAME_None
                end)
               (match o !! "Enabled" with
                | Some (JBool b) => b
                | Some (JNumber d) => negb (SFeqb d Dbl.zero)
                | Some (JString s) => ToBool s
                | _ => true
                end)
               ps) /\
     forall k : string,
       ps !! k =
       match o !! "Parameters" with
       | Some (JObject po) =>
           match po !! k with
           | Some (JString s) => Some s
           | Some (JNumber d) => Some (SanitizeFloat d)
           | Some (JBool b) => Some (if b then "true" else "false")
           | _ => None
           end
       | _ => None
       end).
Proof.
  split; [|split].
  - unfold ImportRules. rewrite ImportRules_foldl. reflexivity.
  - intros v Hv. unfold ImportRule.
    destruct v as [|s|d|b|l|o]; try reflexivity.
    destruct (Hv o eq_refl).
  - intros o. unfold ImportRule. cbn [TryGetObject].
    exists (match TryGetObjectField o "Parameters" with
            | Some po => ImportParameters SanitizeFloat po ∅
            | None => ∅
            end).
    split.
    + unfold TryGetStringField, TryGetBoolField, TryGetObjectField.
      destruct (o !! "RuleID") as [[|s|d|b|l|o1]|],
        (o !! "Enabled") as [[|s'|d'|b'|l'|o2]|],
        (o !! "Parameters") as [[|s''|d''|b''|l''|o3]|]; reflexivity.
    + intros k. unfold TryGetObjectField.
      destruct (o !! "Parameters") as [[|s|d|b|l|po]|];
        cbn [mbind option_bind TryGetObject]; try apply lookup_empty.
      rewrite ImportParameters_lookup.
      destruct (po !! k) as [[|s|d|b|l|o1]|]; reflexivity.
Qed.

(** X6.  A document without a "Rules" array imports successfully and leaves the
    profile without any rule configuration, so that every rule reads as
    disabled afterwards. *)
Theorem import_without_rules_disables_all
    (text : string) (root : gmap string FJsonValue) (p : UPipelineGuardianProfile) :
  Deserialize text = Some root ->
  TryGetArrayField root "Rules" = None ->
  let r := ImportFromJSON SanitizeFloat ToBool StringToNumber Deserialize text p in
  fst r = true /\ RuleConfigs (snd r) = [] /\
  (forall id, IsRuleEnabled (snd r) id = false).
Proof.
  intros Hparse Hrules. unfold ImportFromJSON. rewrite Hparse. cbn [fst snd].
  assert (H : RuleConfigs (ImportRoot SanitizeFloat ToBool StringToNumber root p) = []).
  { unfold ImportRoot. rewrite Hrules. reflexivity. }
  split; [reflexivity|]. split; [exact H|].
  intros id. apply IsRuleEnabled_absent. rewrite H. apply not_elem_of_nil.
Qed.

End JsonEdgeCases.

Lemma import_export_version_witness :
  INT32_MIN <= Version NewProfile <= INT32_MAX /\
  Version (ImportRoot Printf_1f ToBool_plain StringToNumber_decimal
             (ExportRoot NewProfile) EmptyProfile) = Version NewProfile.
Proof.
  split; [vm_compute; split; discriminate|].
  apply (import_export_version Printf_1f ToBool_plain StringToNumber_decimal
           NewProfile EmptyProfile).
  vm_compute. split; discriminate.
Defined.

Lemma import_without_rules_witness :
  EmptyObjectReader "{}" = Some ∅ /\
  RuleConfigs
    (snd (ImportFromJSON Printf_1f ToBool_plain StringToNumber_decimal
            EmptyObjectReader "{}" NewProfile)) = [].
Proof.
  split; [reflexivity|].
  destruct (import_without_rules_disables_all Printf_1f ToBool_plain
              StringToNumber_decimal EmptyObjectReader "{}" ∅ NewProfile)
    as (_ & H & _); [reflexivity | reflexivity | exact H].
Defined.

(** ** LOD reduction rule: what the check records and returns *)

Section LODCheckExtras.
Variable Atof : string -> spec_float.
Variable FormatFloat1 : spec_float -> string.
Variable AsNumber : Z -> string.
Variable MeshReductionInterface : bool.

Lemma CheckPair_problematic m mn w e st i :
  i ∉ LODRule.ProblematicLODs st ->
  LODRule.ProblematicLODs (LODRule.CheckPair FormatFloat1 m mn w e st i) =
    LODRule.ProblematicLODs st ++ (if LODPairIsProblematic m mn i then [i] else []) /\
  LODRule.bFoundIssues (LODRule.CheckPair FormatFloat1 m mn w e st i) =
    LODRule.bFoundIssues st || LODPairIsProblematic m mn i.
Proof.
  intros Hnotin. unfold LODRule.CheckPair, LODPairIsProblematic.
  destruct (_ || _); cbn [negb andb].
  - rewrite app_nil_r, orb_false_r. split; reflexivity.
  - destruct (SFltb _ mn); cbn [LODRule.ProblematicLODs LODRule.bFoundIssues].
    + unfold AddUnique. rewrite decide_False by exact Hnotin.
      rewrite orb_true_r. split; reflexivity.
    + rewrite app_nil_r, orb_false_r. split; reflexivity.
Qed.

(** The pair loop records exactly the problematic indices, in ascending
    order, and raises its flag exactly when there is one. *)
Lemma CheckPairs_foldl m mn w e (l : list nat) :
  forall st,
    NoDup l -> (forall i, i ∈ l -> i ∉ LODRule.ProblematicLODs st) ->
    LODRule.ProblematicLODs (foldl (LODRule.CheckPair FormatFloat1 m mn w e) st l) =
      LODRule.ProblematicLODs st ++ List.filter (LODPairIsProblematic m mn) l /\
    LODRule.bFoundIssues (foldl (LODRule.CheckPair FormatFloat1 m mn w e) st l) =
      LODRule.bFoundIssues st || existsb (LODPairIsProblematic m mn) l.
Proof.
  induction l as [|i l IH]; intros st Hnd Hfresh.
  - simpl. rewrite app_nil_r, orb_false_r. split; reflexivity.
  - apply NoDup_cons in Hnd as [Hi Hnd].
    destruct (CheckPair_problematic m mn w e st i) as [Hp Hb].
    { apply Hfresh. apply elem_of_cons. left. reflexivity. }
    cbn [foldl].
    destruct (IH (LODRule.CheckPair FormatFloat1 m mn w e st i) Hnd) as [Hp' Hb'].
    { intros j Hj. rewrite Hp. intros Hin. apply elem_of_app in Hin as [Hin|Hin].
      - revert Hin. apply Hfresh. apply elem_of_cons. right. exact Hj.
      - destruct (LODPairIsProblematic m mn i).
        + apply list_elem_of_singleton in Hin. subst j. contradiction.
        + apply elem_of_nil in Hin. contradiction. }
    rewrite Hp', Hb', Hp, Hb. cbn [List.filter existsb].
    destruct (LODPairIsProblematic m mn i); cbn [app orb].
    + rewrite <- app_assoc, orb_true_r. split; reflexivity.
    + rewrite app_nil_r, orb_false_r. split; reflexivity.
Qed.

Lemma CheckPairs_problematic m mn w e (n : nat) :
  LODRule.ProblematicLODs (LODRule.CheckPairs FormatFloat1 m mn w e n) =
    List.filter (LODPairIsProblematic m mn) (seq 1 (n - 1)) /\
  LODRule.bFoundIssues (LODRule.CheckPairs FormatFloat1 m mn w e n) =
    existsb (LODPairIsProblematic m mn) (seq 1 (n - 1)).
Proof.
  unfold LODRule.CheckPairs.
  destruct (CheckPairs_foldl m mn w e (seq 1 (n - 1)) LODRule.InitialCheckState)
    as [Hp Hb].
  - apply NoDup_seq.
  - intros i _. apply not_elem_of_nil.
  - rewrite Hp, Hb. split; reflexivity.
Qed.

Lemma filter_nil_existsb {A} (f : A -> bool) (l : list A) :
  existsb f l = negb (bool_decide (List.filter f l = [])).
Proof.
  induction l as [|x l IH]; [reflexivity|]. simpl.
  destruct (f x); [reflexivity|]. rewrite IH. reflexivity.
Qed.

(** X7.  The flag [Check] returns says whether it appended its result: [true]
    comes with exactly one new result at the end of the array, [false]
    with the array as it was. *)
Theorem lod_check_flag_matches_result
    (asset : option UObject) (profile : option UPipelineGuardianProfile)
    (out : list FAssetAnalysisResult) :
  (fst (LODRule.Check Atof FormatFloat1 AsNumber MeshReductionInterface
          asset profile out) = true /\
   exists res,
     snd (LODRule.Check Atof FormatFloat1 AsNumber MeshReductionInterface
            asset profile out) = out ++ [res] /\
     ResultRuleID res = LODRule.GetRuleID) \/
  (fst (LODRule.Check Atof FormatFloat1 AsNumber MeshReductionInterface
          asset profile out) = false /\
   snd (LODRule.Check Atof FormatFloat1 AsNumber MeshReductionInterface
          asset profile out) = out).
Proof.
  unfold LODRule.Check.
  destruct (CastStaticMesh asset) as [m|]; [|right; split; reflexivity].
  destruct profile as [p|]; [|right; split; reflexivity].
  destruct (negb _); [right; split; reflexivity|].
  destruct (RenderData m) as [lods|]; [|right; split; reflexivity].
  destruct (_ <? _)%nat; [right; split; reflexivity|].
  set (mn := Atof _). set (w := Atof _). set (e := Atof _).
  destruct (CheckPairs_problematic m mn w e (length lods)) as [Hp Hb].
  rewrite Hb, Hp, filter_nil_existsb.
  destruct (List.filter (LODPairIsProblematic m mn) (seq 1 (length lods - 1)))
    as [|i l] eqn:Hf.
  - right. split; reflexivity.
  - left. cbn [bool_decide decide_rel negb andb fst snd].
    split; [reflexivity|]. eexists. split; reflexivity.
Qed.

(** X8.  For a static mesh with at least two LODs and the rule enabled, the
    check reports exactly when some consecutive pair with non-zero triangle
    counts reduces by less than the minimum; the one result names the mesh
    and its package, and its fix action, bound exactly when the mesh can be
    fixed, captures those LOD indices in ascending order together with the
    minimum as target. *)
Theorem lod_check_reports_problematic_pairs
    (c : UClass) (m : UStaticMesh) (p : UPipelineGuardianProfile)
    (lods : list FStaticMeshLODResources) (out : list FAssetAnalysisResult) :
  IsRuleEnabled p LODRule.GetRuleID = true ->
  RenderData m = Some lods ->
  (2 <= length lods)%nat ->
  let mn := Atof (GetRuleParameter p LODRule.GetRuleID "MinReductionPercentage" "30.0") in
  let problem := List.filter (LODPairIsProblematic m mn) (seq 1 (length lods - 1)) in
  let r := LODRule.Check Atof FormatFloat1 AsNumber MeshReductionInterface
             (Some (StaticMeshObject c m)) (Some p) out in
  (problem = [] -> r = (false, out)) /\
  (problem <> [] ->
   exists res,
     r = (true, out ++ [res]) /\
     Asset res = AssetDataOfMesh m /\
     FilePath res = MeshPackageName m /\
     FixAction res =
       if LODRule.CanFixLODReduction MeshReductionInterface m
       then Some (FixAllLODReductionsAction (AssetDataOfMesh m) problem mn)
       else None).
Proof.
  intros Hen Hrd Hlen mn problem r. subst r. unfold LODRule.Check.
  cbn [CastStaticMesh]. rewrite Hen, Hrd. cbn [negb].
  destruct (Nat.ltb_spec (length lods) 2); [lia|].
  fold mn.
  set (w := Atof _). set (e := Atof _).
  destruct (CheckPairs_problematic m mn w e (length lods)) as [Hp Hb].
  rewrite Hb, Hp, filter_nil_existsb. fold problem.
  destruct problem as [|i l] eqn:Hf.
  - split; [reflexivity|]. intros Hne. contradiction.
  - split; [discriminate|]. intros _.
    cbn [bool_decide decide_rel negb andb].
    eexists. split; [reflexivity|]. cbn [Asset FilePath FixAction].
    split; [reflexivity|]. split; reflexivity.
Qed.

(** X9.  Without a mesh reduction interface no result of the check carries a
    fix action. *)
Theorem lod_check_no_fix_without_interface
    (asset : option UObject) (profile : option UPipelineGuardianProfile)
    (out : list FAssetAnalysisResult) :
  snd (LODRule.Check Atof FormatFloat1 AsNumber false asset profile out) = out \/
  exists res,
    snd (LODRule.Check Atof FormatFloat1 AsNumber false asset profile out)
      = out ++ [res] /\
    FixAction res = None.
Proof.
  unfold LODRule.Check.
  destruct (CastStaticMesh asset) as [m|]; [|left; reflexivity].
  destruct profile as [p|]; [|left; reflexivity].
  destruct (negb _); [left; reflexivity|].
  destruct (RenderData m) as [lods|] eqn:Hrd; [|left; reflexivity].
  destruct (_ <? _)%nat; [left; reflexivity|].
  destruct (_ && _); [|left; reflexivity].
  right. eexists. split; [reflexivity|]. cbn [FixAction].
  unfold LODRule.CanFixLODReduction. rewrite Hrd.
  destruct lods as [|b l]; [reflexivity|].
  destruct (GetNumVertices b =? 0); reflexivity.
Qed.

(** X10.  Pairs with a zero triangle count are skipped: a mesh whose LODs all
    report zero triangles is never reported. *)
Theorem lod_check_skips_zero_triangle_lods
    (c : UClass) (m : UStaticMesh) (p : UPipelineGuardianProfile)
    (out : list FAssetAnalysisResult) :
  (forall i, LODRule.GetLODTriangleCount m i = 0) ->
  LODRule.Check Atof FormatFloat1 AsNumber MeshReductionInterface
    (Some (StaticMeshObject c m)) (Some p) out = (false, out).
Proof.
  intros Hzero. unfold LODRule.Check. cbn [CastStaticMesh].
  destruct (negb _); [reflexivity|].
  destruct (RenderData m) as [lods|]; [|reflexivity].
  destruct (_ <? _)%nat; [reflexivity|].
  set (mn := Atof _). set (w := Atof _). set (e := Atof _).
  destruct (CheckPairs_problematic m mn w e (length lods)) as [Hp Hb].
  rewrite Hb.
  assert (Hnone : existsb (LODPairIsProblematic m mn) (seq 1 (length lods - 1)) = false).
  { generalize (seq 1 (length lods - 1)). intros l.
    induction l as [|i l IH]; [reflexivity|]. cbn [existsb]. rewrite IH.
    unfold LODPairIsProblematic. rewrite !Hzero. reflexivity. }
  rewrite Hnone. reflexivity.
Qed.

End LODCheckExtras.

Lemma lod_check_reports_witness :
  IsRuleEnabled NewProfile LODRule.GetRuleID = true /\
  exists res,
    LODRule.Check Atof_decimal Printf_1f AsNumber_plain true
      (Some (StaticMeshObject StaticMeshClass WeakLODMesh)) (Some NewProfile) []
    = (true, [] ++ [res]) /\
    FixAction res =
      Some (FixAllLODReductionsAction (AssetDataOfMesh WeakLODMesh) [1%nat]
              (Atof_decimal "30.0")).
Proof.
  split; [vm_compute; reflexivity|].
  destruct (lod_check_reports_problematic_pairs Atof_decimal Printf_1f
              AsNumber_plain true StaticMeshClass WeakLODMesh NewProfile
              [MkLODResources 10000 30000; MkLODResources 9500 28500] [])
    as [_ H]; [vm_compute; reflexivity | vm_compute; reflexivity | simpl; lia |].
  destruct H as (res & Hres & _ & _ & Hfix); [vm_compute; discriminate|].
  exists res. split; [exact Hres|]. rewrite Hfix. vm_compute. reflexivity.
Defined.

Lemma lod_check_skips_zero_witness :
  (forall i, LODRule.GetLODTriangleCount EmptyLODMesh i = 0) /\
  LODRule.Check Atof_decimal Printf_1f AsNumber_plain true
    (Some (StaticMeshObject StaticMeshClass EmptyLODMesh)) (Some NewProfile) []
  = (false, []).
Proof.
  assert (H : forall i, LODRule.GetLODTriangleCount EmptyLODMesh i = 0).
  { intros [|[|[|i]]]; reflexivity. }
  split; [exact H|].
  apply (lod_check_skips_zero_triangle_lods Atof_decimal Printf_1f AsNumber_plain
           true StaticMeshClass EmptyLODMesh NewProfile []).
  exact H.
Defined.

(** ** LOD reduction fix: guards, frame and failure *)

Section LODFixExtras.
Variable Pow : spec_float -> spec_float -> spec_float.
Variable Build : UStaticMesh -> UStaticMesh.
Variable FormatFloat1 : spec_float -> string.
Variable AsNumber : Z -> string.

(** X11.  Only the emptiness of the list of problematic LODs matters: the fix
    recomputes every LOD from 1 on, so any two non-empty lists give the
    same outcome. *)
Theorem fix_all_ignores_which_lods_are_listed
    (mri : bool) (m : option UStaticMesh) (l1 l2 : list nat) (T : spec_float) :
  l1 <> [] -> l2 <> [] ->
  LODFix.FixAllLODReductions Pow Build FormatFloat1 AsNumber mri m l1 T =
  LODFix.FixAllLODReductions Pow Build FormatFloat1 AsNumber mri m l2 T.
Proof.
  intros H1 H2. unfold LODFix.FixAllLODReductions.
  destruct m as [m0|]; [|reflexivity].
  destruct l1 as [|a l1]; [contradiction|].
  destruct l2 as [|b l2]; [contradiction|].
  reflexivity.
Qed.

(** X12.  A run that finishes either rebuilt the mesh, in which case the list
    was non-empty, a reduction interface was present and the package of the
    returned mesh is marked dirty, or it returns the mesh it was given
    without modifying, rebuilding or dirtying it. *)
Theorem fix_all_rebuilds_or_leaves_untouched
    (mri : bool) (m m' : option UStaticMesh) (l : list nat) (T : spec_float)
    (ev : list Event) :
  LODFix.FixAllLODReductions Pow Build FormatFloat1 AsNumber mri m l T
    = FixDone m' ev ->
  (EvBuild ∈ ev /\ l <> [] /\ mri = true /\
   exists m4, m' = Some m4 /\ bPackageDirty m4 = true) \/
  ((EvModify ∉ ev) /\ (EvBuild ∉ ev) /\ (EvMarkPackageDirty ∉ ev) /\ m' = m /\
   (m = None \/ l = [] \/ mri = false)).
Proof.
  unfold LODFix.FixAllLODReductions.
  destruct m as [m0|].
  2:{ intros [= <- <-]. right.
      repeat (split; [apply not_elem_of_nil|]). split; [reflexivity|].
      left. reflexivity. }
  destruct l as [|a l].
  { cbn [length bool_decide decide_rel]. intros [= <- <-]. right.
    repeat (split; [apply not_elem_of_nil|]). split; [reflexivity|].
    right. left. reflexivity. }
  cbn [length]. rewrite bool_decide_eq_false_2 by discriminate.
  destruct mri; cbn [negb].
  2:{ intros [= <- <-]. right.
      repeat (split; [intros H; apply list_elem_of_singleton in H; discriminate|]).
      split; [reflexivity|]. right. right. reflexivity. }
  destruct (RenderData (LODFix.Modify m0)) as [[|b rest]|]; try discriminate.
  destruct (LODFix.VerifyAllLODs _ _ _ _); [|discriminate].
  intros [= <- <-]. left.
  split; [apply elem_of_cons; right; apply elem_of_cons; left; reflexivity|].
  split; [discriminate|]. split; [reflexivity|].
  eexists. split; reflexivity.
Qed.

(** X13.  What the settings pass leaves alone: the mesh handed to the builder has
    the same render data, name, package and number of source models, is
    marked modified, and keeps the reduction settings of LOD0 and of every
    source model at or beyond the number of render LODs. *)
Theorem mesh_before_build_frame (m : UStaticMesh) (T : spec_float) :
  RenderData (LODFix.MeshBeforeBuild Pow m T) = RenderData m /\
  MeshName (LODFix.MeshBeforeBuild Pow m T) = MeshName m /\
  MeshPackageName (LODFix.MeshBeforeBuild Pow m T) = MeshPackageName m /\
  bModified (LODFix.MeshBeforeBuild Pow m T) = true /\
  bPackageDirty (LODFix.MeshBeforeBuild Pow m T) = bPackageDirty m /\
  length (SourceModels (LODFix.MeshBeforeBuild Pow m T)) = length (SourceModels m) /\
  forall i : nat,
    i = 0%nat \/ (from_option length 0%nat (RenderData m) <= i)%nat ->
    SourceModels (LODFix.MeshBeforeBuild Pow m T) !! i = SourceModels m !! i.
Proof.
  unfold LODFix.MeshBeforeBuild, LODFix.Modify, LODFix.with_SourceModels.
  cbn [RenderData].
  destruct (RenderData m) as [[|b rest]|] eqn:Hrd;
    cbn [RenderData MeshName MeshPackageName bModified bPackageDirty SourceModels];
    rewrite ?Hrd; repeat (split; [reflexivity|]).
  - intros i _. reflexivity.
  - split.
    { unfold LODFix.UpdateAllLODSettings, LODFix.UpdateLODSettings.
      apply (foldl_insert_length
               (λ j, LODFix.NewReductionSettings
                       (LODFix.TargetTrianglePercentage Pow (GetNumTriangles b) T j))). }
    intros i Hi.
    unfold LODFix.UpdateAllLODSettings, LODFix.UpdateLODSettings.
    apply (foldl_insert_lookup_notin
             (λ j, LODFix.NewReductionSettings
                     (LODFix.TargetTrianglePercentage Pow (GetNumTriangles b) T j))).
    rewrite elem_of_seq. cbn [from_option length] in Hi. cbn [length]. lia.
  - intros i _. reflexivity.
Qed.

Lemma VerifyLOD_None Base T lods (l : list nat) :
  foldl (LODFix.VerifyLOD Base T lods) None l = None.
Proof. induction l as [|i l IH]; [reflexivity|]. exact IH. Qed.

Lemma VerifyLOD_invalid_index Base T lods (l : list nat) :
  forall st, (exists i, i ∈ l /\ lods !! i = None) ->
  foldl (LODFix.VerifyLOD Base T lods) st l = None.
Proof.
  induction l as [|j l IH]; intros st (i & Hi & Hnone).
  - apply elem_of_nil in Hi. contradiction.
  - cbn [foldl]. apply elem_of_cons in Hi as [->|Hi].
    + assert (Hstep : LODFix.VerifyLOD Base T lods st j = None).
      { unfold LODFix.VerifyLOD. destruct st as [st|]; [|reflexivity].
        cbn [mbind option_bind].
        destruct (if bool_decide (j = 1%nat) then Some Base
                  else LODFix.NewTriangleCounts st !! (j - 2)%nat);
          [|reflexivity].
        cbn [mbind option_bind]. rewrite Hnone. reflexivity. }
      rewrite Hstep. apply VerifyLOD_None.
    + apply IH. exists i. split; assumption.
Qed.

(** X14.  The verification loop indexes the rebuilt LODs with the LOD count
    taken before the build: when the builder leaves fewer LODs than the mesh
    had, the fix runs into an invalid array index instead of finishing. *)
Theorem fix_all_fails_when_rebuild_drops_lods
    (m : UStaticMesh) (l : list nat) (T : spec_float)
    (lods : list FStaticMeshLODResources) :
  l <> [] ->
  RenderData m = Some lods ->
  (2 <= length lods)%nat ->
  (length (default [] (RenderData (Build (LODFix.MeshBeforeBuild Pow m T))))
     < length lods)%nat ->
  LODFix.FixAllLODReductions Pow Build FormatFloat1 AsNumber true (Some m) l T
    = FixCrash.
Proof.
  intros Hl Hrd Hlen Hshort. unfold LODFix.FixAllLODReductions.
  destruct l as [|a l]; [contradiction|].
  cbn [length]. rewrite bool_decide_eq_false_2 by discriminate.
  cbn [negb LODFix.Modify RenderData]. rewrite Hrd.
  destruct lods as [|b rest]; [simpl in Hlen; lia|].
  cbn zeta. cbn [LODFix.MarkPackageDirty RenderData].
  set (lods' := default [] (RenderData (Build (LODFix.MeshBeforeBuild Pow m T)))) in *.
  unfold LODFix.VerifyAllLODs.
  rewrite (VerifyLOD_invalid_index _ _ lods'); [reflexivity|].
  exists (Nat.max 1 (length lods')). split.
  - apply elem_of_seq. lia.
  - apply lookup_ge_None. lia.
Qed.

End LODFixExtras.

Lemma fix_all_ignores_list_witness :
  [1%nat] <> [] /\ [2%nat; 1%nat] <> [] /\
  LODFix.FixAllLODReductions Pow_integral Build_to_target Printf_1f AsNumber_plain
    true (Some ThreeLODMesh) [1%nat] (Flt.of_int 30) =
  LODFix.FixAllLODReductions Pow_integral Build_to_target Printf_1f AsNumber_plain
    true (Some ThreeLODMesh) [2%nat; 1%nat] (Flt.of_int 30).
Proof.
  split; [discriminate|]. split; [discriminate|].
  apply (fix_all_ignores_which_lods_are_listed Pow_integral Build_to_target
           Printf_1f AsNumber_plain true (Some ThreeLODMesh) [1%nat] [2%nat; 1%nat]);
    discriminate.
Defined.

Lemma fix_all_rebuilds_or_leaves_untouched_witness :
  LODFix.FixAllLODReductions Pow_integral Build_to_target Printf_1f AsNumber_plain
    false (Some ThreeLODMesh) [1%nat] (Flt.of_int 30)
  = FixDone (Some ThreeLODMesh)
      [EvMessageDialog (LODFix.NoInterfaceMessage ThreeLODMesh)
         "LOD Reduction Fix Error"] /\
  EvBuild ∉ [EvMessageDialog (LODFix.NoInterfaceMessage ThreeLODMesh)
               "LOD Reduction Fix Error"].
Proof.
  split; [reflexivity|].
  destruct (fix_all_rebuilds_or_leaves_untouched Pow_integral Build_to_target
              Printf_1f AsNumber_plain false (Some ThreeLODMesh)
              (Some ThreeLODMesh) [1%nat] (Flt.of_int 30)
              [EvMessageDialog (LODFix.NoInterfaceMessage ThreeLODMesh)
                 "LOD Reduction Fix Error"] eq_refl)
    as [(_ & _ & Hmri & _)|(_ & H & _)]; [discriminate Hmri | exact H].
Defined.

Lemma fix_all_fails_witness :
  RenderData ThreeLODMesh
    = Some [MkLODResources 10000 30000; MkLODResources 9000 27000;
            MkLODResources 8000 24000] /\
  LODFix.FixAllLODReductions Pow_integral Build_base_only Printf_1f AsNumber_plain
    true (Some ThreeLODMesh) [1%nat] (Flt.of_int 30) = FixCrash.
Proof.
  split; [vm_compute; reflexivity|].
  apply (fix_all_fails_when_rebuild_drops_lods Pow_integral Build_base_only
           Printf_1f AsNumber_plain ThreeLODMesh [1%nat] (Flt.of_int 30)
           [MkLODResources 10000 30000; MkLODResources 9000 27000;
            MkLODResources 8000 24000]).
  - discriminate.
  - vm_compute. reflexivity.
  - simpl. lia.
  - vm_compute. lia.
Defined.

(** ** UV overlap rule: tolerance, boxes, detection and results *)

Lemma foldl_cond_app {A B} (P : A -> bool) (g : A -> B) (l : list A) :
  forall acc,
    foldl (λ acc x, if P x then acc ++ [g x] else acc) acc l =
    acc ++ map g (List.filter P l).
Proof.
  induction l as [|x l IH]; intros acc; cbn [foldl List.filter map].
  - rewrite app_nil_r. reflexivity.
  - rewrite IH. destruct (P x); [|reflexivity].
    cbn [map]. rewrite <- app_assoc. reflexivity.
Qed.

Lemma List_filter_sublist {A} (P : A -> bool) (l : list A) :
  List.filter P l `sublist_of` l.
Proof.
  induction l as [|x l IH]; cbn [List.filter]; [constructor|].
  destruct (P x); constructor; exact IH.
Qed.


Lemma ExtendBounds_TriangleID md ch (vs : list Z) :
  forall b, TriangleID (foldl (UVRule.ExtendBounds md ch) b vs) = TriangleID b.
Proof.
  induction vs as [|v vs IH]; intros b; [reflexivity|].
  cbn [foldl]. rewrite IH. reflexivity.
Qed.

Lemma BuildTriangleUVBounds_filter md ch :
  UVRule.UVsUnavailable md ch = false ->
  UVRule.BuildTriangleUVBounds (Some md) ch =
  List.filter (λ b, SFltb Flt.zero (UVRule.GetArea b))
    (map (λ t, UVRule.GetTriangleUVBounds md t ch UVRule.DefaultBounds)
         (Triangles md)).
Proof.
  intros Hav. unfold UVRule.BuildTriangleUVBounds. rewrite Hav.
  rewrite (foldl_cond_app
             (λ t, SFltb Flt.zero
                     (UVRule.GetArea
                        (UVRule.GetTriangleUVBounds md t ch UVRule.DefaultBounds)))
             (λ t, UVRule.GetTriangleUVBounds md t ch UVRule.DefaultBounds)).
  cbn [app]. generalize (Triangles md). intros l.
  induction l as [|t l IH]; [reflexivity|]. cbn [List.filter map].
  destruct (SFltb _ _); cbn [map]; rewrite IH; reflexivity.
Qed.

Lemma build_bounds_length md ch :
  (length (UVRule.BuildTriangleUVBounds md ch) <= length (TrianglesOf md))%nat.
Proof.
  destruct md as [d|]; [|simpl; lia].
  cbn [TrianglesOf from_option].
  destruct (UVRule.UVsUnavailable d ch) eqn:Hav.
  - unfold UVRule.BuildTriangleUVBounds. rewrite Hav. simpl. lia.
  - rewrite (BuildTriangleUVBounds_filter d ch Hav).
    etransitivity; [apply sublist_length, List_filter_sublist|].
    rewrite length_map. reflexivity.
Qed.

(** X15.  The boxes [BuildTriangleUVBounds] returns: none without a mesh
    description, without UVs, or for a channel at or beyond the number of UV
    channels; otherwise exactly the boxes [GetTriangleUVBounds] computes for
    the mesh's triangles, in the order of the triangles, keeping those of
    positive box area.  The IDs of the returned boxes are the IDs of exactly
    those triangles, so there are never more boxes than triangles. *)
Theorem build_triangle_uv_bounds_invariant
    (md : option FMeshDescription) (ch : Z) :
  let box (d : FMeshDescription) (t : Z * list Z) :=
    UVRule.GetTriangleUVBounds d t ch UVRule.DefaultBounds in
  UVRule.BuildTriangleUVBounds md ch =
    match md with
    | None => []
    | Some d =>
        match NumUVChannels d with
        | None => []
        | Some n =>
            if n <=? ch then []
            else List.filter (λ b, SFltb Flt.zero (UVRule.GetArea b))
                   (map (box d) (Triangles d))
        end
    end /\
  TriangleID <$> UVRule.BuildTriangleUVBounds md ch =
    match md with
    | None => []
    | Some d =>
        match NumUVChannels d with
        | None => []
        | Some n =>
            if n <=? ch then []
            else fst <$> List.filter
                           (λ t, SFltb Flt.zero (UVRule.GetArea (box d t)))
                           (Triangles d)
        end
    end /\
  (length (UVRule.BuildTriangleUVBounds md ch) <= length (TrianglesOf md))%nat.
Proof.
  intros box. split; [|split; [|apply build_bounds_length]].
  - destruct md as [d|]; [|reflexivity].
    destruct (NumUVChannels d) as [n|] eqn:Hn.
    + destruct (n <=? ch) eqn:Hle.
      * unfold UVRule.BuildTriangleUVBounds, UVRule.UVsUnavailable.
        rewrite Hn, Hle. reflexivity.
      * apply BuildTriangleUVBounds_filter.
        unfold UVRule.UVsUnavailable. rewrite Hn. exact Hle.
    + unfold UVRule.BuildTriangleUVBounds, UVRule.UVsUnavailable.
      rewrite Hn. reflexivity.
  - destruct md as [d|]; [|reflexivity].
    destruct (NumUVChannels d) as [n|] eqn:Hn.
    + destruct (n <=? ch) eqn:Hle.
      * unfold UVRule.BuildTriangleUVBounds, UVRule.UVsUnavailable.
        rewrite Hn, Hle. reflexivity.
      * assert (Hav : UVRule.UVsUnavailable d ch = false).
        { unfold UVRule.UVsUnavailable. rewrite Hn. exact Hle. }
        rewrite (BuildTriangleUVBounds_filter d ch Hav).
        generalize (Triangles d). intros l.
        induction l as [|t l IH]; [reflexivity|].
        cbn [map List.filter]. fold (box d t).
        destruct (SFltb Flt.zero (UVRule.GetArea (box d t))); [|exact IH].
        rewrite !fmap_cons, IH. f_equal.
        unfold box, UVRule.GetTriangleUVBounds. rewrite Hav.
        cbn zeta. rewrite ExtendBounds_TriangleID. reflexivity.
    + unfold UVRule.BuildTriangleUVBounds, UVRule.UVsUnavailable.
      rewrite Hn. reflexivity.
Qed.

Lemma AddUnique_NoDup {A} `{EqDecision A} (x : A) (l : list A) :
  NoDup l -> NoDup (AddUnique x l).
Proof.
  intros Hnd. unfold AddUnique. destruct (decide (x ∈ l)) as [|Hx]; [exact Hnd|].
  apply NoDup_app. split; [exact Hnd|]. split.
  - intros y Hy Hy'. apply list_elem_of_singleton in Hy'. subst y. contradiction.
  - apply NoDup_singleton.
Qed.

Lemma AddUnique_inv {A} `{EqDecision A} (x y : A) (l : list A) :
  y ∈ AddUnique x l -> y = x \/ y ∈ l.
Proof.
  unfold AddUnique. destruct (decide (x ∈ l)); [right; assumption|].
  intros Hy. apply elem_of_app in Hy as [Hy|Hy]; [right; exact Hy|].
  apply list_elem_of_singleton in Hy. left. exact Hy.
Qed.

Lemma DetectAgainst_NoDup bi rest tol :
  forall f Out, NoDup Out -> NoDup (UVRule.DetectAgainst bi rest tol f Out).
Proof.
  induction rest as [|bj rest IH]; intros f Out Hnd; cbn [UVRule.DetectAgainst].
  - exact Hnd.
  - destruct (UVRule.Overlaps bi bj tol); [|apply IH; exact Hnd].
    apply IH, AddUnique_NoDup. destruct f; [exact Hnd|apply AddUnique_NoDup, Hnd].
Qed.

Lemma DetectAgainst_sound bi rest tol x :
  forall f Out,
    x ∈ UVRule.DetectAgainst bi rest tol f Out ->
    x ∈ Out \/
    exists (k : nat) bj, rest !! k = Some bj /\ UVRule.Overlaps bi bj tol = true /\
                         (x = TriangleID bi \/ x = TriangleID bj).
Proof.
  induction rest as [|bj rest IH]; intros f Out Hx; cbn [UVRule.DetectAgainst] in Hx.
  - left. exact Hx.
  - destruct (UVRule.Overlaps bi bj tol) eqn:Hov.
    + apply IH in Hx as [Hx|(k & b & Hk & Hb & Hid)].
      * apply AddUnique_inv in Hx as [->|Hx].
        { right. exists 0%nat, bj. split; [reflexivity|]. split; [exact Hov|].
          right. reflexivity. }
        destruct f; [left; exact Hx|].
        apply AddUnique_inv in Hx as [->|Hx]; [|left; exact Hx].
        right. exists 0%nat, bj. split; [reflexivity|]. split; [exact Hov|].
        left. reflexivity.
      * right. exists (S k), b. split; [exact Hk|]. split; assumption.
    + apply IH in Hx as [Hx|(k & b & Hk & Hb & Hid)]; [left; exact Hx|].
      right. exists (S k), b. split; [exact Hk|]. split; assumption.
Qed.

Lemma DetectFrom_NoDup l tol :
  forall Out, NoDup Out -> NoDup (UVRule.DetectFrom l tol Out).
Proof.
  induction l as [|bi rest IH]; intros Out Hnd; cbn [UVRule.DetectFrom].
  - exact Hnd.
  - apply IH, DetectAgainst_NoDup, Hnd.
Qed.

Lemma DetectFrom_sound l tol x :
  forall Out,
    x ∈ UVRule.DetectFrom l tol Out ->
    x ∈ Out \/
    exists (i j : nat) a b,
      l !! i = Some a /\ l !! j = Some b /\ (i < j)%nat /\
      UVRule.Overlaps a b tol = true /\ (x = TriangleID a \/ x = TriangleID b).
Proof.
  induction l as [|bi rest IH]; intros Out Hx; cbn [UVRule.DetectFrom] in Hx.
  - left. exact Hx.
  - apply IH in Hx as [Hx|(i & j & a & b & Hi & Hj & Hlt & Hov & Hid)].
    + apply DetectAgainst_sound in Hx as [Hx|(k & bj & Hk & Hov & Hid)];
        [left; exact Hx|].
      right. exists 0%nat, (S k), bi, bj.
      split; [reflexivity|]. split; [exact Hk|]. split; [lia|].
      split; assumption.
    + right. exists (S i), (S j), a, b.
      split; [exact Hi|]. split; [exact Hj|]. split; [lia|]. split; assumption.
Qed.

(** X16.  [DetectOverlappingTriangles] returns, without duplicates, exactly the
    IDs of the boxes that take part in an overlapping pair. *)
Theorem detect_overlapping_triangles_exact
    (TriangleBounds : list FTriangleUVBounds) (Tolerance : spec_float) :
  NoDup (UVRule.DetectOverlappingTriangles TriangleBounds Tolerance) /\
  forall x : Z,
    x ∈ UVRule.DetectOverlappingTriangles TriangleBounds Tolerance <->
    exists (i j : nat) a b,
      TriangleBounds !! i = Some a /\ TriangleBounds !! j = Some b /\
      (i < j)%nat /\ UVRule.Overlaps a b Tolerance = true /\
      (x = TriangleID a \/ x = TriangleID b).
Proof.
  unfold UVRule.DetectOverlappingTriangles. split.
  - apply DetectFrom_NoDup, NoDup_nil_2.
  - intros x. split.
    + intros Hx. apply DetectFrom_sound in Hx as [Hx|Hx]; [|exact Hx].
      apply elem_of_nil in Hx. contradiction.
    + intros (i & j & a & b & Hi & Hj & Hlt & Hov & Hid).
      destruct (DetectFrom_pair TriangleBounds Tolerance [] i j a b Hi Hj Hlt Hov)
        as [Ha Hb].
      destruct Hid as [->| ->]; assumption.
Qed.


Section UVRuleExtras.
Variable Atof : string -> spec_float.
Variable FormatFloat1 : spec_float -> string.

(** X17.  Whatever the profile's parameter texts convert to, and also without a
    profile, the overlap tolerance of a channel lies between 0.0001 and
    0.01. *)
Theorem uv_tolerance_always_in_range
    (profile : option UPipelineGuardianProfile) (ch : Z) :
  SFleb (Flt.lit 1 4) (UVRule.GetOverlapToleranceForChannel Atof profile ch) = true /\
  SFleb (UVRule.GetOverlapToleranceForChannel Atof profile ch) (Flt.lit 1 2) = true.
Proof.
  unfold UVRule.GetOverlapToleranceForChannel.
  destruct profile as [p|].
  - cbn zeta. split.
    + apply Clamp_ge_min. vm_compute. reflexivity.
    + apply Clamp_le_max; vm_compute; reflexivity.
  - destruct (ch =? 0); [split; vm_compute; reflexivity|].
    destruct (ch =? 1); split; vm_compute; reflexivity.
Qed.

Lemma AnalyzeUVChannelOverlaps_channel md ch tol info :
  UVChannel (snd (UVRule.AnalyzeUVChannelOverlaps FormatFloat1 md ch tol info))
  = UVChannel info.
Proof.
  unfold UVRule.AnalyzeUVChannelOverlaps.
  destruct md as [d|]; [|reflexivity].
  destruct (ch <? 0); [reflexivity|].
  destruct (bool_decide _); [reflexivity|].
  destruct (_ <? _)%nat; [|reflexivity].
  destruct (SFltb _ _); reflexivity.
Qed.

Lemma AnalyzeChannel_eq md p out ch :
  UVRule.AnalyzeChannel Atof FormatFloat1 md p out ch =
  if ChannelIsReported Atof FormatFloat1 md p ch
  then out ++ [snd (UVRule.AnalyzeUVChannelOverlaps FormatFloat1 (Some md) ch
                      (UVRule.GetOverlapToleranceForChannel Atof (Some p) ch)
                      (UVRule.NewOverlapInfo ch))]
  else out.
Proof.
  unfold UVRule.AnalyzeChannel, ChannelIsReported.
  destruct (UVRule.ShouldCheckUVChannel (Some p) ch); [|reflexivity].
  destruct (UVRule.IsValidUVChannel (Some md) ch); [|reflexivity].
  cbn [negb andb].
  destruct (UVRule.AnalyzeUVChannelOverlaps _ _ _ _ _) as [found info].
  reflexivity.
Qed.

Lemma AnalyzeStaticMeshUVOverlaps_channels m md p :
  MeshDescription0 m = Some md ->
  exists infos,
    UVRule.AnalyzeStaticMeshUVOverlaps Atof FormatFloat1 m p = Some infos /\
    UVChannel <$> infos =
      List.filter (ChannelIsReported Atof FormatFloat1 md p) [0; 1; 2; 3].
Proof.
  intros Hmd. unfold UVRule.AnalyzeStaticMeshUVOverlaps. rewrite Hmd.
  eexists. split; [reflexivity|].
  assert (Hfold : forall l out,
    foldl (UVRule.AnalyzeChannel Atof FormatFloat1 md p) out l =
    out ++ map (λ ch, snd (UVRule.AnalyzeUVChannelOverlaps FormatFloat1 (Some md) ch
                             (UVRule.GetOverlapToleranceForChannel Atof (Some p) ch)
                             (UVRule.NewOverlapInfo ch)))
               (List.filter (ChannelIsReported Atof FormatFloat1 md p) l)).
  { induction l as [|c l IH]; intros out; cbn [foldl List.filter map].
    - rewrite app_nil_r. reflexivity.
    - rewrite IH, AnalyzeChannel_eq.
      destruct (ChannelIsReported Atof FormatFloat1 md p c); [|reflexivity].
      cbn [map]. rewrite <- app_assoc. reflexivity. }
  rewrite Hfold. cbn [app].
  assert (Hhigh : forall c, 4 <= c ->
            ChannelIsReported Atof FormatFloat1 md p c = false).
  { intros c Hc. unfold ChannelIsReported, UVRule.ShouldCheckUVChannel.
    destruct (Z.eqb_spec c 0); [lia|]. destruct (Z.eqb_spec c 1); [lia|].
    destruct (Z.eqb_spec c 2); [lia|]. destruct (Z.eqb_spec c 3); [lia|].
    reflexivity. }
  assert (Hfilter :
            List.filter (ChannelIsReported Atof FormatFloat1 md p)
              [0; 1; 2; 3; 4; 5; 6; 7] =
            List.filter (ChannelIsReported Atof FormatFloat1 md p) [0; 1; 2; 3]).
  { change [0; 1; 2; 3; 4; 5; 6; 7] with ([0; 1; 2; 3] ++ [4; 5; 6; 7]).
    rewrite List.filter_app. cbn [List.filter].
    rewrite (Hhigh 4), (Hhigh 5), (Hhigh 6), (Hhigh 7) by lia. apply app_nil_r. }
  rewrite Hfilter.
  generalize (List.filter (ChannelIsReported Atof FormatFloat1 md p) [0; 1; 2; 3]).
  intros l. induction l as [|c l IH]; [reflexivity|].
  cbn [map]. rewrite fmap_cons, IH, AnalyzeUVChannelOverlaps_channel. reflexivity.
Qed.

(** X18.  Only UV channels 0 to 3 are ever reported: the analysis of a mesh with
    a mesh description succeeds, and the channels of the information it
    returns are, in ascending order, exactly those among 0..3 that the
    profile has switched on, that the mesh description has, and that the
    channel analysis flags. *)
Theorem uv_analysis_reports_channels_0_to_3
    (m : UStaticMesh) (md : FMeshDescription) (p : UPipelineGuardianProfile) :
  MeshDescription0 m = Some md ->
  exists infos,
    UVRule.AnalyzeStaticMeshUVOverlaps Atof FormatFloat1 m p = Some infos /\
    UVChannel <$> infos =
      List.filter (ChannelIsReported Atof FormatFloat1 md p) [0; 1; 2; 3] /\
    (length infos <= 4)%nat.
Proof.
  intros Hmd.
  destruct (AnalyzeStaticMeshUVOverlaps_channels m md p Hmd) as (infos & Hi & Hch).
  exists infos. split; [exact Hi|]. split; [exact Hch|].
  rewrite <- (length_fmap UVChannel), Hch.
  pose proof (sublist_length _ _
                (List_filter_sublist (ChannelIsReported Atof FormatFloat1 md p)
                   [0; 1; 2; 3])) as Hlen.
  exact Hlen.
Qed.

(** X19.  A mesh description with at most four triangles is never reported,
    whatever its UVs and the profile: the check leaves the results as they
    were. *)
Theorem uv_check_small_mesh_never_reported
    (c : UClass) (m : UStaticMesh) (md : FMeshDescription)
    (p : option UPipelineGuardianProfile) (out : list FAssetAnalysisResult) :
  MeshDescription0 m = Some md ->
  (length (Triangles md) <= 4)%nat ->
  snd (UVRule.Check Atof FormatFloat1 (Some (StaticMeshObject c m)) p out) = out.
Proof.
  intros Hmd Hsmall. unfold UVRule.Check.
  destruct p as [p|]; [|reflexivity].
  destruct (negb _); [reflexivity|]. cbn [CastStaticMesh].
  destruct (AnalyzeStaticMeshUVOverlaps_channels m md p Hmd) as (infos & Hi & Hch).
  rewrite Hi. cbn [snd].
  assert (Hnone : forall ch, ChannelIsReported Atof FormatFloat1 md p ch = false).
  { intros ch. unfold ChannelIsReported.
    destruct (fst (UVRule.AnalyzeUVChannelOverlaps _ _ _ _ _)) eqn:Hflag;
      [|apply andb_false_r].
    apply AnalyzeUVChannelOverlaps_flag in Hflag as (_ & _ & Hlen & _).
    pose proof (build_bounds_length (Some md) ch) as Hle.
    cbn [TrianglesOf from_option] in Hle. lia. }
  cbn [List.filter] in Hch. rewrite !Hnone in Hch.
  destruct infos as [|i infos]; [reflexivity|discriminate].
Qed.

(** X20.  Whatever the asset and the profile, [Check] keeps the results it was
    given and appends at most four of its own; each of them carries the rule
    ID [SM_UVOverlapping], no fix action, an empty file path and a severity
    below [Critical]. *)
Theorem uv_check_results_shape
    (asset : option UObject) (profile : option UPipelineGuardianProfile)
    (out : list FAssetAnalysisResult) :
  exists new,
    snd (UVRule.Check Atof FormatFloat1 asset profile out) = out ++ new /\
    (length new <= 4)%nat /\
    forall r, r ∈ new ->
      ResultRuleID r = UVRule.GetRuleID /\ FixAction r = None /\
      FilePath r = EmptyString /\ Severity r <> Critical.
Proof.
  unfold UVRule.Check.
  assert (Hsame : exists new : list FAssetAnalysisResult,
            out = out ++ new /\ (length new <= 4)%nat /\
            forall r, r ∈ new ->
              ResultRuleID r = UVRule.GetRuleID /\ FixAction r = None /\
              FilePath r = EmptyString /\ Severity r <> Critical).
  { exists []. split; [symmetry; apply app_nil_r|]. split; [simpl; lia|].
    intros r Hr. apply elem_of_nil in Hr. contradiction. }
  destruct profile as [p|]; [|exact Hsame].
  destruct (negb _); [exact Hsame|].
  destruct (CastStaticMesh asset) as [m|]; [|exact Hsame].
  destruct (MeshDescription0 m) as [md|] eqn:Hmd.
  2:{ unfold UVRule.AnalyzeStaticMeshUVOverlaps. rewrite Hmd. exact Hsame. }
  destruct (AnalyzeStaticMeshUVOverlaps_channels m md p Hmd) as (infos & Hi & Hch).
  rewrite Hi. cbn [snd].
  rewrite (foldl_cond_app (λ info, 0 <? OverlappingTriangleCount info)
             (UVRule.ResultFor Atof FormatFloat1 m p)).
  eexists. split; [reflexivity|]. split.
  - rewrite length_map.
    etransitivity; [apply sublist_length, List_filter_sublist|].
    rewrite <- (length_fmap UVChannel), Hch.
    apply (sublist_length _ _
             (List_filter_sublist (ChannelIsReported Atof FormatFloat1 md p)
                [0; 1; 2; 3])).
  - intros r Hr. apply list_elem_of_In, List.in_map_iff in Hr as (info & <- & _).
    unfold UVRule.ResultFor. cbn [ResultRuleID FixAction FilePath Severity].
    repeat (split; [reflexivity|]).
    unfold UVRule.DetermineOverlapSeverity, UVRule.GetSeverityForOverlapPercentage.
    cbn zeta. repeat (destruct (SFltb _ _)); discriminate.
Qed.

End UVRuleExtras.

Lemma uv_analysis_channels_witness :
  MeshDescription0 StackedMesh = Some TwoStackedTriangles /\
  exists infos,
    UVRule.AnalyzeStaticMeshUVOverlaps Atof_decimal Printf_1f StackedMesh NewProfile
      = Some infos /\
    (length infos <= 4)%nat.
Proof.
  split; [reflexivity|].
  destruct (uv_analysis_reports_channels_0_to_3 Atof_decimal Printf_1f
              StackedMesh TwoStackedTriangles NewProfile eq_refl)
    as (infos & Hi & _ & Hlen).
  exists infos. split; [exact Hi | exact Hlen].
Defined.

Lemma uv_check_small_mesh_witness :
  MeshDescription0 StackedMesh = Some TwoStackedTriangles /\
  (length (Triangles TwoStackedTriangles) <= 4)%nat /\
  snd (UVRule.Check Atof_decimal Printf_1f
         (Some (StaticMeshObject StaticMeshClass StackedMesh)) (Some NewProfile) [])
  = [].
Proof.
  split; [reflexivity|]. split; [simpl; lia|].
  apply (uv_check_small_mesh_never_reported Atof_decimal Printf_1f StaticMeshClass
           StackedMesh TwoStackedTriangles (Some NewProfile) [] eq_refl).
  simpl. lia.
Defined.

(** ** From the reported fix action to the repair *)

Section CheckThenFix.
Variable Atof : string -> spec_float.
Variable FormatFloat1 : spec_float -> string.
Variable AsNumber : Z -> string.
Variable MeshReductionInterface : bool.
Variable Pow : spec_float -> spec_float -> spec_float.
Variable Build : UStaticMesh -> UStaticMesh.

(** X21.  A fix action that [Check] binds never runs into the guards of
    [FixAllLODReductions]: it names the checked mesh, a non-empty list of
    LODs and the profile's minimum reduction as target, a reduction
    interface is present, and running it on that mesh modifies, rebuilds and
    dirties the mesh and ends with the completion dialog, unless the
    verification loop hits an invalid LOD index. *)
Theorem lod_fix_action_always_rebuilds
    (asset : option UObject) (p : UPipelineGuardianProfile)
    (out : list FAssetAnalysisResult) (res : FAssetAnalysisResult)
    (a : FAssetData) (lods : list nat) (T : spec_float) :
  snd (LODRule.Check Atof FormatFloat1 AsNumber MeshReductionInterface
         asset (Some p) out) = out ++ [res] ->
  FixAction res = Some (FixAllLODReductionsAction a lods T) ->
  exists m,
    CastStaticMesh asset = Some m /\ a = AssetDataOfMesh m /\ lods <> [] /\
    T = Atof (GetRuleParameter p LODRule.GetRuleID "MinReductionPercentage" "30.0") /\
    MeshReductionInterface = true /\
    (LODFix.FixAllLODReductions Pow Build FormatFloat1 AsNumber
       MeshReductionInterface (Some m) lods T = FixCrash \/
     exists m' msg,
       LODFix.FixAllLODReductions Pow Build FormatFloat1 AsNumber
         MeshReductionInterface (Some m) lods T
       = FixDone (Some m')
           [EvModify; EvBuild; EvMarkPackageDirty;
            EvMessageDialog msg "LOD Reduction Fix Complete"]).
Proof.
  unfold LODRule.Check.
  assert (Hno : out = out ++ [res] -> False).
  { intros H. apply (f_equal length) in H. rewrite length_app in H.
    simpl in H. lia. }
  destruct (CastStaticMesh asset) as [m|]; [|intros H; destruct (Hno H)].
  destruct (negb _); [intros H; destruct (Hno H)|].
  destruct (RenderData m) as [rd|] eqn:Hrd; [|intros H; destruct (Hno H)].
  destruct (_ <? _)%nat; [intros H; destruct (Hno H)|].
  set (mn := Atof _). set (w := Atof _). set (e := Atof _).
  destruct (CheckPairs_problematic FormatFloat1 m mn w e (length rd)) as [Hp Hb].
  destruct (_ && _) eqn:Hcond; [|intros H; destruct (Hno H)].
  cbn [snd]. intros Happ Hfix.
  apply app_inv_head in Happ. injection Happ as <-.
  cbn [FixAction] in Hfix.
  apply andb_true_iff in Hcond as [_ Hlen]. apply Nat.ltb_lt in Hlen.
  assert (Hne : LODRule.ProblematicLODs
                  (LODRule.CheckPairs FormatFloat1 m mn w e (length rd)) <> []).
  { intros Hnil. rewrite Hnil in Hlen. simpl in Hlen. lia. }
  assert (Hlen0 : length (LODRule.ProblematicLODs
                    (LODRule.CheckPairs FormatFloat1 m mn w e (length rd))) <> 0%nat)
    by lia.
  clear Hlen.
  unfold LODRule.CanFixLODReduction in Hfix. rewrite Hrd in Hfix.
  destruct rd as [|b rest]; [discriminate|].
  destruct (GetNumVertices b =? 0); [discriminate|].
  destruct MeshReductionInterface; [|discriminate].
  injection Hfix as <- <- <-.
  exists m. split; [reflexivity|]. split; [reflexivity|].
  split; [exact Hne|].
  split; [reflexivity|]. split; [reflexivity|].
  unfold LODFix.FixAllLODReductions.
  rewrite bool_decide_eq_false_2 by exact Hlen0.
  cbn [negb LODFix.Modify RenderData]. rewrite Hrd. cbn zeta.
  destruct (LODFix.VerifyAllLODs _ _ _ _); [right|left; reflexivity].
  eexists. eexists. reflexivity.
Qed.

End CheckThenFix.

Lemma lod_fix_action_witness :
  exists res,
    snd (LODRule.Check Atof_decimal Printf_1f AsNumber_plain true
           (Some (StaticMeshObject StaticMeshClass WeakLODMesh)) (Some NewProfile) [])
      = [] ++ [res] /\
    exists m' msg,
      LODFix.FixAllLODReductions Pow_integral Build_to_target Printf_1f
        AsNumber_plain true (Some WeakLODMesh) [1%nat] (Atof_decimal "30.0")
      = FixDone (Some m')
          [EvModify; EvBuild; EvMarkPackageDirty;
           EvMessageDialog msg "LOD Reduction Fix Complete"].
Proof.
  eexists. split; [vm_compute; reflexivity|].
  destruct (lod_fix_action_always_rebuilds Atof_decimal Printf_1f AsNumber_plain
              true Pow_integral Build_to_target
              (Some (StaticMeshObject StaticMeshClass WeakLODMesh)) NewProfile []
              _ (AssetDataOfMesh WeakLODMesh) [1%nat] (Atof_decimal "30.0")
              eq_refl eq_refl)
    as (m & Hcast & _ & _ & _ & _ & [Hcrash|Hdone]);
    cbn [CastStaticMesh] in Hcast; injection Hcast as <-.
  - vm_compute in Hcrash. discriminate Hcrash.
  - exact Hdone.
Defined.

(** ** The analyzer registry *)

Lemma FindAnalyzer_agree map1 map2 (c : UClass) :
  (forall x, x ∈ Ancestors c -> map1 !! GetClassName x = map2 !! GetClassName x) ->
  FindAnalyzer map1 c = FindAnalyzer map2 c.
Proof.
  induction c as [n|n s IH] using UClass_chain_ind; intros Hagree.
  - cbn [FindAnalyzer].
    pose proof (Hagree (MkClass n None)) as H. cbn [GetClassName] in H.
    rewrite H; [reflexivity|].
    cbn [Ancestors]. apply elem_of_cons. left. reflexivity.
  - cbn [FindAnalyzer].
    pose proof (Hagree (MkClass n (Some s))) as H. cbn [GetClassName] in H.
    rewrite H.
    2:{ cbn [Ancestors]. apply elem_of_cons. left. reflexivity. }
    rewrite IH; [reflexivity|].
    intros x Hx. apply Hagree. cbn [Ancestors]. apply elem_of_cons. right. exact Hx.
Qed.

Lemma FindAnalyzer_empty (c : UClass) : FindAnalyzer ∅ c = None.
Proof.
  induction c as [n|n s IH] using UClass_chain_ind; cbn [FindAnalyzer];
    rewrite lookup_empty; [reflexivity | exact IH].
Qed.

Lemma UnregisterAllAnalyzers_empty map : UnregisterAllAnalyzers map = ∅.
Proof.
  unfold UnregisterAllAnalyzers.
  destruct (Nat.ltb_spec 0 (size map)) as [|Hsize]; [reflexivity|].
  apply map_size_empty_iff. lia.
Qed.

(** X22.  Registration overrides: the analyzer registered last for a class is the
    one found for it, a second registration for the same class replaces the
    first, classes whose ancestor chain does not contain the class keep
    their analyzer, and a null class or an invalid analyzer changes
    nothing. *)
Theorem register_analyzer_latest_wins
    (map : gmap string (option IAssetAnalyzer)) (c : UClass)
    (a a' : IAssetAnalyzer) :
  FindAnalyzer (RegisterAssetAnalyzer (Some c) (Some a) map) c = Some a /\
  RegisterAssetAnalyzer (Some c) (Some a)
    (RegisterAssetAnalyzer (Some c) (Some a') map) =
  RegisterAssetAnalyzer (Some c) (Some a) map /\
  (forall c', GetClassName c ∉ GetClassName <$> Ancestors c' ->
     FindAnalyzer (RegisterAssetAnalyzer (Some c) (Some a) map) c' =
     FindAnalyzer map c') /\
  RegisterAssetAnalyzer None (Some a) map = map /\
  RegisterAssetAnalyzer (Some c) None map = map.
Proof.
  split; [|split; [|split; [|split; reflexivity]]].
  - destruct c as [n s]. cbn [RegisterAssetAnalyzer GetClassName FindAnalyzer].
    rewrite lookup_insert_eq. reflexivity.
  - cbn [RegisterAssetAnalyzer]. apply insert_insert_eq.
  - intros c' Hnotin. apply FindAnalyzer_agree. intros x Hx.
    cbn [RegisterAssetAnalyzer]. apply lookup_insert_ne.
    intros Heq. apply Hnotin. rewrite Heq.
    apply list_elem_of_fmap_2. exact Hx.
Qed.

Section RegistryExtras.
Variable GetAsset : FAssetData -> option UObject.
Variable AsNumber : Z -> string.
Variable ShouldCancel : nat -> bool.

Lemma AnalyzeSingleAsset_empty data Settings out :
  AnalyzeSingleAsset GetAsset ∅ data Settings out = out.
Proof.
  unfold AnalyzeSingleAsset.
  destruct (negb _); [reflexivity|].
  destruct (GetAsset data) as [obj|]; [|reflexivity].
  rewrite FindAnalyzer_empty. reflexivity.
Qed.

(** X23.  After [UnregisterAllAnalyzers] no asset is analysed: dispatch leaves the
    results alone, and a whole evaluation loop ends without results. *)
Theorem unregister_all_then_nothing_is_analyzed
    (map : gmap string (option IAssetAnalyzer)) (data : FAssetData)
    (Settings : option UPipelineGuardianSettings)
    (out : list FAssetAnalysisResult) (mode : EAssetScanMode)
    (assets : list FAssetData) (summary : string) :
  AnalyzeSingleAsset GetAsset (UnregisterAllAnalyzers map) data Settings out = out /\
  FinalResults
    (EvaluateAssets GetAsset AsNumber ShouldCancel (UnregisterAllAnalyzers map)
       Settings mode assets summary) = [].
Proof.
  rewrite UnregisterAllAnalyzers_empty. split; [apply AnalyzeSingleAsset_empty|].
  unfold EvaluateAssets.
  destruct (_ <? _)%nat; [|destruct (_ || _); reflexivity].
  generalize (length assets). intros Total.
  assert (Hloop : forall l st,
            FinalResults (AnalyzeLoop GetAsset AsNumber ShouldCancel ∅ Settings
                            Total l st) = FinalResults st).
  { induction l as [|d l IH]; intros st; cbn [AnalyzeLoop]; [reflexivity|].
    destruct (ShouldCancel _); [reflexivity|].
    rewrite IH. cbn [FinalResults]. apply AnalyzeSingleAsset_empty. }
  rewrite Hloop. reflexivity.
Qed.

End RegistryExtras.

(** ** The evaluation loop, the scan task and the window's buttons *)

Lemma div10_succ (n : nat) :
  (S n / 10 = n / 10 + (if bool_decide (S n `mod` 10 = 0) then 1 else 0))%nat.
Proof.
  pose proof (Nat.div_mod_eq n 10) as Hn.
  pose proof (Nat.div_mod_eq (S n) 10) as HSn.
  pose proof (Nat.mod_upper_bound n 10 ltac:(lia)) as Hr.
  pose proof (Nat.mod_upper_bound (S n) 10 ltac:(lia)) as Hr'.
  destruct (bool_decide (S n `mod` 10 = 0)%nat) eqn:Hd.
  - apply bool_decide_eq_true in Hd. lia.
  - apply bool_decide_eq_false in Hd. lia.
Qed.

Lemma foldl_concat_paths {A} (f : string -> list A) (l : list string) :
  forall acc, foldl (λ acc Path, acc ++ f Path) acc l = acc ++ concat (f <$> l).
Proof.
  induction l as [|x l IH]; intros acc; cbn [foldl fmap list_fmap concat].
  - rewrite app_nil_r. reflexivity.
  - rewrite IH, app_assoc. reflexivity.
Qed.

Section ScanExtras.
Variable GetAsset : FAssetData -> option UObject.
Variable AssetsInPath : string -> list FAssetData.
Variable AsNumber : Z -> string.
Variable ShouldCancel : nat -> bool.

Lemma AnalyzeLoop_general map Settings Total (l : list FAssetData) :
  forall st,
    exists k : nat,
      (k <= length l)%nat /\
      ProcessedCount (AnalyzeLoop GetAsset AsNumber ShouldCancel map Settings Total l st)
        = (ProcessedCount st + k)%nat /\
      FinalResults (AnalyzeLoop GetAsset AsNumber ShouldCancel map Settings Total l st)
        = foldl (λ out a, AnalyzeSingleAsset GetAsset map a Settings out)
                (FinalResults st) (take k l) /\
      (PumpedMessages (AnalyzeLoop GetAsset AsNumber ShouldCancel map Settings Total l st)
         + ProcessedCount st / 10
       = PumpedMessages st + (ProcessedCount st + k) / 10)%nat /\
      (forall j, (j < k)%nat -> ShouldCancel (ProcessedCount st + j)%nat = false) /\
      ((k < length l)%nat ->
       ShouldCancel (ProcessedCount st + k)%nat = true /\
       FinalOperationSummaryMessage
         (AnalyzeLoop GetAsset AsNumber ShouldCancel map Settings Total l st)
       = CancelledMessage AsNumber (ProcessedCount st + k) Total).
Proof.
  induction l as [|a l IH]; intros st.
  - exists 0%nat. cbn [AnalyzeLoop length take foldl]. rewrite Nat.add_0_r.
    repeat split; try reflexivity; try lia; intros; lia.
  - cbn [AnalyzeLoop]. destruct (ShouldCancel (ProcessedCount st)) eqn:Hc.
    + exists 0%nat. cbn [length take foldl ProcessedCount FinalResults PumpedMessages
                         FinalOperationSummaryMessage].
      rewrite Nat.add_0_r.
      split; [lia|]. split; [reflexivity|]. split; [reflexivity|].
      split; [reflexivity|]. split; [intros; lia|].
      intros _. split; [exact Hc|reflexivity].
    + set (st1 := MkLoop _ _ _ _).
      destruct (IH st1) as (k & Hk & Hpc & Hres & Hpump & Hbefore & Hstop).
      exists (S k). cbn [length take foldl].
      subst st1. cbn [ProcessedCount FinalResults PumpedMessages] in *.
      replace (ProcessedCount st + S k)%nat with (S (ProcessedCount st) + k)%nat by lia.
      split; [lia|]. split; [exact Hpc|]. split; [exact Hres|].
      split.
      { pose proof (div10_succ (ProcessedCount st)) as Hdiv.
        destruct (bool_decide (S (ProcessedCount st) `mod` 10 = 0)%nat); lia. }
      split.
      { intros j Hj. destruct j as [|j].
        - rewrite Nat.add_0_r. exact Hc.
        - replace (ProcessedCount st + S j)%nat
            with (S (ProcessedCount st) + j)%nat by lia.
          apply Hbefore. lia. }
      intros Hlt. apply Hstop. lia.
Qed.

(** X24.  Whatever the user does with the cancel button, the evaluation loop
    stops only at a poll that reports cancellation: the results are those of
    the assets processed so far, in order; the polls before were negative;
    stopping early leaves the cancellation text as summary; and the UI
    messages were pumped once per ten processed assets. *)
Theorem evaluation_loop_invariant
    (map : gmap string (option IAssetAnalyzer))
    (Settings : option UPipelineGuardianSettings) (mode : EAssetScanMode)
    (assets : list FAssetData) (summary : string) :
  let st := EvaluateAssets GetAsset AsNumber ShouldCancel map Settings mode
              assets summary in
  (ProcessedCount st <= length assets)%nat /\
  FinalResults st = ResultsOf GetAsset map Settings (take (ProcessedCount st) assets) /\
  PumpedMessages st = (ProcessedCount st / 10)%nat /\
  (forall j, (j < ProcessedCount st)%nat -> ShouldCancel j = false) /\
  ((ProcessedCount st < length assets)%nat ->
   ShouldCancel (ProcessedCount st) = true /\
   FinalOperationSummaryMessage st =
     CancelledMessage AsNumber (ProcessedCount st) (length assets)).
Proof.
  intros st. subst st. unfold EvaluateAssets, ResultsOf.
  destruct (Nat.ltb_spec 0 (length assets)) as [Hpos|Hzero].
  - destruct (AnalyzeLoop_general map Settings (length assets) assets
                (MkLoop [] 0 summary 0))
      as (k & Hk & Hpc & Hres & Hpump & Hbefore & Hstop).
    cbn [ProcessedCount FinalResults PumpedMessages Nat.add] in *.
    rewrite Hpc. split; [exact Hk|]. split; [exact Hres|].
    split; [rewrite Nat.Div0.div_0_l in Hpump; lia|].
    split; [exact Hbefore|]. exact Hstop.
  - destruct (_ || _); cbn [ProcessedCount FinalResults PumpedMessages take foldl];
      (split; [lia|]); (split; [destruct assets; reflexivity|]);
      (split; [reflexivity|]); (split; [intros; lia|]); intros; lia.
Qed.

Lemma DiscoverAssets_fst mode params pre task :
  fst (DiscoverAssets AssetsInPath AsNumber mode params pre task) =
  AssetsOfScan AssetsInPath mode params pre.
Proof.
  destruct mode; cbn [DiscoverAssets AssetsOfScan fst]; try reflexivity.
  rewrite foldl_concat_paths. reflexivity.
Qed.

Lemma EvaluateAssets_no_cancel map Settings mode assets summary :
  (forall k, ShouldCancel k = false) ->
  FinalResults (EvaluateAssets GetAsset AsNumber ShouldCancel map Settings mode
                  assets summary) = ResultsOf GetAsset map Settings assets.
Proof.
  intros Hnc. unfold EvaluateAssets, ResultsOf.
  destruct (Nat.ltb_spec 0 (length assets)) as [Hpos|Hzero].
  - destruct (AnalyzeLoop_no_cancel GetAsset AsNumber ShouldCancel map Settings
                (length assets) assets (MkLoop [] 0 summary 0) Hnc) as [Hr _].
    exact Hr.
  - destruct assets; [|simpl in Hzero; lia].
    destruct (_ || _); reflexivity.
Qed.

Lemma OnAssetScanPhaseComplete_no_cancel map Settings mode params pre task :
  (forall k, ShouldCancel k = false) ->
  OnAssetScanPhaseComplete GetAsset AssetsInPath AsNumber ShouldCancel
    (Some map) (Some Settings) mode params pre task =
  MkWindow false
    (OverallCompletionStatus AsNumber task
       (length (AssetsOfScan AssetsInPath mode params pre))
       (length (ResultsOf GetAsset map (Some Settings)
                  (AssetsOfScan AssetsInPath mode params pre))))
    (ResultsOf GetAsset map (Some Settings)
       (AssetsOfScan AssetsInPath mode params pre)).
Proof.
  intros Hnc. unfold OnAssetScanPhaseComplete.
  pose proof (DiscoverAssets_fst mode params pre task) as Hfst.
  destruct (DiscoverAssets AssetsInPath AsNumber mode params pre task) as [l s].
  cbn [fst] in Hfst. subst l.
  rewrite EvaluateAssets_no_cancel by exact Hnc. reflexivity.
Qed.

(** X25.  A scan task with the window's handler as delegate, not cancelled: the
    window ends idle, its report holds the results of evaluating, in order,
    the content of [/Game/] for a project scan, the concatenated contents of
    the given folders for a folder scan, and the pre-discovered assets for
    the other two modes (which the first two ignore); the status line counts
    those assets and results.  With a scanner that has gone away the window
    shows the internal error and an empty report. *)
Theorem scan_task_reports_discovered_assets
    (map : gmap string (option IAssetAnalyzer)) (Settings : UPipelineGuardianSettings)
    (mode : EAssetScanMode) (params : list string) (pre : list FAssetData) :
  (forall k, ShouldCancel k = false) ->
  (exists task,
     DoWork AsNumber mode params pre (Some map) (Some Settings)
       (Some (OnAssetScanPhaseComplete GetAsset AssetsInPath AsNumber ShouldCancel
                (Some map) (Some Settings)))
     = Some (MkWindow false
               (OverallCompletionStatus AsNumber task
                  (length (AssetsOfScan AssetsInPath mode params pre))
                  (length (ResultsOf GetAsset map (Some Settings)
                             (AssetsOfScan AssetsInPath mode params pre))))
               (ResultsOf GetAsset map (Some Settings)
                  (AssetsOfScan AssetsInPath mode params pre)))) /\
  DoWork AsNumber mode params pre None (Some Settings)
    (Some (OnAssetScanPhaseComplete GetAsset AssetsInPath AsNumber ShouldCancel
             None (Some Settings)))
  = Some (MkWindow false
            "Error: Could not complete analysis (GT phase) due to internal setup." []).
Proof.
  intros Hnc. split; [|reflexivity].
  unfold DoWork.
  destruct mode; cbn [fmap option_fmap option_map];
    eexists; rewrite OnAssetScanPhaseComplete_no_cancel by exact Hnc;
    reflexivity.
Qed.

(** X26.  The guards of the three analysis buttons: a click while an analysis
    is in progress changes nothing; with the master switch off the report is
    cleared and nothing is scanned; and with nothing selected the folder and
    asset buttons clear the report. *)
Theorem analysis_buttons_guards
    (map : gmap string (option IAssetAnalyzer)) (Settings : UPipelineGuardianSettings)
    (paths : list string) (selected : list FAssetData)
    (w : WindowState) (mem : WindowMemory) :
  (bIsAnalysisInProgress w = true ->
   OnAnalyzeProjectClicked GetAsset AssetsInPath AsNumber ShouldCancel
     (Some map) (Some Settings) w mem = (w, mem) /\
   OnAnalyzeSelectedFolderClicked GetAsset AssetsInPath AsNumber ShouldCancel
     (Some map) (Some Settings) paths w mem = (w, mem) /\
   OnAnalyzeSelectedAssetsClicked GetAsset AssetsInPath AsNumber ShouldCancel
     (Some map) (Some Settings) selected w mem = (w, mem)) /\
  (bIsAnalysisInProgress w = false ->
   bMasterSwitch_EnableAnalysis Settings = false ->
   fst (OnAnalyzeProjectClicked GetAsset AssetsInPath AsNumber ShouldCancel
          (Some map) (Some Settings) w mem)
     = MkWindow false "Analysis is globally disabled. Report cleared." [] /\
   fst (OnAnalyzeSelectedFolderClicked GetAsset AssetsInPath AsNumber ShouldCancel
          (Some map) (Some Settings) paths w mem)
     = MkWindow false "Analysis is globally disabled. Report cleared." [] /\
   fst (OnAnalyzeSelectedAssetsClicked GetAsset AssetsInPath AsNumber ShouldCancel
          (Some map) (Some Settings) selected w mem)
     = MkWindow false "Analysis is globally disabled. Report cleared." []) /\
  (bIsAnalysisInProgress w = false ->
   bMasterSwitch_EnableAnalysis Settings = true ->
   OnAnalyzeSelectedFolderClicked GetAsset AssetsInPath AsNumber ShouldCancel
     (Some map) (Some Settings) [] w mem
     = (MkWindow false "No folder selected. Report cleared." [], mem) /\
   fst (OnAnalyzeSelectedAssetsClicked GetAsset AssetsInPath AsNumber ShouldCancel
          (Some map) (Some Settings) [] w mem)
     = MkWindow false "No assets selected. Report cleared." []).
Proof.
  unfold OnAnalyzeProjectClicked, OnAnalyzeSelectedFolderClicked,
    OnAnalyzeSelectedAssetsClicked.
  split; [|split].
  - intros ->. repeat split; reflexivity.
  - intros -> ->. repeat split; reflexivity.
  - intros -> ->. split; reflexivity.
Qed.

(** X27.  A click on an idle window with the master switch on, not cancelled:
    the project button reports the results for the content of [/Game/], the
    folder button those for the contents of the selected folders one after
    the other, the asset button those for the selected assets; the window
    ends idle, and the mode (and folders) are remembered for a refresh. *)
Theorem analysis_buttons_run_the_scan
    (map : gmap string (option IAssetAnalyzer)) (Settings : UPipelineGuardianSettings)
    (paths : list string) (selected : list FAssetData)
    (w : WindowState) (mem : WindowMemory) :
  (forall k, ShouldCancel k = false) ->
  bIsAnalysisInProgress w = false ->
  bMasterSwitch_EnableAnalysis Settings = true ->
  paths <> [] -> selected <> [] ->
  let after_project :=
    OnAnalyzeProjectClicked GetAsset AssetsInPath AsNumber ShouldCancel
      (Some map) (Some Settings) w mem in
  let after_folder :=
    OnAnalyzeSelectedFolderClicked GetAsset AssetsInPath AsNumber ShouldCancel
      (Some map) (Some Settings) paths w mem in
  let after_assets :=
    OnAnalyzeSelectedAssetsClicked GetAsset AssetsInPath AsNumber ShouldCancel
      (Some map) (Some Settings) selected w mem in
  (bIsAnalysisInProgress (fst after_project) = false /\
   ReportResults (fst after_project) =
     ResultsOf GetAsset map (Some Settings) (AssetsInPath "/Game/") /\
   snd after_project = MkMemory Project []) /\
  (bIsAnalysisInProgress (fst after_folder) = false /\
   ReportResults (fst after_folder) =
     ResultsOf GetAsset map (Some Settings) (concat (AssetsInPath <$> paths)) /\
   snd after_folder = MkMemory SelectedFolders paths) /\
  (bIsAnalysisInProgress (fst after_assets) = false /\
   ReportResults (fst after_assets) =
     ResultsOf GetAsset map (Some Settings) selected /\
   snd after_assets = MkMemory SelectedAssets []).
Proof.
  intros Hnc Hidle Hon Hpaths Hsel after_project after_folder after_assets.
  subst after_project after_folder after_assets.
  unfold OnAnalyzeProjectClicked, OnAnalyzeSelectedFolderClicked,
    OnAnalyzeSelectedAssetsClicked, StartBackgroundTask, DoWork.
  rewrite Hidle, Hon. cbn [negb].
  destruct paths as [|path paths]; [contradiction|].
  destruct selected as [|d selected]; [contradiction|].
  cbn [length bool_decide decide_rel fmap option_fmap option_map default from_option].
  rewrite !OnAssetScanPhaseComplete_no_cancel by exact Hnc.
  cbn [bIsAnalysisInProgress ReportResults fst snd AssetsOfScan].
  repeat split; reflexivity.
Qed.

End ScanExtras.

Lemma scan_task_witness :
  (forall k, NeverCancel k = false) /\
  exists task,
    DoWork AsNumber_plain SelectedFolders ["/Game/Meshes"] [TextureAsset]
      (Some ExampleAnalyzers) (Some ExampleSettings)
      (Some (OnAssetScanPhaseComplete ExampleRegistry ExampleAssetsInPath
               AsNumber_plain NeverCancel (Some ExampleAnalyzers)
               (Some ExampleSettings)))
    = Some (MkWindow false
              (OverallCompletionStatus AsNumber_plain task 2
                 (length (ResultsOf ExampleRegistry ExampleAnalyzers
                            (Some ExampleSettings)
                            [AssetOf WeakLODMesh; AssetOf StackedMesh])))
              (ResultsOf ExampleRegistry ExampleAnalyzers (Some ExampleSettings)
                 [AssetOf WeakLODMesh; AssetOf StackedMesh])).
Proof.
  split; [intros k; reflexivity|].
  destruct (scan_task_reports_discovered_assets ExampleRegistry ExampleAssetsInPath
              AsNumber_plain NeverCancel ExampleAnalyzers ExampleSettings
              SelectedFolders ["/Game/Meshes"] [TextureAsset]
              (λ k, eq_refl)) as [[task Htask] _].
  exists task. exact Htask.
Defined.

Lemma analysis_buttons_witness :
  (forall k, NeverCancel k = false) /\
  ReportResults
    (fst (OnAnalyzeSelectedAssetsClicked ExampleRegistry ExampleAssetsInPath
            AsNumber_plain NeverCancel (Some ExampleAnalyzers)
            (Some ExampleSettings) [AssetOf WeakLODMesh] IdleWindow
            (MkMemory Project [])))
  = ResultsOf ExampleRegistry ExampleAnalyzers (Some ExampleSettings)
      [AssetOf WeakLODMesh].
Proof.
  split; [intros k; reflexivity|].
  destruct (analysis_buttons_run_the_scan ExampleRegistry ExampleAssetsInPath
              AsNumber_plain NeverCancel ExampleAnalyzers ExampleSettings
              ["/Game/Meshes"] [AssetOf WeakLODMesh] IdleWindow
              (MkMemory Project []) (λ k, eq_refl) eq_refl eq_refl)
    as (_ & _ & _ & H & _); [discriminate | discriminate | exact H].
Defined.

(** ** The repair of UV overlaps and the overlap percentage *)

Section UVFixExtras.
Variable Build : UStaticMesh -> UStaticMesh.

(** X28.  [FixUVOverlaps] rebuilds the mesh and marks its package dirty exactly
    when [CanFixUVOverlaps] holds, that is for a mesh with a mesh description
    and an overlap below 90%; otherwise it returns the mesh untouched.  It
    never opens a modification on the mesh. *)
Theorem fix_uv_overlaps_effects
    (m : option UStaticMesh) (info : FUVOverlapInfo) :
  ((UVFix.CanFixUVOverlaps m info = true /\
    exists m0 md,
      m = Some m0 /\ MeshDescription0 m0 = Some md /\
      SFltb (OverlapPercentage info) (Flt.of_int 90) = true /\
      UVFix.FixUVOverlaps Build m info =
        (Some (LODFix.MarkPackageDirty (Build m0)), [EvBuild; EvMarkPackageDirty])) \/
   (UVFix.CanFixUVOverlaps m info = false /\
    UVFix.FixUVOverlaps Build m info = (m, []))) /\
  (EvModify ∉ snd (UVFix.FixUVOverlaps Build m info)).
Proof.
  unfold UVFix.FixUVOverlaps, UVFix.CanFixUVOverlaps, UVFix.RegenerateUVChannel.
  destruct m as [m0|].
  2:{ split; [right; split; reflexivity|]. apply not_elem_of_nil. }
  destruct (MeshDescription0 m0) as [md|] eqn:Hmd.
  2:{ split; [right; split; reflexivity|]. apply not_elem_of_nil. }
  destruct (SFltb (OverlapPercentage info) (Flt.of_int 90)) eqn:Hlt; cbn [negb].
  - split.
    + left. split; [reflexivity|]. exists m0, md.
      split; [reflexivity|]. split; [exact Hmd|]. split; reflexivity.
    + cbn [snd app]. intros Hin.
      apply elem_of_cons in Hin as [Hin|Hin]; [discriminate|].
      apply list_elem_of_singleton in Hin. discriminate.
  - split; [right; split; reflexivity|]. apply not_elem_of_nil.
Qed.

End UVFixExtras.

Lemma OverlappingArea_zero (AllBounds : list FTriangleUVBounds) (ids : list Z) :
  (forall b, b ∈ AllBounds -> TriangleID b ∉ ids) ->
  foldl (λ acc Bounds,
           if bool_decide (TriangleID Bounds ∈ ids)
           then Flt.add acc (UVRule.GetArea Bounds) else acc)
        Flt.zero AllBounds = Flt.zero.
Proof.
  generalize Flt.zero. induction AllBounds as [|b l IH]; intros z Hnone.
  - reflexivity.
  - cbn [foldl]. rewrite bool_decide_eq_false_2.
    + apply IH. intros x Hx. apply Hnone. apply elem_of_cons. right. exact Hx.
    + apply Hnone. apply elem_of_cons. left. reflexivity.
Qed.

(** X29.  When none of the boxes belongs to a listed triangle, in particular for
    an empty list of overlapping triangles, the overlap percentage is
    [0.0], whatever the areas sum to. *)
Theorem overlap_percentage_zero_without_overlaps
    (AllBounds : list FTriangleUVBounds) (ids : list Z) :
  (forall b, b ∈ AllBounds -> TriangleID b ∉ ids) ->
  UVFix.CalculateOverlapPercentage AllBounds ids = Flt.zero.
Proof.
  intros Hnone. unfold UVFix.CalculateOverlapPercentage.
  destruct (bool_decide _); [reflexivity|]. cbn zeta.
  rewrite (OverlappingArea_zero AllBounds ids Hnone).
  destruct (foldl _ Flt.zero AllBounds) as [s|s| |s mt e];
    try destruct s; try reflexivity.
Qed.

Lemma overlap_percentage_witness :
  (forall b, b ∈ [UnitSquareBounds 0; UnitSquareBounds 1] -> TriangleID b ∉ [7]) /\
  UVFix.CalculateOverlapPercentage [UnitSquareBounds 0; UnitSquareBounds 1] [7]
    = Flt.zero.
Proof.
  assert (H : forall b, b ∈ [UnitSquareBounds 0; UnitSquareBounds 1] ->
                        TriangleID b ∉ [7]).
  { intros b Hb Hin. apply list_elem_of_singleton in Hin.
    apply elem_of_cons in Hb as [->|Hb]; [discriminate|].
    apply list_elem_of_singleton in Hb. subst b. discriminate. }
  split; [exact H|].
  apply (overlap_percentage_zero_without_overlaps
           [UnitSquareBounds 0; UnitSquareBounds 1] [7] H).
Defined.

(** ** Results are only ever appended *)

Section AppendOnly.
Variable GetAsset : FAssetData -> option UObject.

Lemma rules_only_append (rules : list (option IAssetCheckRule))
    (asset : option UObject) (profile : option UPipelineGuardianProfile) :
  (forall R, Some R ∈ rules -> RuleOnlyAppends R) ->
  forall out, exists new,
    foldl (λ Out Rule,
             match Rule with
             | Some R => snd (RuleCheck R asset profile Out)
             | None => Out
             end) out rules = out ++ new.
Proof.
  induction rules as [|r rules IH]; intros Hrules out; cbn [foldl].
  - exists []. symmetry. apply app_nil_r.
  - assert (Hrest : forall R, Some R ∈ rules -> RuleOnlyAppends R).
    { intros R HR. apply Hrules. apply elem_of_cons. right. exact HR. }
    destruct r as [R|].
    + destruct (Hrules R ltac:(apply elem_of_cons; left; reflexivity)
                  asset profile out) as [new1 H1].
      rewrite H1. destruct (IH Hrest (out ++ new1)) as [new2 H2].
      exists (new1 ++ new2). rewrite H2, app_assoc. reflexivity.
    + apply IH, Hrest.
Qed.

(** X30.  With the static mesh analyzer as the only registered analyzer, as the
    window registers it, and rules that only append to the output array,
    analysing an asset never drops, changes or reorders the results
    collected before: the array afterwards is the array before followed by
    the new results. *)
Theorem analysis_only_appends
    (rules : list (option IAssetCheckRule)) (c : UClass) (data : FAssetData)
    (Settings : option UPipelineGuardianSettings)
    (out : list FAssetAnalysisResult) :
  (forall R, Some R ∈ rules -> RuleOnlyAppends R) ->
  exists new,
    AnalyzeSingleAsset GetAsset
      (RegisterAssetAnalyzer (Some c) (Some (FStaticMeshAnalyzer GetAsset rules)) ∅)
      data Settings out = out ++ new.
Proof.
  intros Hrules.
  assert (Hsame : exists new : list FAssetAnalysisResult, out = out ++ new).
  { exists []. symmetry. apply app_nil_r. }
  unfold AnalyzeSingleAsset.
  destruct (negb (AssetIsValid data)) eqn:Hvalid; [exact Hsame|].
  destruct (GetAsset data) as [obj|] eqn:Hload; [|exact Hsame].
  destruct (FindAnalyzer _ (GetClass obj)) as [a|] eqn:Hfind; [|exact Hsame].
  destruct (Settings ≫= GetActiveProfile) as [p|]; [|exact Hsame].
  assert (Ha : a = FStaticMeshAnalyzer GetAsset rules).
  { clear -Hfind. revert Hfind. generalize (GetClass obj). intros cls.
    induction cls as [n|n s IH] using UClass_chain_ind;
      cbn [FindAnalyzer RegisterAssetAnalyzer].
    - destruct (decide (GetClassName c = n)) as [->|Hne].
      + rewrite lookup_insert_eq. intros [= <-]. reflexivity.
      + rewrite lookup_insert_ne, lookup_empty by exact Hne. discriminate.
    - destruct (decide (GetClassName c = n)) as [->|Hne].
      + rewrite lookup_insert_eq. intros [= <-]. reflexivity.
      + rewrite lookup_insert_ne, lookup_empty by exact Hne. exact IH. }
  subst a. cbn [AnalyzeAsset FStaticMeshAnalyzer].
  unfold StaticMeshAnalyzer_AnalyzeAsset. rewrite Hvalid, Hload.
  destruct (CastStaticMesh (Some obj)); [|eexists; reflexivity].
  apply rules_only_append, Hrules.
Qed.

End AppendOnly.

Lemma UVCheck_appends Atof FormatFloat1 asset profile out :
  exists new, snd (UVRule.Check Atof FormatFloat1 asset profile out) = out ++ new.
Proof.
  assert (Hsame : exists new : list FAssetAnalysisResult, out = out ++ new).
  { exists []. symmetry. apply app_nil_r. }
  unfold UVRule.Check.
  destruct profile as [p|]; [|exact Hsame].
  destruct (negb _); [exact Hsame|].
  destruct (CastStaticMesh asset) as [m|]; [|exact Hsame].
  destruct (UVRule.AnalyzeStaticMeshUVOverlaps _ _ _ _) as [infos|]; [|exact Hsame].
  cbn [snd].
  rewrite (foldl_cond_app (λ info, 0 <? OverlappingTriangleCount info)
             (UVRule.ResultFor Atof FormatFloat1 m p)).
  eexists. reflexivity.
Qed.

Lemma ExampleRules_only_append :
  forall R, Some R ∈ [Some LODPolyReductionRule; Some UVOverlappingRule] ->
            RuleOnlyAppends R.
Proof.
  intros R HR asset profile out.
  apply elem_of_cons in HR as [[= ->]|HR].
  - destruct (LODCheck_appends Atof_decimal Printf_1f AsNumber_plain true
                asset profile out) as [H|(res & H & _)].
    + exists []. cbn [RuleCheck LODPolyReductionRule].
      rewrite app_nil_r. exact H.
    + exists [res]. exact H.
  - apply list_elem_of_singleton in HR. injection HR as ->.
    apply UVCheck_appends.
Qed.

Lemma analysis_only_appends_witness :
  (forall R, Some R ∈ [Some LODPolyReductionRule; Some UVOverlappingRule] ->
             RuleOnlyAppends R) /\
  exists new,
    AnalyzeSingleAsset ExampleRegistry ExampleAnalyzers (AssetOf WeakLODMesh)
      (Some ExampleSettings) [LoadFailureResult MissingAsset]
    = [LoadFailureResult MissingAsset] ++ new.
Proof.
  split; [exact ExampleRules_only_append|].
  apply (analysis_only_appends ExampleRegistry
           [Some LODPolyReductionRule; Some UVOverlappingRule] StaticMeshClass
           (AssetOf WeakLODMesh) (Some ExampleSettings)
           [LoadFailureResult MissingAsset] ExampleRules_only_append).
Defined.

(** ** The overlap test and the channel report *)




Section UVOverlapClaim.
Variable FormatFloat1 : spec_float -> string.


End UVOverlapClaim.

